(** * pin_scraper: the Pinterest board downloader, embedded and verified

    A shallow embedding of [pinterest_scraper.py] (class [PinterestScraper])
    and the properties of its scrape-and-download pipeline.

    Python [str] values are modelled as byte strings ([string], the UTF-8
    encoding of the text): substring search and replacement with ASCII
    patterns give the same result on the encoding as on the code points,
    and [img_url.encode()] is then the identity.  Python sets and the
    file system are finite sets and maps of stdpp; a set is iterated in
    the order of [elements], one of the orders Python may choose.

    The methods are written in a monad of state and exceptions over a
    record of collaborators (the driver, [requests], PIL, [os]), whose
    answers are arbitrary.  [time.sleep] and the banner lines of
    [scrape_board] are left out; the other lines printed are kept as
    messages. *)

From Stdlib Require Import ZArith String Ascii List Lia DecimalString.
From Stdlib Require DecimalN.
From stdpp Require Import gmap strings list.
From Equations Require Import Equations.

Local Open Scope string_scope.

(** ** Python string primitives *)

Module PyStr.

(** [s.startswith(p)] *)
Fixpoint startswith (p s : string) : bool :=
  match p, s with
  | EmptyString, _ => true
  | String _ _, EmptyString => false
  | String a p', String b s' => Ascii.eqb a b && startswith p' s'
  end.

(** [sub in s] *)
Fixpoint contains (sub s : string) : bool :=
  startswith sub s ||
  match s with
  | EmptyString => false
  | String _ s' => contains sub s'
  end.

(** [s[n:]] *)
Fixpoint drop (n : nat) (s : string) : string :=
  match n, s with
  | O, _ => s
  | S _, EmptyString => EmptyString
  | S n', String _ s' => drop n' s'
  end.

Lemma drop_length_le n s : String.length (drop n s) <= String.length s.
Proof.
  revert s; induction n as [|n IH]; intros [|c s]; simpl; try lia.
  specialize (IH s). lia.
Qed.

(** [s.replace(old, new)] for a non-empty [old]: the occurrences are found
    from the left, without overlap, and every one of them is replaced. *)
Equations? replace_scan (old new s : string) : string
  by wf (String.length s) lt :=
  replace_scan old new EmptyString := EmptyString;
  replace_scan old new (String c s') :=
    if startswith old (String c s')
    then new +:+ replace_scan old new (drop (String.length old - 1) s')
    else String c (replace_scan old new s').
Proof.
  pose proof (drop_length_le (String.length old - 1) s'). simpl. lia.
Qed.

(** With an empty [old], Python puts [new] before every character and at
    the end. *)
Fixpoint replace_empty (new s : string) : string :=
  match s with
  | EmptyString => new
  | String c s' => new +:+ String c (replace_empty new s')
  end.

(** [s.replace(old, new)] *)
Definition replace (old new s : string) : string :=
  match old with
  | EmptyString => replace_empty new s
  | String _ _ => replace_scan old new s
  end.

(** [s.replace(old, new, 1)]: only the first occurrence is replaced. *)
Fixpoint replace_first (old new s : string) : string :=
  if startswith old s then new +:+ drop (String.length old) s
  else match s with
       | EmptyString => EmptyString
       | String c s' => String c (replace_first old new s')
       end.

(** [avoids c s]: the character [c] does not occur in [s]. *)
Fixpoint avoids (c : ascii) (s : string) : bool :=
  match s with
  | EmptyString => true
  | String x s' => negb (Ascii.eqb x c) && avoids c s'
  end.

End PyStr.

(** ** [hashlib.md5(data).hexdigest()]

    The digest of RFC 1321 on 32-bit words, kept in [Z] with the
    wrap-around written out. *)

Module MD5.
Local Open Scope Z_scope.

Definition mask32 : Z := 0xffffffff.
Definition wrap32 (x : Z) : Z := Z.land x mask32.
Definition add32 (x y : Z) : Z := wrap32 (x + y).
Definition not32 (x : Z) : Z := Z.lxor x mask32.
Definition rotl32 (x : Z) (c : Z) : Z :=
  wrap32 (Z.lor (Z.shiftl x c) (Z.shiftr x (32 - c))).

Definition sine_table : list Z :=
  [ 0xd76aa478; 0xe8c7b756; 0x242070db; 0xc1bdceee;
    0xf57c0faf; 0x4787c62a; 0xa8304613; 0xfd469501;
    0x698098d8; 0x8b44f7af; 0xffff5bb1; 0x895cd7be;
    0x6b901122; 0xfd987193; 0xa679438e; 0x49b40821;
    0xf61e2562; 0xc040b340; 0x265e5a51; 0xe9b6c7aa;
    0xd62f105d; 0x02441453; 0xd8a1e681; 0xe7d3fbc8;
    0x21e1cde6; 0xc33707d6; 0xf4d50d87; 0x455a14ed;
    0xa9e3e905; 0xfcefa3f8; 0x676f02d9; 0x8d2a4c8a;
    0xfffa3942; 0x8771f681; 0x6d9d6122; 0xfde5380c;
    0xa4beea44; 0x4bdecfa9; 0xf6bb4b60; 0xbebfbc70;
    0x289b7ec6; 0xeaa127fa; 0xd4ef3085; 0x04881d05;
    0xd9d4d039; 0xe6db99e5; 0x1fa27cf8; 0xc4ac5665;
    0xf4292244; 0x432aff97; 0xab9423a7; 0xfc93a039;
    0x655b59c3; 0x8f0ccc92; 0xffeff47d; 0x85845dd1;
    0x6fa87e4f; 0xfe2ce6e0; 0xa3014314; 0x4e0811a1;
    0xf7537e82; 0xbd3af235; 0x2ad7d2bb; 0xeb86d391 ].

Definition shift_table : list Z :=
  [ 7; 12; 17; 22; 7; 12; 17; 22; 7; 12; 17; 22; 7; 12; 17; 22;
    5;  9; 14; 20; 5;  9; 14; 20; 5;  9; 14; 20; 5;  9; 14; 20;
    4; 11; 16; 23; 4; 11; 16; 23; 4; 11; 16; 23; 4; 11; 16; 23;
    6; 10; 15; 21; 6; 10; 15; 21; 6; 10; 15; 21; 6; 10; 15; 21 ].

Definition bytes_of_string (s : string) : list Z :=
  map (fun c => Z.of_N (N_of_ascii c)) (list_ascii_of_string s).

(** [n] as [k] little-endian bytes *)
Fixpoint le_bytes (k : nat) (n : Z) : list Z :=
  match k with
  | O => []
  | S k' => Z.land n 0xff :: le_bytes k' (Z.shiftr n 8)
  end.

(** The message, one 1 bit, zeros up to 56 modulo 64, the bit length. *)
Definition pad (msg : list Z) : list Z :=
  let len := Z.of_nat (length msg) in
  let zeros := Z.to_nat ((55 - len) mod 64) in
  msg ++ [0x80] ++ repeat 0 zeros ++ le_bytes 8 (Z.land (len * 8) 0xffffffffffffffff).

Fixpoint le_words (fuel : nat) (bs : list Z) : list Z :=
  match fuel, bs with
  | S f, b0 :: b1 :: b2 :: b3 :: rest =>
      (b0 + Z.shiftl b1 8 + Z.shiftl b2 16 + Z.shiftl b3 24) :: le_words f rest
  | _, _ => []
  end.

Record regs := Regs { rA : Z; rB : Z; rC : Z; rD : Z }.

Definition init_regs : regs :=
  Regs 0x67452301 0xefcdab89 0x98badcfe 0x10325476.

Definition step (M : list Z) (r : regs) (i : Z) : regs :=
  let '(Regs a b c d) := r in
  let '(f, g) :=
    if i <? 16 then (Z.lor (Z.land b c) (Z.land (not32 b) d), i)
    else if i <? 32 then (Z.lor (Z.land d b) (Z.land (not32 d) c), (5 * i + 1) mod 16)
    else if i <? 48 then (Z.lxor (Z.lxor b c) d, (3 * i + 5) mod 16)
    else (Z.lxor c (Z.lor b (not32 d)), (7 * i) mod 16) in
  let k := nth (Z.to_nat i) sine_table 0 in
  let m := nth (Z.to_nat g) M 0 in
  let s := nth (Z.to_nat i) shift_table 0 in
  let f' := add32 (add32 (add32 f a) k) m in
  Regs d (add32 b (rotl32 f' s)) b c.

Definition block (r : regs) (M : list Z) : regs :=
  let r' := fold_left (step M) (map Z.of_nat (seq 0 64)) r in
  Regs (add32 (rA r) (rA r')) (add32 (rB r) (rB r'))
       (add32 (rC r) (rC r')) (add32 (rD r) (rD r')).

Fixpoint blocks (fuel : nat) (r : regs) (ws : list Z) : regs :=
  match fuel, ws with
  | S f, _ :: _ => blocks f (block r (firstn 16 ws)) (skipn 16 ws)
  | _, _ => r
  end.

Definition digest (msg : list Z) : list Z :=
  let ws := let bs := pad msg in le_words (length bs) bs in
  let r := blocks (length ws) init_regs ws in
  le_bytes 4 (rA r) ++ le_bytes 4 (rB r) ++ le_bytes 4 (rC r) ++ le_bytes 4 (rD r).

Definition hex_digit (n : Z) : ascii :=
  nth (Z.to_nat n) (list_ascii_of_string "0123456789abcdef") "0"%char.

Fixpoint hex_of_bytes (bs : list Z) : string :=
  match bs with
  | [] => EmptyString
  | b :: bs' => String (hex_digit (Z.shiftr b 4))
                  (String (hex_digit (Z.land b 0xf)) (hex_of_bytes bs'))
  end.

Definition hexdigest (s : string) : string :=
  hex_of_bytes (digest (bytes_of_string s)).

End MD5.

(** ** File names *)

Module Naming.

(** [format(n, "04d")]: the sign, then the decimal digits padded with
    zeros so that the whole is at least four characters wide. *)
Definition zfill (width : nat) (digits : string) : string :=
  string_of_list_ascii (repeat "0"%char (width - String.length digits)) +:+ digits.

Definition format_04d (n : Z) : string :=
  let digits := NilZero.string_of_uint (N.to_uint (Z.abs_N n)) in
  if (n <? 0)%Z then "-" +:+ zfill 3 digits else zfill 4 digits.

(** [hashlib.md5(img_url.encode()).hexdigest()[:8]] *)
Definition url_hash (img_url : string) : string :=
  substring 0 8 (MD5.hexdigest img_url).

(** [f"pinterest_{img_num:04d}_{url_hash}.jpg"] *)
Definition filename (img_url : string) (img_num : Z) : string :=
  "pinterest_" +:+ format_04d img_num +:+ "_" +:+ url_hash img_url +:+ ".jpg".

(** [s.endswith("/")] *)
Fixpoint ends_with_sep (s : string) : bool :=
  match s with
  | EmptyString => false
  | String c EmptyString => Ascii.eqb c "/"
  | String _ s' => ends_with_sep s'
  end.

(** [os.path.join(a, b)] of posixpath *)
Definition os_path_join (a b : string) : string :=
  if PyStr.startswith "/" b then b
  else if (String.length a =? 0)%nat || ends_with_sep a then a +:+ b
  else a +:+ "/" +:+ b.

End Naming.

(** ** The world the scraper runs in *)

(** Exceptions that the collaborators raise.  All of them derive from
    [Exception]; an interrupt from the keyboard is outside the model. *)
Inductive exn : Type :=
| TimeoutException
| WebDriverException
| ConnectionError
| HTTPError (status_code : Z)
| OSError
| EOFError
| RecursionError.

Inductive result (A : Type) : Type :=
| Ok (a : A)
| Raise (e : exn).
Arguments Ok {A} a.
Arguments Raise {A} e.

(** What [requests.get] returns. *)
Record response := Response { status_code : Z; content : string }.

(** [open(filepath, "wb")] followed by [f.write(...)]: the file is written,
    or it cannot be opened, or the write stops after a prefix. *)
Inductive write_outcome : Type :=
| Written
| OpenFailed
| WriteFailed (kept : nat).

(** The lines the program prints. *)
Inductive message : Type :=
| MsgLoggedIn
| MsgNotLoggedIn
| MsgLoginUndetermined
| MsgLoginError (e : exn)
| MsgReachedBottom
| MsgScroll (i max_scrolls new_height : Z)
| MsgFoundImages (n : nat)
| MsgWaitTimeout
| MsgExtracted (n : nat)
| MsgAlreadyExists (filename : string)
| MsgInvalidImage (filename : string)
| MsgDownloaded (filename : string) (kb : nat)
| MsgDownloadFailed (img_num : Z) (e : exn)
| MsgLoginCheckFailed
| MsgRedirected
| MsgNoImages
| MsgProgress (i : Z) (total : nat)
| MsgCompleted (successful : Z) (total : nat)
| MsgScrapeError (e : exn)
| MsgBrowserClosed.

(** The collaborators: Selenium's driver, [requests], PIL and [os].  An
    answer may depend on how many calls of its kind came before. *)
Record env := Env {
  driver_get : nat -> string -> result unit;
  (** [find_element(By.XPATH, x).is_displayed()] *)
  find_displayed : nat -> string -> result bool;
  (** [input(...)] *)
  user_input : nat -> result unit;
  (** [driver.current_url] after the given number of navigations *)
  current_url : nat -> string;
  (** [execute_script("window.scrollTo(0, document.body.scrollHeight);")] *)
  scroll_to : nat -> result unit;
  (** [execute_script("return document.body.scrollHeight")] *)
  scroll_height : nat -> result Z;
  (** [WebDriverWait(driver, 15).until(presence_of_element_located(...))] *)
  wait_for_image : result unit;
  (** [find_elements(By.XPATH, "//img[contains(@src, 'pinimg.com')]")],
      each element given by what [get_attribute('src')] answers *)
  images_by_xpath : result (list (result (option string)));
  (** [find_elements(By.TAG_NAME, "img")] *)
  images_by_tag : result (list (result (option string)));
  requests_get : nat -> string -> result response;
  (** [Image.open(io.BytesIO(content)).verify()] goes through *)
  image_verify : string -> bool;
  open_write : string -> string -> write_outcome;
  makedirs : string -> result unit
}.

(** The scraper object ([downloaded_urls], the driver) and what it has
    done to the outside. *)
Record state := State {
  downloaded_urls : gset string;
  files : gmap string string;
  requests : list string;
  navigations : list string;
  probes : nat;
  prompts : nat;
  scrolls : nat;
  height_reads : nat;
  quits : nat;
  stdout : list message
}.

Definition set_downloaded_urls (f : gset string -> gset string) (s : state) : state :=
  State (f (downloaded_urls s)) (files s) (requests s) (navigations s)
        (probes s) (prompts s) (scrolls s) (height_reads s) (quits s) (stdout s).
Definition set_files (f : gmap string string -> gmap string string) (s : state) : state :=
  State (downloaded_urls s) (f (files s)) (requests s) (navigations s)
        (probes s) (prompts s) (scrolls s) (height_reads s) (quits s) (stdout s).
Definition set_requests (f : list string -> list string) (s : state) : state :=
  State (downloaded_urls s) (files s) (f (requests s)) (navigations s)
        (probes s) (prompts s) (scrolls s) (height_reads s) (quits s) (stdout s).
Definition set_navigations (f : list string -> list string) (s : state) : state :=
  State (downloaded_urls s) (files s) (requests s) (f (navigations s))
        (probes s) (prompts s) (scrolls s) (height_reads s) (quits s) (stdout s).
Definition set_probes (f : nat -> nat) (s : state) : state :=
  State (downloaded_urls s) (files s) (requests s) (navigations s)
        (f (probes s)) (prompts s) (scrolls s) (height_reads s) (quits s) (stdout s).
Definition set_prompts (f : nat -> nat) (s : state) : state :=
  State (downloaded_urls s) (files s) (requests s) (navigations s)
        (probes s) (f (prompts s)) (scrolls s) (height_reads s) (quits s) (stdout s).
Definition set_scrolls (f : nat -> nat) (s : state) : state :=
  State (downloaded_urls s) (files s) (requests s) (navigations s)
        (probes s) (prompts s) (f (scrolls s)) (height_reads s) (quits s) (stdout s).
Definition set_height_reads (f : nat -> nat) (s : state) : state :=
  State (downloaded_urls s) (files s) (requests s) (navigations s)
        (probes s) (prompts s) (scrolls s) (f (height_reads s)) (quits s) (stdout s).
Definition set_quits (f : nat -> nat) (s : state) : state :=
  State (downloaded_urls s) (files s) (requests s) (navigations s)
        (probes s) (prompts s) (scrolls s) (height_reads s) (f (quits s)) (stdout s).
Definition set_stdout (f : list message -> list message) (s : state) : state :=
  State (downloaded_urls s) (files s) (requests s) (navigations s)
        (probes s) (prompts s) (scrolls s) (height_reads s) (quits s) (f (stdout s)).

(** A scraper just constructed, in a world with the given files. *)
Definition new_scraper (fs : gmap string string) : state :=
  State ∅ fs [] [] 0 0 0 0 0 [].

(** ** Computations: state passing with exceptions *)

Definition M (A : Type) : Type := state -> result A * state.

Definition ret {A} (a : A) : M A := fun s => (Ok a, s).
Definition raise {A} (e : exn) : M A := fun s => (Raise e, s).
Definition bind {A B} (m : M A) (k : A -> M B) : M B :=
  fun s => match m s with
           | (Ok a, s') => k a s'
           | (Raise e, s') => (Raise e, s')
           end.
Definition lift {A} (r : result A) : M A := fun s => (r, s).
Definition gets {A} (f : state -> A) : M A := fun s => (Ok (f s), s).
Definition modify (f : state -> state) : M unit := fun s => (Ok tt, f s).

(** [try: m  except Exception as e: h e] *)
Definition try_except {A} (m : M A) (h : exn -> M A) : M A :=
  fun s => match m s with
           | (Ok a, s') => (Ok a, s')
           | (Raise e, s') => h e s'
           end.

(** [try: m  finally: c] *)
Definition try_finally {A} (m : M A) (c : M unit) : M A :=
  fun s => match m s with
           | (r, s') => match c s' with
                        | (Ok _, s'') => (r, s'')
                        | (Raise e, s'') => (Raise e, s'')
                        end
           end.

Declare Scope py_scope.
Delimit Scope py_scope with py.
Notation "x <- m ;; k" := (bind m (fun x => k))
  (at level 100, m at next level, right associativity) : py_scope.
Notation "m ;; k" := (bind m (fun _ => k))
  (at level 100, right associativity) : py_scope.

Definition print (m : message) : M unit := modify (set_stdout (cons m)).

(** ** class PinterestScraper *)

Section PinterestScraper.

Variable E : env.

Local Open Scope py_scope.
Local Open Scope Z_scope.

(** *** Calls to the collaborators *)

Definition navigate (url : string) : M unit :=
  fun s => (driver_get E (length (navigations s)) url, set_navigations (cons url) s).

Definition is_displayed (xpath : string) : M bool :=
  fun s => (find_displayed E (probes s) xpath, set_probes S s).

Definition input : M unit :=
  fun s => (user_input E (prompts s), set_prompts S s).

Definition execute_scroll : M unit :=
  fun s => (scroll_to E (scrolls s), set_scrolls S s).

Definition read_scroll_height : M Z :=
  fun s => (scroll_height E (height_reads s), set_height_reads S s).

Definition get_current_url : M string :=
  gets (fun s => current_url E (length (navigations s))).

Definition http_get (url : string) : M response :=
  fun s => (requests_get E (length (requests s)) url, set_requests (cons url) s).

(** [response.raise_for_status()] raises on client and server errors. *)
Definition raise_for_status (r : response) : M unit :=
  if (400 <=? status_code r) && (status_code r <? 600)
  then raise (HTTPError (status_code r))
  else ret tt.

Definition os_path_exists (path : string) : M bool :=
  gets (fun s => bool_decide (is_Some (files s !! path))).

Definition write_file (path data : string) : M unit :=
  fun s => match open_write E path data with
           | Written => (Ok tt, set_files (insert path data) s)
           | OpenFailed => (Raise OSError, s)
           | WriteFailed kept =>
               (Raise OSError, set_files (insert path (substring 0 kept data)) s)
           end.

Definition os_makedirs (path : string) : M unit := lift (makedirs E path).

Definition driver_quit : M unit := modify (set_quits S).

(** *** check_login_status *)

Definition logged_in_indicators : list string :=
  [ "//div[@data-test-id='header-profile']";
    "//div[contains(@class, 'profile')]";
    "//a[contains(@href, '/settings/')]";
    "//button[contains(@aria-label, 'Profile')]" ].

Definition login_indicators : list string :=
  [ "//button[contains(text(), 'Log in')]";
    "//div[contains(text(), 'Welcome to Pinterest')]";
    "//input[@type='email']" ].

(** The first loop: the first displayed indicator answers [True]; an
    indicator that is absent, hidden or raises is passed over. *)
Fixpoint probe_logged_in (indicators : list string) : M bool :=
  match indicators with
  | [] => ret false
  | indicator :: rest =>
      shown <- try_except (is_displayed indicator) (fun _ => ret false) ;;
      if shown then print MsgLoggedIn ;; ret true
      else probe_logged_in rest
  end.

(** The second loop.  On a displayed login indicator the operator is
    prompted and the check starts again ([again]); whatever is raised
    inside the [try], the prompt and the new check included, moves on to
    the next indicator. *)
Fixpoint probe_login (again : M bool) (indicators : list string) : M bool :=
  match indicators with
  | [] => print MsgLoginUndetermined ;; ret true
  | indicator :: rest =>
      answer <- try_except
                  (shown <- is_displayed indicator ;;
                   if shown then
                     print MsgNotLoggedIn ;; input ;;
                     v <- again ;; ret (Some v)
                   else ret None)
                  (fun _ => ret None) ;;
      match answer with
      | Some v => ret v
      | None => probe_login again rest
      end
  end.

(** [check_login_status] calls itself through
    [verify_login_after_manual]; [depth] is the number of nested checks
    the interpreter's recursion limit leaves room for. *)
Fixpoint check_login_status (depth : nat) : M bool :=
  match depth with
  | O => raise RecursionError
  | S d =>
      try_except
        (navigate "https://www.pinterest.com" ;;
         found <- probe_logged_in logged_in_indicators ;;
         if found then ret true
         else probe_login (check_login_status d) login_indicators)
        (fun e => print (MsgLoginError e) ;; ret false)
  end.

(** [verify_login_after_manual] waits and runs the check again: it is the
    [again] of the second loop. *)
Definition verify_login_after_manual (depth : nat) : M bool :=
  check_login_status depth.

(** *** scroll_to_bottom *)

(** The body of [for i in range(max_scrolls)], [remaining] iterations
    being left. *)
Fixpoint scroll_loop (remaining : nat) (i max_scrolls last_height no_change_count : Z)
  : M unit :=
  match remaining with
  | O => ret tt
  | S remaining' =>
      execute_scroll ;;
      new_height <- read_scroll_height ;;
      if new_height =? last_height then
        let no_change_count := no_change_count + 1 in
        if no_change_count >=? 3 then print MsgReachedBottom
        else
          print (MsgScroll (i + 1) max_scrolls new_height) ;;
          scroll_loop remaining' (i + 1) max_scrolls last_height no_change_count
      else
        print (MsgScroll (i + 1) max_scrolls new_height) ;;
        scroll_loop remaining' (i + 1) max_scrolls new_height 0
  end.

Definition scroll_to_bottom (max_scrolls : Z) : M unit :=
  last_height <- read_scroll_height ;;
  scroll_loop (Z.to_nat max_scrolls) 0 max_scrolls last_height 0.

(** *** extract_image_urls *)

(** Truth value of a [str]. *)
Definition truthy (s : string) : bool := negb (String.eqb s "").

(** The rewriting of [src] in the first loop. *)
Definition high_res (src : string) : string :=
  if PyStr.contains "236x" src then PyStr.replace "236x" "736x" src
  else if PyStr.contains "564x" src then PyStr.replace "564x" "736x" src
  else src.

(** One iteration of the first loop; [get_attribute] raising is passed
    over. *)
Definition collect_primary (image_urls : gset string) (img : result (option string))
  : gset string :=
  match img with
  | Ok (Some src) => if truthy src then {[ high_res src ]} ∪ image_urls else image_urls
  | Ok None => image_urls
  | Raise _ => image_urls
  end.

(** The loop of the [except TimeoutException] branch; here nothing
    catches what [get_attribute] raises. *)
Fixpoint collect_fallback (images : list (result (option string)))
  (image_urls : gset string) : M (gset string) :=
  match images with
  | [] => ret image_urls
  | img :: rest =>
      src <- lift img ;;
      collect_fallback rest
        match src with
        | Some src =>
            if truthy src && PyStr.contains "pinimg.com" src
            then {[ src ]} ∪ image_urls else image_urls
        | None => image_urls
        end
  end.

Definition extract_image_urls : M (list string) :=
  image_urls <-
    try_except
      (lift (wait_for_image E) ;;
       images <- lift (images_by_xpath E) ;;
       print (MsgFoundImages (length images)) ;;
       ret (fold_left collect_primary images ∅))
      (fun e =>
         match e with
         | TimeoutException =>
             print MsgWaitTimeout ;;
             images <- lift (images_by_tag E) ;;
             collect_fallback images ∅
         | _ => raise e
         end) ;;
  let urls := List.filter truthy (elements image_urls) in
  print (MsgExtracted (length urls)) ;;
  ret urls.

(** *** download_image *)

Definition mark_downloaded (img_url : string) : M unit :=
  modify (set_downloaded_urls (fun seen => {[ img_url ]} ∪ seen)).

Definition download_image (img_url folder_path : string) (img_num : Z) : M bool :=
  try_except
    (seen <- gets downloaded_urls ;;
     if bool_decide (img_url ∈ seen) then ret false
     else
       let filename := Naming.filename img_url img_num in
       let filepath := Naming.os_path_join folder_path filename in
       present <- os_path_exists filepath ;;
       if present then
         print (MsgAlreadyExists filename) ;;
         mark_downloaded img_url ;;
         ret true
       else
         response <- http_get img_url ;;
         raise_for_status response ;;
         if image_verify E (content response) then
           write_file filepath (content response) ;;
           mark_downloaded img_url ;;
           print (MsgDownloaded filename (String.length (content response) / 1024)%nat) ;;
           ret true
         else
           print (MsgInvalidImage filename) ;;
           ret false)
    (fun e => print (MsgDownloadFailed img_num e) ;; ret false).

(** The path [download_image] looks at and writes to. *)
Definition target (img_url folder_path : string) (img_num : Z) : string :=
  Naming.os_path_join folder_path (Naming.filename img_url img_num).

(** *** scrape_board *)

(** [for i, img_url in enumerate(image_urls, 1)], from ordinal [i] on. *)
Fixpoint download_all (image_urls : list string) (output_folder : string)
  (i : Z) (total : nat) (successful : Z) : M Z :=
  match image_urls with
  | [] => ret successful
  | img_url :: rest =>
      ok <- download_image img_url output_folder i ;;
      let successful := if ok then successful + 1 else successful in
      (if i mod 10 =? 0 then print (MsgProgress i total) else ret tt) ;;
      download_all rest output_folder (i + 1) total successful
  end.

(** What stands inside [try:] in [scrape_board]. *)
Definition pipeline (depth : nat) (board_url output_folder : string) : M unit :=
  logged_in <- check_login_status depth ;;
  if negb logged_in then print MsgLoginCheckFailed
  else
    navigate board_url ;;
    url <- get_current_url ;;
    if negb (PyStr.contains "pinterest.com" url) || PyStr.contains "login" url
    then print MsgRedirected
    else
      scroll_to_bottom 30 ;;
      image_urls <- extract_image_urls ;;
      match image_urls with
      | [] => print MsgNoImages
      | _ :: _ =>
          successful <- download_all image_urls output_folder 1
                          (length image_urls) 0 ;;
          print (MsgCompleted successful (length image_urls))
      end.

(** [os.makedirs] comes before the [try] statement; its [except] branch
    prints and raises again, and its [finally] block closes the browser
    (the scraper has a driver once it is constructed). *)
Definition scrape_board (depth : nat) (board_url output_folder : string) : M unit :=
  os_makedirs output_folder ;;
  try_finally
    (try_except
       (pipeline depth board_url output_folder)
       (fun e => print (MsgScrapeError e) ;; raise e))
    (driver_quit ;; print MsgBrowserClosed).

End PinterestScraper.

(** ** Sample worlds *)

Module Sample.

(** A board page without images, a network that is down. *)
Definition quiet : env :=
  Env (fun _ _ => Ok tt)
      (fun _ _ => Raise WebDriverException)
      (fun _ => Ok tt)
      (fun _ => "https://jp.pinterest.com/user/board/")
      (fun _ => Ok tt)
      (fun _ => Ok 1000%Z)
      (Ok tt)
      (Ok [])
      (Ok [])
      (fun _ _ => Raise ConnectionError)
      (fun _ => false)
      (fun _ _ => Written)
      (fun _ => Ok tt).

Definition with_xpath_images (images : list (result (option string))) (e : env) : env :=
  Env (driver_get e) (find_displayed e) (user_input e) (current_url e)
      (scroll_to e) (scroll_height e) (wait_for_image e) (Ok images)
      (images_by_tag e) (requests_get e) (image_verify e) (open_write e) (makedirs e).

(** The wait times out and the page holds the given [img] elements. *)
Definition with_timeout (images : list (result (option string))) (e : env) : env :=
  Env (driver_get e) (find_displayed e) (user_input e) (current_url e)
      (scroll_to e) (scroll_height e) (Raise TimeoutException) (images_by_xpath e)
      (Ok images) (requests_get e) (image_verify e) (open_write e) (makedirs e).

Definition with_heights (h : nat -> result Z) (e : env) : env :=
  Env (driver_get e) (find_displayed e) (user_input e) (current_url e)
      (scroll_to e) h (wait_for_image e) (images_by_xpath e)
      (images_by_tag e) (requests_get e) (image_verify e) (open_write e) (makedirs e).

Definition with_requests (get : nat -> string -> result response)
  (verify : string -> bool) (e : env) : env :=
  Env (driver_get e) (find_displayed e) (user_input e) (current_url e)
      (scroll_to e) (scroll_height e) (wait_for_image e) (images_by_xpath e)
      (images_by_tag e) get verify (open_write e) (makedirs e).

Definition with_makedirs (mk : string -> result unit) (e : env) : env :=
  Env (driver_get e) (find_displayed e) (user_input e) (current_url e)
      (scroll_to e) (scroll_height e) (wait_for_image e) (images_by_xpath e)
      (images_by_tag e) (requests_get e) (image_verify e) (open_write e) mk.

(** The heights of a list, the last one repeated for ever. *)
Definition heights_of (hs : list Z) (k : nat) : result Z :=
  Ok (nth k hs (List.last hs 0%Z)).

(** Payloads: a picture is whatever starts with the JPEG marker here. *)
Definition jpeg : string := "JFIF: a picture".
Definition looks_like_jpeg (data : string) : bool := PyStr.startswith "JFIF" data.

End Sample.

(** ** The ways through [download_image]

    [download_path E img_url folder_path img_num s r] lists, for a call in
    state [s], the paths the method can take with what it returns and the
    state it leaves: [r] is the pair of both. *)

Section DownloadPaths.

Variable E : env.
Variables (img_url folder_path : string) (img_num : Z).
Variable s : state.

Let filename := Naming.filename img_url img_num.
Let filepath := target img_url folder_path img_num.
Let requested := set_requests (cons img_url) s.

Inductive download_path : result bool * state -> Prop :=
| path_in_session :
    img_url ∈ downloaded_urls s ->
    download_path (Ok false, s)
| path_already_exists :
    img_url ∉ downloaded_urls s ->
    is_Some (files s !! filepath) ->
    download_path
      (Ok true,
       set_downloaded_urls (fun seen => {[ img_url ]} ∪ seen)
         (set_stdout (cons (MsgAlreadyExists filename)) s))
| path_request_raises e :
    img_url ∉ downloaded_urls s ->
    files s !! filepath = None ->
    requests_get E (length (requests s)) img_url = Raise e ->
    download_path (Ok false, set_stdout (cons (MsgDownloadFailed img_num e)) requested)
| path_bad_status r :
    img_url ∉ downloaded_urls s ->
    files s !! filepath = None ->
    requests_get E (length (requests s)) img_url = Ok r ->
    (400 <= status_code r < 600)%Z ->
    download_path
      (Ok false,
       set_stdout (cons (MsgDownloadFailed img_num (HTTPError (status_code r)))) requested)
| path_invalid_image r :
    img_url ∉ downloaded_urls s ->
    files s !! filepath = None ->
    requests_get E (length (requests s)) img_url = Ok r ->
    ~ (400 <= status_code r < 600)%Z ->
    image_verify E (content r) = false ->
    download_path (Ok false, set_stdout (cons (MsgInvalidImage filename)) requested)
| path_written r :
    img_url ∉ downloaded_urls s ->
    files s !! filepath = None ->
    requests_get E (length (requests s)) img_url = Ok r ->
    ~ (400 <= status_code r < 600)%Z ->
    image_verify E (content r) = true ->
    open_write E filepath (content r) = Written ->
    download_path
      (Ok true,
       set_stdout (cons (MsgDownloaded filename (String.length (content r) / 1024)))
         (set_downloaded_urls (fun seen => {[ img_url ]} ∪ seen)
            (set_files (insert filepath (content r)) requested)))
| path_open_raises r :
    img_url ∉ downloaded_urls s ->
    files s !! filepath = None ->
    requests_get E (length (requests s)) img_url = Ok r ->
    ~ (400 <= status_code r < 600)%Z ->
    image_verify E (content r) = true ->
    open_write E filepath (content r) = OpenFailed ->
    download_path (Ok false, set_stdout (cons (MsgDownloadFailed img_num OSError)) requested)
| path_write_raises r kept :
    img_url ∉ downloaded_urls s ->
    files s !! filepath = None ->
    requests_get E (length (requests s)) img_url = Ok r ->
    ~ (400 <= status_code r < 600)%Z ->
    image_verify E (content r) = true ->
    open_write E filepath (content r) = WriteFailed kept ->
    download_path
      (Ok false,
       set_stdout (cons (MsgDownloadFailed img_num OSError))
         (set_files (insert filepath (substring 0 kept (content r))) requested)).

End DownloadPaths.

(** A later run of the program: a new scraper object, in the world the
    run before has left. *)
Definition next_run (s : state) : state := set_downloaded_urls (fun _ => ∅) s.

(** One call of [download_image], whatever its arguments. *)
Definition download_step (E : env) (s s' : state) : Prop :=
  exists img_url folder_path img_num,
    snd (download_image E img_url folder_path img_num s) = s'.

(** The milestone line of the loop of [scrape_board], every tenth turn. *)
Definition progress (i : Z) (total : nat) (st : state) : state :=
  if (i mod 10 =? 0)%Z then set_stdout (cons (MsgProgress i total)) st else st.

(** What a run prints in which every file is found on disk. *)
Fixpoint all_exist_report (image_urls : list string) (i : Z) (total : nat)
  : list message :=
  match image_urls with
  | [] => []
  | img_url :: rest =>
      MsgAlreadyExists (Naming.filename img_url i)
      :: (if (i mod 10 =? 0)%Z then [MsgProgress i total] else [])
      ++ all_exist_report rest (i + 1) total
  end.

(** Worlds for the downloader: every request is answered with a picture;
    every request is answered 404. *)
Definition serving_pictures : env :=
  Sample.with_requests (fun _ _ => Ok (Response 200 Sample.jpeg))
    Sample.looks_like_jpeg Sample.quiet.

Definition serving_404 : env :=
  Sample.with_requests (fun _ _ => Ok (Response 404 "<html>Not Found</html>"))
    Sample.looks_like_jpeg Sample.quiet.

(** Every request is answered 200 with an HTML page. *)
Definition serving_html : env :=
  Sample.with_requests (fun _ _ => Ok (Response 200 "<html>Oops</html>"))
    Sample.looks_like_jpeg Sample.quiet.

(** The value of [no_change_count] after iteration [j] of the scroll loop
    when the loop has not been left before, the readings being [hs 0]
    (before the loop), [hs 1] (iteration 1), ... *)
Fixpoint no_change_run (hs : nat -> Z) (j : nat) : nat :=
  match j with
  | O => O
  | S j' => if (hs (S j') =? hs j')%Z then S (no_change_run hs j') else O
  end.

(** The page reports 1000, then 2000 for ever. *)
Definition page_1000_2000 : env :=
  Sample.with_heights (Sample.heights_of [1000; 2000; 2000; 2000]%Z) Sample.quiet.

(** A computation that does not close the browser. *)
Definition keeps_quits {A : Type} (m : M A) : Prop :=
  forall st, quits (snd (m st)) = quits st.

(** The output folder cannot be created: a regular file has its name. *)
Definition folder_is_a_file : env :=
  Sample.with_makedirs (fun _ => Raise OSError) Sample.quiet.

(** ** Construction of the scraper, and the command line *)

(** What [Options] collects: the arguments in the order they were added,
    and the dict of experimental options. *)
Inductive option_value : Type :=
| OptList (items : list string)
| OptBool (b : bool).

Record chrome_options := ChromeOptions {
  arguments : list string;
  experimental_options : gmap string option_value
}.

Definition add_argument (a : string) (o : chrome_options) : chrome_options :=
  ChromeOptions (arguments o ++ [a])%list (experimental_options o).

Definition add_experimental_option (name : string) (v : option_value)
  (o : chrome_options) : chrome_options :=
  ChromeOptions (arguments o) (<[ name := v ]> (experimental_options o)).

(** The host the program is started on.  [chrome k path options] is the
    [k]-th call of [webdriver.Chrome], with [executable_path=path] when a
    path is given; [hide_webdriver k] is the [execute_script] call that
    redefines [navigator.webdriver] in the browser that call started. *)
Record host := Host {
  getenv_user : option string;
  chrome : nat -> option string -> chrome_options -> result unit;
  hide_webdriver : nat -> result unit
}.

(** The lines [setup_driver] and its helpers print. *)
Inductive setup_message : Type :=
| MsgFoundProfile (profile_path : string)
| MsgNoProfile
| MsgUsingProfile
| MsgTemporaryProfile
| MsgDriverReady
| MsgInitialFailed (e : exn)
| MsgTrying (path : string)
| MsgAllFailed (e : exn).

(** The scraper under construction: [self.driver] (the call that started
    the browser it holds), the calls of [webdriver.Chrome] made so far
    with their [executable_path] and options (most recent first), the
    browsers these calls have started, and what was printed. *)
Record launch := Launch {
  driver : option nat;
  attempts : list (option string * chrome_options);
  browsers : list nat;
  console : list setup_message
}.

Definition no_launch : launch := Launch None [] [] [].

Definition say (m : setup_message) (l : launch) : launch :=
  Launch (driver l) (attempts l) (browsers l) (m :: console l).

(** [str(x)] inside an f-string, for what [os.getenv] returns. *)
Definition format_user (username : option string) : string :=
  match username with
  | Some name => name
  | None => "None"
  end.

(** [for path in paths: if os.path.exists(path): ... return]: the path
    the loop stops at. *)
Fixpoint first_existing (fs : gmap string string) (paths : list string)
  : option string :=
  match paths with
  | [] => None
  | path :: rest =>
      if bool_decide (is_Some (fs !! path)) then Some path
      else first_existing fs rest
  end.

Section Setup.

Variable H : host.
Variable fs : gmap string string.

Definition chrome_profiles : list string :=
  let username := format_user (getenv_user H) in
  [ "/Users/" +:+ username +:+ "/Library/Application Support/Google/Chrome/Default";
    "/Users/" +:+ username +:+ "/Library/Application Support/Google/Chrome/Profile 1" ].

Definition get_chrome_profile_path (l : launch) : option string * launch :=
  match first_existing fs chrome_profiles with
  | Some profile_path => (Some profile_path, say (MsgFoundProfile profile_path) l)
  | None => (None, say MsgNoProfile l)
  end.

(** [self.driver = webdriver.Chrome(...)]: the attribute is assigned only
    when the call returns. *)
Definition start_chrome (path : option string) (options : chrome_options)
  (l : launch) : result unit * launch :=
  let k := length (attempts l) in
  match chrome H k path options with
  | Ok _ =>
      (Ok tt, Launch (Some k) ((path, options) :: attempts l) (k :: browsers l) (console l))
  | Raise e =>
      (Raise e, Launch (driver l) ((path, options) :: attempts l) (browsers l) (console l))
  end.

Definition possible_paths : list string :=
  [ "/usr/local/bin/chromedriver";
    "/opt/homebrew/bin/chromedriver";
    "/Applications/Google Chrome.app/Contents/MacOS/chromedriver" ].

(** The loop returns at the first path that exists, whatever the call
    with it does; what is raised is printed and raised again. *)
Definition setup_driver_alternative (options : chrome_options) (l : launch)
  : result unit * launch :=
  let '(r, l') :=
    match first_existing fs possible_paths with
    | Some path => start_chrome (Some path) options (say (MsgTrying path) l)
    | None => start_chrome None options l
    end in
  match r with
  | Ok _ => (Ok tt, l')
  | Raise e => (Raise e, say (MsgAllFailed e) l')
  end.

(** The options of [setup_driver]; a profile path is never empty, so it
    is true whenever it is not [None]. *)
Definition build_options (profile_path : option string) (headless : bool)
  : chrome_options :=
  let o := ChromeOptions [] ∅ in
  let o := match profile_path with
           | Some p =>
               if negb (String.eqb p "")
               then add_argument ("--user-data-dir=" +:+ p) o
               else add_argument "--user-data-dir=/tmp/chrome_profile" o
           | None => add_argument "--user-data-dir=/tmp/chrome_profile" o
           end in
  let o := if headless then add_argument "--headless=new" o else o in
  let o := add_argument "--no-sandbox" o in
  let o := add_argument "--disable-dev-shm-usage" o in
  let o := add_argument "--disable-gpu" o in
  let o := add_argument "--window-size=1920,1080" o in
  let o := add_argument "--user-agent=Mozilla/5.0 (Macintosh; Intel Mac OS X 10_15_7) AppleWebKit/537.36 (KHTML, like Gecko) Chrome/120.0.0.0 Safari/537.36" o in
  let o := add_argument "--disable-blink-features=AutomationControlled" o in
  let o := add_experimental_option "excludeSwitches" (OptList ["enable-automation"]) o in
  add_experimental_option "useAutomationExtension" (OptBool false) o.

Definition setup_driver (headless : bool) (l : launch) : result unit * launch :=
  let '(profile_path, l) := get_chrome_profile_path l in
  let l := match profile_path with
           | Some p => if negb (String.eqb p "") then say MsgUsingProfile l
                       else say MsgTemporaryProfile l
           | None => say MsgTemporaryProfile l
           end in
  let chrome_options := build_options profile_path headless in
  let '(r, l1) := start_chrome None chrome_options l in
  match r with
  | Ok _ =>
      match hide_webdriver H (length (attempts l)) with
      | Ok _ => (Ok tt, say MsgDriverReady l1)
      | Raise e => setup_driver_alternative chrome_options (say (MsgInitialFailed e) l1)
      end
  | Raise e => setup_driver_alternative chrome_options (say (MsgInitialFailed e) l1)
  end.

(** [PinterestScraper(headless)]: the driver, then an empty set of
    downloaded URLs. *)
Definition init (headless : bool) : result state * launch :=
  match setup_driver headless no_launch with
  | (Ok _, l) => (Ok (new_scraper fs), l)
  | (Raise e, l) => (Raise e, l)
  end.

End Setup.

(** What [main] prints itself. *)
Inductive main_message : Type :=
| MsgUsage
| MsgInvalidURL
| MsgFatal (e : exn).

(** A run of the program: the exit status, what [main] printed, the
    construction of the scraper if it came to it, and the state
    [scrape_board] has left if it was called. *)
Record run := Run {
  exit_status : Z;
  main_out : list main_message;
  constructed : option launch;
  scraped : option state
}.

(** [main], [argv] being [sys.argv].  [sys.exit(1)] ends the run with
    status 1, a return from [main] with status 0. *)
Definition main (H : host) (E : env) (depth : nat) (fs : gmap string string)
  (argv : list string) : run :=
  match argv with
  | [_; board_url; output_folder] =>
      if negb (PyStr.startswith "https://jp.pinterest.com/" board_url)
      then Run 1 [MsgInvalidURL] None None
      else
        match init H fs false with
        | (Raise e, l) => Run 1 [MsgFatal e] (Some l) None
        | (Ok scraper, l) =>
            match scrape_board E depth board_url output_folder scraper with
            | (Ok _, st) => Run 0 [] (Some l) (Some st)
            | (Raise e, st) => Run 1 [MsgFatal e] (Some l) (Some st)
            end
        end
  | _ => Run 1 [MsgUsage] None None
  end.

(** [check_chrome.py]: start Chrome, load a page, report, quit.  Nothing
    is caught: what is raised ends the script with status 1. *)
Record chrome_check := ChromeCheck {
  check_status : Z;
  check_started : bool;
  check_reported : bool;
  check_quit : bool
}.

Definition check_chrome (H : host) (get : string -> result unit) : chrome_check :=
  let options := add_argument "--window-size=1920,1080" (ChromeOptions [] ∅) in
  match chrome H 0 None options with
  | Raise _ => ChromeCheck 1 false false false
  | Ok _ =>
      match get "https://www.google.com" with
      | Raise _ => ChromeCheck 1 true false false
      | Ok _ => ChromeCheck 0 true true true
      end
  end.

(** ** More sample worlds *)

Module World.

Definition with_driver_get (get : nat -> string -> result unit) (e : env) : env :=
  Env get (find_displayed e) (user_input e) (current_url e)
      (scroll_to e) (scroll_height e) (wait_for_image e) (images_by_xpath e)
      (images_by_tag e) (requests_get e) (image_verify e) (open_write e) (makedirs e).

Definition with_find_displayed (find : nat -> string -> result bool) (e : env) : env :=
  Env (driver_get e) find (user_input e) (current_url e)
      (scroll_to e) (scroll_height e) (wait_for_image e) (images_by_xpath e)
      (images_by_tag e) (requests_get e) (image_verify e) (open_write e) (makedirs e).

Definition with_user_input (input : nat -> result unit) (e : env) : env :=
  Env (driver_get e) (find_displayed e) input (current_url e)
      (scroll_to e) (scroll_height e) (wait_for_image e) (images_by_xpath e)
      (images_by_tag e) (requests_get e) (image_verify e) (open_write e) (makedirs e).

Definition with_current_url (url : nat -> string) (e : env) : env :=
  Env (driver_get e) (find_displayed e) (user_input e) url
      (scroll_to e) (scroll_height e) (wait_for_image e) (images_by_xpath e)
      (images_by_tag e) (requests_get e) (image_verify e) (open_write e) (makedirs e).

Definition with_scroll_to (scroll : nat -> result unit) (e : env) : env :=
  Env (driver_get e) (find_displayed e) (user_input e) (current_url e)
      scroll (scroll_height e) (wait_for_image e) (images_by_xpath e)
      (images_by_tag e) (requests_get e) (image_verify e) (open_write e) (makedirs e).

Definition with_wait (wait : result unit) (e : env) : env :=
  Env (driver_get e) (find_displayed e) (user_input e) (current_url e)
      (scroll_to e) (scroll_height e) wait (images_by_xpath e)
      (images_by_tag e) (requests_get e) (image_verify e) (open_write e) (makedirs e).

Definition with_find_elements (found : result (list (result (option string))))
  (e : env) : env :=
  Env (driver_get e) (find_displayed e) (user_input e) (current_url e)
      (scroll_to e) (scroll_height e) (wait_for_image e) found
      (images_by_tag e) (requests_get e) (image_verify e) (open_write e) (makedirs e).

Definition with_open_write (write : string -> string -> write_outcome) (e : env) : env :=
  Env (driver_get e) (find_displayed e) (user_input e) (current_url e)
      (scroll_to e) (scroll_height e) (wait_for_image e) (images_by_xpath e)
      (images_by_tag e) (requests_get e) (image_verify e) write (makedirs e).

(** The browser cannot load the home page. *)
Definition offline : env :=
  with_driver_get (fun _ _ => Raise WebDriverException) Sample.quiet.

(** The home page shows the login form, and the profile button after the
    first visit. *)
Definition login_wall_once : env :=
  with_find_displayed
    (fun k x => if (k <? 7)%nat
                then Ok (String.eqb x "//button[contains(text(), 'Log in')]")
                else Ok (String.eqb x "//div[@data-test-id='header-profile']"))
    Sample.quiet.

(** The home page shows the login form for ever, and nobody is at the
    keyboard. *)
Definition login_wall_unattended : env :=
  with_user_input (fun _ => Raise EOFError)
    (with_find_displayed
       (fun _ x => Ok (String.eqb x "//input[@type='email']")) Sample.quiet).

(** The home page shows the settings link. *)
Definition logged_in : env :=
  with_find_displayed
    (fun _ x => Ok (String.eqb x "//a[contains(@href, '/settings/')]")) Sample.quiet.

End World.

Module Page.

(** The browser has crashed: every reading raises. *)
Definition crashed : env :=
  Sample.with_heights (fun _ => Raise WebDriverException) Sample.quiet.

(** A page that grows with every scroll. *)
Definition endless : env :=
  Sample.with_heights (fun k => Ok (1000 + Z.of_nat k)%Z) Sample.quiet.

End Page.

(** Every request is answered with a picture, but the disk is full: a
    file is created and the write stops at once. *)
Definition disk_full : env :=
  World.with_open_write (fun _ _ => WriteFailed 0) serving_pictures.

Module Hosts.

(** Chrome starts and lets the script run. *)
Definition healthy : host :=
  Host (Some "ada") (fun _ _ _ => Ok tt) (fun _ => Ok tt).

(** Chrome never starts. *)
Definition no_chrome : host :=
  Host (Some "ada") (fun _ _ _ => Raise WebDriverException) (fun _ => Ok tt).

(** Chrome starts, but the script that hides the automation raises. *)
Definition script_blocked : host :=
  Host (Some "ada") (fun _ _ _ => Ok tt) (fun _ => Raise WebDriverException).

(** Chrome starts only when the path of a chromedriver is given; [USER]
    is not set. *)
Definition needs_driver_path : host :=
  Host None
       (fun _ path _ => match path with
                        | Some _ => Ok tt
                        | None => Raise WebDriverException
                        end)
       (fun _ => Ok tt).

(** A disk with the second profile of the user, and the second and third
    chromedriver. *)
Definition disk : gmap string string :=
  {[ "/Users/ada/Library/Application Support/Google/Chrome/Profile 1" := "";
     "/opt/homebrew/bin/chromedriver" := "";
     "/Applications/Google Chrome.app/Contents/MacOS/chromedriver" := "" ]}.

End Hosts.

(** ** What a computation leaves alone *)

(** [f] is a part of the state that the calls to the browser, the prompt
    and the printing do not touch. *)
Definition browser_blind {X : Type} (f : state -> X) : Prop :=
  (forall g s, f (set_navigations g s) = f s) /\
  (forall g s, f (set_probes g s) = f s) /\
  (forall g s, f (set_prompts g s) = f s) /\
  (forall g s, f (set_scrolls g s) = f s) /\
  (forall g s, f (set_height_reads g s) = f s) /\
  (forall g s, f (set_stdout g s) = f s).

(** The computation [m] leaves the part [f] of the state as it is. *)
Definition preserves {A X : Type} (f : state -> X) (m : M A) : Prop :=
  forall st, f (snd (m st)) = f st.

(** The downloads: the URLs marked, the files, and the requests sent. *)
Definition downloads (s : state) : gset string * gmap string string * list string :=
  (downloaded_urls s, files s, requests s).

(** The computation [m] changes the files only along [P]. *)
Definition files_along {A : Type}
  (P : gmap string string -> gmap string string -> Prop) (m : M A) : Prop :=
  forall st, P (files st) (files (snd (m st))).

(** From [before] to [after] no file is changed or removed, and every
    file added lies in [folder] under a name computed from a URL and an
    ordinal. *)
Definition grows_inside (folder : string) (before after : gmap string string) : Prop :=
  (forall path data, before !! path = Some data -> after !! path = Some data) /\
  (forall path, is_Some (after !! path) ->
     is_Some (before !! path) \/ exists url k, path = target url folder k).

(** * Properties *)

(** ** Test vectors: [str.replace], RFC 1321 appendix A.5, file names *)

Example replace_ex1 :
  PyStr.replace "236x" "736x" "https://i.pinimg.com/236x/ab/cd/abc.jpg"
  = "https://i.pinimg.com/736x/ab/cd/abc.jpg".
Proof. vm_compute. reflexivity. Qed.

Example replace_ex2 : PyStr.replace "aa" "b" "aaaaa" = "bba".
Proof. vm_compute. reflexivity. Qed.

Example replace_ex3 : PyStr.replace "" "-" "abc" = "-a-b-c-".
Proof. vm_compute. reflexivity. Qed.

Example md5_empty : MD5.hexdigest "" = "d41d8cd98f00b204e9800998ecf8427e".
Proof. vm_compute. reflexivity. Qed.

Example md5_a : MD5.hexdigest "a" = "0cc175b9c0f1b6a831c399e269772661".
Proof. vm_compute. reflexivity. Qed.

Example md5_abc : MD5.hexdigest "abc" = "900150983cd24fb0d6963f7d28e17f72".
Proof. vm_compute. reflexivity. Qed.

Example md5_message_digest :
  MD5.hexdigest "message digest" = "f96b697d7cb7938d525a2f31aaf161d0".
Proof. vm_compute. reflexivity. Qed.

Example md5_alphabet :
  MD5.hexdigest "abcdefghijklmnopqrstuvwxyz" = "c3fcd3d76192e4007dfb496cca67e13b".
Proof. vm_compute. reflexivity. Qed.

Example md5_two_blocks :
  MD5.hexdigest
    "12345678901234567890123456789012345678901234567890123456789012345678901234567890"
  = "57edf4a22be3c955ac49da2e2107b67a".
Proof. vm_compute. reflexivity. Qed.

Example format_04d_1 : Naming.format_04d 1 = "0001".
Proof. reflexivity. Qed.

Example format_04d_big : Naming.format_04d 12345 = "12345".
Proof. reflexivity. Qed.

Example format_04d_neg : Naming.format_04d (-5) = "-005".
Proof. reflexivity. Qed.

Example filename_ex :
  Naming.filename "https://i.pinimg.com/736x/ab/cd/abc.jpg" 7
  = "pinterest_0007_ca56f898.jpg".
Proof. vm_compute. reflexivity. Qed.

Example os_path_join_ex :
  Naming.os_path_join "./pinterest_images" "pinterest_0007_ca56f898.jpg"
  = "./pinterest_images/pinterest_0007_ca56f898.jpg".
Proof. reflexivity. Qed.

Example os_path_join_sep : Naming.os_path_join "out/" "a.jpg" = "out/a.jpg".
Proof. reflexivity. Qed.

(** ** Strings *)

Section StringFacts.

Import PyStr.

Lemma append_nil_l s : "" +:+ s = s.
Proof. reflexivity. Qed.

Lemma append_cons c s t : String c s +:+ t = String c (s +:+ t).
Proof. reflexivity. Qed.

Lemma append_assoc s t u : (s +:+ t) +:+ u = s +:+ t +:+ u.
Proof. induction s as [|c s IH]; rewrite ?append_cons; [reflexivity | now f_equal]. Qed.

Lemma append_length s t : String.length (s +:+ t) = String.length s + String.length t.
Proof. induction s as [|c s IH]; rewrite ?append_cons; simpl; auto. Qed.

Lemma startswith_nil_r p : startswith p "" = true -> p = "".
Proof. destruct p; simpl; congruence. Qed.

Lemma replace_scan_nil old new : replace_scan old new "" = "".
Proof. now simp replace_scan. Qed.

Lemma replace_scan_cons old new c s :
  replace_scan old new (String c s) =
  if startswith old (String c s)
  then new +:+ replace_scan old new (drop (String.length old - 1) s)
  else String c (replace_scan old new s).
Proof. now simp replace_scan. Qed.

(** A string without occurrence of [old] is left as it is. *)
Lemma replace_scan_absent old new s :
  contains old s = false -> replace_scan old new s = s.
Proof.
  induction s as [|c s IH]; intros H.
  - apply replace_scan_nil.
  - rewrite replace_scan_cons. cbn [contains] in H.
    apply orb_false_iff in H as [H1 H2].
    rewrite H1. f_equal. auto.
Qed.

Lemma drop_app_length p s : drop (String.length p) (p +:+ s) = s.
Proof. induction p; rewrite ?append_cons; simpl; auto. Qed.

Lemma startswith_app p s : startswith p (p +:+ s) = true.
Proof.
  induction p as [|a p IH]; rewrite ?append_cons; simpl; auto.
  rewrite Ascii.eqb_refl. exact IH.
Qed.

(** The replacement at the first occurrence: when no occurrence of [old]
    starts inside [pre], the text up to there is kept, [new] stands for
    the occurrence and the scan goes on behind it. *)
Lemma replace_scan_first a old' new pre post :
  (forall p1 p2, pre = p1 +:+ p2 -> p2 <> "" ->
     startswith (String a old') (p2 +:+ String a old' +:+ post) = false) ->
  replace_scan (String a old') new (pre +:+ String a old' +:+ post)
  = pre +:+ new +:+ replace_scan (String a old') new post.
Proof.
  induction pre as [|c pre IH]; intros H.
  - rewrite !append_nil_l, append_cons, replace_scan_cons.
    rewrite <- append_cons, startswith_app. f_equal.
    cbn [String.length]. rewrite Nat.sub_1_r. cbn [Nat.pred].
    now rewrite drop_app_length.
  - rewrite !(append_cons c pre), replace_scan_cons.
    rewrite <- (append_cons c pre (String a old' +:+ post)).
    rewrite (H "" (String c pre)) by (auto; discriminate).
    f_equal. apply IH.
    intros p1 p2 -> Hne. apply (H (String c p1) p2); auto.
Qed.

Lemma startswith_replace_scan a old' b new' p s :
  avoids a p = true -> avoids b p = true ->
  startswith p (replace_scan (String a old') (String b new') s) = startswith p s.
Proof.
  revert s. induction p as [|x p IH]; intros s Ha Hb; [reflexivity|].
  simpl in Ha, Hb.
  apply andb_true_iff in Ha as [Ha Ha'], Hb as [Hb Hb'].
  apply negb_true_iff in Ha, Hb.
  destruct s as [|c s]; [now rewrite replace_scan_nil|].
  rewrite replace_scan_cons.
  destruct (startswith (String a old') (String c s)) eqn:Hm.
  - simpl in Hm. apply andb_true_iff in Hm as [Hac _].
    apply Ascii.eqb_eq in Hac. subst c. simpl.
    rewrite Ha, Hb. reflexivity.
  - simpl. rewrite IH by assumption. reflexivity.
Qed.

Lemma contains_app_avoids a old' new r :
  avoids a new = true ->
  contains (String a old') (new +:+ r) = contains (String a old') r.
Proof.
  induction new as [|x new IH]; intros H; [reflexivity|].
  simpl in H. apply andb_true_iff in H as [Hx H].
  apply negb_true_iff in Hx.
  rewrite append_cons. cbn [contains startswith].
  rewrite Ascii.eqb_sym, Hx. simpl. apply IH, H.
Qed.

Lemma startswith_app_short p s t :
  String.length p <= String.length s ->
  startswith p (s +:+ t) = true -> startswith p s = true.
Proof.
  revert s. induction p as [|a p IH]; intros s Hlen H; [reflexivity|].
  destruct s as [|c s]; simpl in Hlen; [lia|].
  rewrite append_cons in H. simpl in H |- *.
  apply andb_true_iff in H as [Hac H]. rewrite Hac. simpl.
  apply IH; [lia | exact H].
Qed.

Lemma contains_app_l old pre s :
  startswith old s = true -> contains old (pre +:+ s) = true.
Proof.
  intros H. induction pre as [|c pre IH].
  - rewrite append_nil_l. destruct s; cbn [contains]; now rewrite H.
  - rewrite append_cons. cbn [contains]. rewrite IH. apply orb_true_r.
Qed.

(** When [old] does not occur in [pre] followed by all of [old] but its
    last character, no occurrence of [old] in [pre +:+ old +:+ post]
    starts inside [pre]. *)
Lemma no_earlier_occurrence old init lastc p1 p2 post :
  old = init +:+ String lastc "" ->
  contains old ((p1 +:+ p2) +:+ init) = false ->
  p2 <> "" ->
  startswith old (p2 +:+ old +:+ post) = false.
Proof.
  intros Hold Hno Hp2.
  destruct (startswith old (p2 +:+ old +:+ post)) eqn:Hs; [|reflexivity].
  rewrite append_assoc in Hno.
  rewrite (contains_app_l old p1 (p2 +:+ init)) in Hno; [discriminate|].
  apply (startswith_app_short old (p2 +:+ init) (String lastc "" +:+ post)).
  - rewrite Hold, !append_length. simpl.
    destruct p2; [congruence | simpl; lia].
  - rewrite append_assoc, <- (append_assoc init), <- Hold. exact Hs.
Qed.

(** After the scan no occurrence of [old] is left, provided the
    replacement cannot make one: the first character of [old] is absent
    from [new], and the rest of [old] holds neither that character nor
    the first one of [new]. *)
Lemma replace_scan_clears a old' b new' s :
  avoids a (String b new') = true ->
  avoids a old' = true -> avoids b old' = true ->
  contains (String a old') (replace_scan (String a old') (String b new') s) = false.
Proof.
  intros Hnew Ha Hb.
  remember (String.length s) as n eqn:Hn.
  revert s Hn. induction n as [n IH] using lt_wf_ind. intros s Hn.
  destruct s as [|c s]; [now rewrite replace_scan_nil|].
  rewrite replace_scan_cons.
  destruct (startswith (String a old') (String c s)) eqn:Hm.
  - rewrite contains_app_avoids by assumption.
    apply (IH (String.length (drop (String.length (String a old') - 1) s))); auto.
    pose proof (drop_length_le (String.length (String a old') - 1) s).
    subst n. simpl in *. lia.
  - cbn [contains]. apply orb_false_iff. split.
    + simpl. simpl in Hm. rewrite startswith_replace_scan by assumption. exact Hm.
    + apply (IH (String.length s)); auto. subst n. simpl. lia.
Qed.

Lemma replace_scan_nonempty old b new' s :
  s <> "" -> replace_scan old (String b new') s <> "".
Proof.
  destruct s as [|c s]; [congruence|]. intros _.
  rewrite replace_scan_cons. destruct (startswith _ _);
    rewrite ?append_cons; discriminate.
Qed.

End StringFacts.

(** ** URL extraction *)

Section ExtractFacts.

Variable E : env.

Lemma truthy_nonempty s : truthy s = true <-> s <> "".
Proof.
  unfold truthy. rewrite negb_true_iff, String.eqb_neq. reflexivity.
Qed.

Lemma high_res_nonempty src : src <> "" -> high_res src <> "".
Proof.
  intros H. unfold high_res, PyStr.replace.
  repeat match goal with |- context [if ?b then _ else _] => destruct b end;
    auto using replace_scan_nonempty.
Qed.

Lemma elem_of_collect_primary images acc x :
  x ∈ fold_left collect_primary images acc <->
  x ∈ acc \/ exists src, In (Ok (Some src)) images /\ truthy src = true /\ x = high_res src.
Proof.
  revert acc. induction images as [|img images IH]; intros acc; simpl.
  - split; [auto | intros [H | (src & [] & _)]; exact H].
  - rewrite IH. split.
    + intros [H | (src & Hin & Ht & ->)]; [|right; eauto].
      destruct img as [[src|]|e]; simpl in H; auto.
      destruct (truthy src) eqn:Ht; auto.
      apply elem_of_union in H as [H | H]; auto.
      apply elem_of_singleton in H. right. eauto.
    + intros [H | (src & [Heq | Hin] & Ht & ->)].
      * left. destruct img as [[src|]|e]; simpl; auto.
        destruct (truthy src); auto. apply elem_of_union. auto.
      * subst img. left. simpl. rewrite Ht.
        apply elem_of_union. left. now apply elem_of_singleton.
      * right. eauto.
Qed.

(** What the extractor returns when the wait succeeds. *)
Lemma extract_primary st images :
  wait_for_image E = Ok tt ->
  images_by_xpath E = Ok images ->
  extract_image_urls E st =
  (let urls := List.filter truthy (elements (fold_left collect_primary images ∅)) in
   (Ok urls,
    set_stdout (fun out => MsgExtracted (length urls) :: MsgFoundImages (length images) :: out) st)).
Proof.
  intros Hw Hi. unfold extract_image_urls, bind, try_except, lift, print, modify, ret.
  rewrite Hw, Hi. destruct st; reflexivity.
Qed.

End ExtractFacts.

(** C1 (as amended).  Under the primary strategy every collected source
    URL is returned rewritten: when it contains 236x, every occurrence of
    236x (the first one included) is replaced with 736x and none is left;
    otherwise, when it contains 564x, the same holds for 564x; a URL with
    neither token is returned unchanged.  https://i.pinimg.com/236x/abc.jpg
    and https://i.pinimg.com/564x/abc.jpg both yield
    https://i.pinimg.com/736x/abc.jpg. *)
Theorem extract_rewrites_every_size_token (E : env) (st : state)
    (images : list (result (option string))) (src : string) :
  wait_for_image E = Ok tt ->
  images_by_xpath E = Ok images ->
  In (Ok (Some src)) images ->
  src <> "" ->
  (exists urls st', extract_image_urls E st = (Ok urls, st') /\ In (high_res src) urls) /\
  (PyStr.contains "236x" src = true ->
     high_res src = PyStr.replace "236x" "736x" src /\
     PyStr.contains "236x" (high_res src) = false /\
     forall pre post,
       src = pre +:+ "236x" +:+ post ->
       PyStr.contains "236x" (pre +:+ "236") = false ->
       high_res src = pre +:+ "736x" +:+ PyStr.replace "236x" "736x" post) /\
  (PyStr.contains "236x" src = false -> PyStr.contains "564x" src = true ->
     high_res src = PyStr.replace "564x" "736x" src /\
     PyStr.contains "564x" (high_res src) = false /\
     forall pre post,
       src = pre +:+ "564x" +:+ post ->
       PyStr.contains "564x" (pre +:+ "564") = false ->
       high_res src = pre +:+ "736x" +:+ PyStr.replace "564x" "736x" post) /\
  (PyStr.contains "236x" src = false -> PyStr.contains "564x" src = false ->
     high_res src = src) /\
  high_res "https://i.pinimg.com/236x/abc.jpg" = "https://i.pinimg.com/736x/abc.jpg" /\
  high_res "https://i.pinimg.com/564x/abc.jpg" = "https://i.pinimg.com/736x/abc.jpg".
Proof.
  intros Hw Hi Hin Hne. split; [|split; [|split; [|split; [|split]]]].
  - eexists _, _. split; [apply (extract_primary E st images Hw Hi)|].
    apply filter_In. split.
    + apply list_elem_of_In, elem_of_elements, elem_of_collect_primary.
      right. exists src. rewrite truthy_nonempty. auto.
    + apply truthy_nonempty, high_res_nonempty, Hne.
  - intros H. unfold high_res. rewrite H. split; [reflexivity|]. split.
    + apply replace_scan_clears; reflexivity.
    + intros pre post -> Hpre.
      apply (replace_scan_first "2" "36x" "736x" pre post).
      intros p1 p2 -> Hp2.
      apply (no_earlier_occurrence "236x" "236" "x" p1 p2 post eq_refl Hpre Hp2).
  - intros H H0. unfold high_res. rewrite H, H0. split; [reflexivity|]. split.
    + apply replace_scan_clears; reflexivity.
    + intros pre post -> Hpre.
      apply (replace_scan_first "5" "64x" "736x" pre post).
      intros p1 p2 -> Hp2.
      apply (no_earlier_occurrence "564x" "564" "x" p1 p2 post eq_refl Hpre Hp2).
  - intros H H0. unfold high_res. now rewrite H, H0.
  - vm_compute. reflexivity.
  - vm_compute. reflexivity.
Qed.

Lemma extract_rewrites_every_size_token_witness :
  exists urls st',
    extract_image_urls
      (Sample.with_xpath_images [Ok (Some "https://i.pinimg.com/236x/abc.jpg")] Sample.quiet)
      (new_scraper ∅) = (Ok urls, st') /\
    In (high_res "https://i.pinimg.com/236x/abc.jpg") urls.
Proof.
  apply (extract_rewrites_every_size_token
           (Sample.with_xpath_images [Ok (Some "https://i.pinimg.com/236x/abc.jpg")] Sample.quiet)
           (new_scraper ∅) [Ok (Some "https://i.pinimg.com/236x/abc.jpg")]
           "https://i.pinimg.com/236x/abc.jpg");
    [reflexivity | reflexivity | simpl; auto | discriminate].
Defined.

(** C1 as stated fails: a source URL with the token twice comes back with
    both occurrences rewritten, not only the first; and under the fallback
    strategy a URL is returned as it is, token included. *)
Lemma first_occurrence_only_counterexample :
  fst (extract_image_urls
         (Sample.with_xpath_images [Ok (Some "https://i.pinimg.com/236x/ab/236x.jpg")] Sample.quiet)
         (new_scraper ∅))
  = Ok ["https://i.pinimg.com/736x/ab/736x.jpg"] /\
  fst (extract_image_urls
         (Sample.with_xpath_images [Ok (Some "https://i.pinimg.com/236x/ab/236x.jpg")] Sample.quiet)
         (new_scraper ∅))
  <> Ok [PyStr.replace_first "236x" "736x" "https://i.pinimg.com/236x/ab/236x.jpg"] /\
  PyStr.replace_first "236x" "736x" "https://i.pinimg.com/236x/ab/236x.jpg"
  = "https://i.pinimg.com/736x/ab/236x.jpg" /\
  fst (extract_image_urls
         (Sample.with_timeout [Ok (Some "https://i.pinimg.com/236x/abc.jpg")] Sample.quiet)
         (new_scraper ∅))
  = Ok ["https://i.pinimg.com/236x/abc.jpg"].
Proof. vm_compute. repeat split; congruence. Qed.

(** ** The downloader *)

Ltac run_download :=
  unfold download_image, os_path_exists, http_get, raise_for_status, write_file,
    mark_downloaded, print, modify, try_except, bind, gets, ret, raise;
  cbv beta iota.

Section DownloadFacts.

Variable E : env.

Local Open Scope Z_scope.

(** Every call of [download_image] takes one of the listed paths; in
    particular it returns, and raises nothing. *)
Lemma download_image_path img_url folder_path img_num st :
  download_path E img_url folder_path img_num st
    (download_image E img_url folder_path img_num st).
Proof.
  destruct (decide (img_url ∈ downloaded_urls st)) as [Hs | Hs].
  { replace (download_image E img_url folder_path img_num st) with (Ok false, st).
    - now constructor.
    - run_download. now rewrite (bool_decide_eq_true_2 _ Hs). }
  destruct (files st !! target img_url folder_path img_num) as [old|] eqn:Hf.
  { assert (Hex : is_Some (files st !! target img_url folder_path img_num))
      by (rewrite Hf; eauto).
    run_download. rewrite (bool_decide_eq_false_2 _ Hs). cbv beta iota.
    fold (target img_url folder_path img_num).
    rewrite (bool_decide_eq_true_2 _ Hex). cbv beta iota.
    now constructor. }
  assert (Hex : ~ is_Some (files st !! target img_url folder_path img_num))
    by (rewrite Hf; apply is_Some_None).
  destruct (requests_get E (length (requests st)) img_url) as [r | e] eqn:Hr.
  2:{ run_download. rewrite (bool_decide_eq_false_2 _ Hs). cbv beta iota.
      fold (target img_url folder_path img_num).
      rewrite (bool_decide_eq_false_2 _ Hex). cbv beta iota. rewrite Hr.
      now constructor. }
  destruct ((400 <=? status_code r) && (status_code r <? 600)) eqn:Hc.
  { run_download. rewrite (bool_decide_eq_false_2 _ Hs). cbv beta iota.
    fold (target img_url folder_path img_num).
    rewrite (bool_decide_eq_false_2 _ Hex). cbv beta iota. rewrite Hr, Hc.
    apply path_bad_status; auto. lia. }
  assert (Hc' : ~ 400 <= status_code r < 600) by lia.
  destruct (image_verify E (content r)) eqn:Hv.
  2:{ run_download. rewrite (bool_decide_eq_false_2 _ Hs). cbv beta iota.
      fold (target img_url folder_path img_num).
      rewrite (bool_decide_eq_false_2 _ Hex). cbv beta iota. rewrite Hr, Hc, Hv.
      now apply (path_invalid_image E img_url folder_path img_num st r). }
  destruct (open_write E (target img_url folder_path img_num) (content r)) eqn:Hw;
    run_download; rewrite (bool_decide_eq_false_2 _ Hs); cbv beta iota;
    fold (target img_url folder_path img_num);
    rewrite (bool_decide_eq_false_2 _ Hex); cbv beta iota; rewrite Hr, Hc, Hv, Hw.
  - now apply (path_written E img_url folder_path img_num st r).
  - now apply (path_open_raises E img_url folder_path img_num st r).
  - now apply (path_write_raises E img_url folder_path img_num st r).
Qed.

Lemma download_in_session img_url folder_path img_num st :
  img_url ∈ downloaded_urls st ->
  download_image E img_url folder_path img_num st = (Ok false, st).
Proof.
  intros Hs. run_download. now rewrite (bool_decide_eq_true_2 _ Hs).
Qed.

Lemma download_already_exists img_url folder_path img_num st :
  img_url ∉ downloaded_urls st ->
  is_Some (files st !! target img_url folder_path img_num) ->
  download_image E img_url folder_path img_num st =
  (Ok true,
   set_downloaded_urls (fun seen => {[ img_url ]} ∪ seen)
     (set_stdout (cons (MsgAlreadyExists (Naming.filename img_url img_num))) st)).
Proof.
  intros Hs Hex. run_download. rewrite (bool_decide_eq_false_2 _ Hs). cbv beta iota.
  fold (target img_url folder_path img_num).
  now rewrite (bool_decide_eq_true_2 _ Hex).
Qed.

Lemma download_image_returns img_url folder_path img_num st :
  exists ok st', download_image E img_url folder_path img_num st = (Ok ok, st').
Proof.
  destruct (download_image_path img_url folder_path img_num st); eauto.
Qed.

(** A call that answers [True] found the URL unseen, marks it, and
    leaves its file on disk. *)
Lemma download_true img_url folder_path img_num st st' :
  download_image E img_url folder_path img_num st = (Ok true, st') ->
(img_url ∉ downloaded_urls st) /\
  downloaded_urls st' = {[ img_url ]} ∪ downloaded_urls st /\
  is_Some (files st' !! target img_url folder_path img_num).
Proof.
  intros H. pose proof (download_image_path img_url folder_path img_num st) as P.
  rewrite H in P. inversion P; subst; simpl; repeat split; auto.
  rewrite lookup_insert_eq. eauto.
Qed.

(** The set of downloaded URLs only grows. *)
Lemma download_seen_mono img_url folder_path img_num st :
  downloaded_urls st ⊆ downloaded_urls (snd (download_image E img_url folder_path img_num st)).
Proof.
  destruct (download_image_path img_url folder_path img_num st); simpl;
    set_solver.
Qed.

(** No file disappears. *)
Lemma download_files_mono img_url folder_path img_num st path :
  is_Some (files st !! path) ->
  is_Some (files (snd (download_image E img_url folder_path img_num st)) !! path).
Proof.
  intros H.
  destruct (download_image_path img_url folder_path img_num st); simpl; auto;
    (destruct (decide (target img_url folder_path img_num = path)) as [<- | Hne];
     [rewrite lookup_insert_eq; eauto | now rewrite lookup_insert_ne]).
Qed.

(** A file that appears has the name computed from the URL and the
    ordinal. *)
Lemma download_files_new img_url folder_path img_num st path :
  is_Some (files (snd (download_image E img_url folder_path img_num st)) !! path) ->
  is_Some (files st !! path) \/ path = target img_url folder_path img_num.
Proof.
  destruct (download_image_path img_url folder_path img_num st); simpl; auto;
    (destruct (decide (target img_url folder_path img_num = path)) as [<- | Hne];
     [auto | rewrite lookup_insert_ne by assumption; auto]).
Qed.

(** At most one request goes out, for the URL offered. *)
Lemma download_requests img_url folder_path img_num st :
  let st' := snd (download_image E img_url folder_path img_num st) in
  requests st' = requests st \/ requests st' = img_url :: requests st.
Proof.
  destruct (download_image_path img_url folder_path img_num st); simpl; auto.
Qed.

(** One turn of the loop of [scrape_board]. *)
Lemma download_all_cons img_url rest output_folder i total successful st ok st1 :
  download_image E img_url output_folder i st = (Ok ok, st1) ->
  download_all E (img_url :: rest) output_folder i total successful st =
  download_all E rest output_folder (i + 1) total
    (if ok then successful + 1 else successful) (progress i total st1).
Proof.
  intros H. cbn [download_all]. unfold bind at 1. rewrite H.
  unfold bind at 1, progress. destruct (i mod 10 =? 0); reflexivity.
Qed.

(** The loop goes through the whole list and raises nothing; it counts
    at most one success for each URL. *)
Lemma download_all_returns image_urls output_folder i total successful st :
  exists n st',
    download_all E image_urls output_folder i total successful st = (Ok n, st') /\
    successful <= n <= successful + Z.of_nat (length image_urls).
Proof.
  revert i successful st.
  induction image_urls as [|u rest IH]; intros i successful st.
  - exists successful, st. split; [reflexivity | simpl; lia].
  - destruct (download_image_returns u output_folder i st) as (ok & st1 & H).
    rewrite (download_all_cons _ _ _ _ _ _ _ _ _ H).
    destruct (IH (i + 1) (if ok then successful + 1 else successful)
                (progress i total st1)) as (n & st' & Hn & Hb).
    exists n, st'. split; [exact Hn|].
    cbn [length]. destruct ok; lia.
Qed.

Lemma rtc_download_seen_mono st st' :
  rtc (download_step E) st st' -> downloaded_urls st ⊆ downloaded_urls st'.
Proof.
  induction 1 as [|s1 s2 s3 (u & f & n & <-) _ IH]; [reflexivity|].
  etransitivity; [apply download_seen_mono | exact IH].
Qed.

End DownloadFacts.

(** Two hypotheses that select different paths. *)
Ltac path_conflict :=
  match goal with
  | H : ?u ∈ ?S, H' : ?u ∉ ?S |- _ => destruct (H' H)
  | H : is_Some (?m !! ?k), H' : ?m !! ?k = None |- _ =>
      rewrite H' in H; destruct (is_Some_None H)
  | H : ?x = Ok _, H' : ?x = Raise _ |- _ => congruence
  | H : ?x = Ok ?r, H' : ?x = Ok ?r' |- _ =>
      assert (r = r') by congruence; subst; first [contradiction | congruence]
  end.

(** Case analysis on the path a call takes, [Heq] naming its result. *)
Ltac download_cases E u f n st Heq :=
  let P := fresh "P" in
  let res := fresh "res" in
  pose proof (download_image_path E u f n st) as P;
  remember (download_image E u f n st) as res eqn:Heq;
  symmetry in Heq;
  destruct P; try solve [path_conflict].


Section SeenURLs.

Variable E : env.

Lemma requests_progress i total st : requests (progress i total st) = requests st.
Proof. unfold progress. now destruct (_ =? _)%Z. Qed.

Lemma files_progress i total st : files (progress i total st) = files st.
Proof. unfold progress. now destruct (_ =? _)%Z. Qed.

Lemma downloaded_urls_progress i total st :
  downloaded_urls (progress i total st) = downloaded_urls st.
Proof. unfold progress. now destruct (_ =? _)%Z. Qed.

(** Over a list without duplicates the loop sends at most one request for
    each URL. *)
Lemma download_all_fetches_once image_urls output_folder i total successful st :
  NoDup image_urls ->
  exists fetched,
    requests (snd (download_all E image_urls output_folder i total successful st))
    = (fetched ++ requests st)%list /\
    NoDup fetched /\
    forall url, url ∈ fetched -> url ∈ image_urls.
Proof.
  revert i successful st.
  induction image_urls as [|u rest IH]; intros i successful st Hnd.
  - exists []. repeat split; [constructor | intros ? H; inversion H].
  - apply NoDup_cons in Hnd as [Hu Hrest].
    destruct (download_image_returns E u output_folder i st) as (ok & st1 & H).
    rewrite (download_all_cons _ _ _ _ _ _ _ _ _ _ H).
    destruct (IH (i + 1)%Z (if ok then (successful + 1)%Z else successful)
                (progress i total st1) Hrest) as (fetched & Hreq & Hnd & Hin).
    rewrite requests_progress in Hreq.
    pose proof (download_requests E u output_folder i st) as Hone.
    rewrite H in Hone. simpl in Hone. destruct Hone as [Hone | Hone].
    + exists fetched. rewrite Hreq, Hone. repeat split; auto.
      intros x Hx. right. auto.
    + exists (fetched ++ [u])%list. rewrite Hreq, Hone, <- app_assoc. repeat split.
      * apply NoDup_app. repeat split; auto.
        -- intros x Hx Hx'. apply list_elem_of_singleton in Hx'. subst x. auto.
        -- apply NoDup_singleton.
      * intros x Hx. apply elem_of_app in Hx as [Hx | Hx].
        -- right. auto.
        -- apply list_elem_of_singleton in Hx. subst x. left.
Qed.

(** The list the extractor returns comes from a set: no URL is in it
    twice. *)
Lemma extract_image_urls_NoDup st image_urls st' :
  extract_image_urls E st = (Ok image_urls, st') -> NoDup image_urls.
Proof.
  unfold extract_image_urls. unfold bind at 1.
  destruct (try_except _ _ st) as [[found | e] st1]; [|discriminate].
  unfold bind, print, modify, ret. intros [= <- _].
  apply NoDup_ListNoDup, List.NoDup_filter, NoDup_ListNoDup, NoDup_elements.
Qed.

End SeenURLs.

(** C2 (as amended).  Once an offer of a URL has answered [True] (the
    image was downloaded, or its file was already on disk), every later
    offer of that URL in the same run, whatever was downloaded in between,
    performs no I/O and answers [False] as already in the session, leaving
    the state as it is.  And the loop of a run, whose list of URLs has no
    duplicates (the extractor returns none), sends at most one request for
    each URL. *)
Theorem marked_url_is_never_fetched_again (E : env) :
  (forall img_url folder_path img_num st st1 st2 folder_path' img_num',
     download_image E img_url folder_path img_num st = (Ok true, st1) ->
     rtc (download_step E) st1 st2 ->
     download_image E img_url folder_path' img_num' st2 = (Ok false, st2)) /\
  (forall image_urls output_folder i total successful st,
     NoDup image_urls ->
     exists fetched,
       requests (snd (download_all E image_urls output_folder i total successful st))
       = (fetched ++ requests st)%list /\
       NoDup fetched /\
       forall url, url ∈ fetched -> url ∈ image_urls) /\
  (forall st image_urls st',
     extract_image_urls E st = (Ok image_urls, st') -> NoDup image_urls).
Proof.
  split; [|split; [|apply extract_image_urls_NoDup]].
  - intros img_url folder_path img_num st st1 st2 folder_path' img_num' H Hlater.
    apply download_in_session.
    apply (rtc_download_seen_mono E st1 st2 Hlater).
    apply download_true in H as (_ & -> & _). set_solver.
  - intros. now apply download_all_fetches_once.
Qed.

Lemma marked_url_is_never_fetched_again_witness :
  let url := "https://i.pinimg.com/736x/abc.jpg" in
  let st1 := snd (download_image serving_pictures url "out" 1 (new_scraper ∅)) in
  download_image serving_pictures url "out" 2 st1 = (Ok false, st1).
Proof.
  intros url st1.
  apply (proj1 (marked_url_is_never_fetched_again serving_pictures)
           url "out" 1%Z (new_scraper ∅) st1 st1 "out" 2%Z).
  - vm_compute. reflexivity.
  - apply rtc_refl.
Defined.

(** C2 as stated fails: a URL whose first offer failed is not marked, and
    the second offer sends a second request. *)
Lemma failed_url_is_fetched_again :
  let url := "https://i.pinimg.com/736x/abc.jpg" in
  let first := download_image serving_404 url "out" 1 (new_scraper ∅) in
  let second := download_image serving_404 url "out" 1 (snd first) in
  fst first = Ok false /\
  requests (snd first) = [url] /\
  requests (snd second) = [url; url] /\
  second <> (Ok false, snd first).
Proof.
  vm_compute. repeat split. congruence.
Qed.

Section Rerun.

Variables E1 E2 : env.

Local Open Scope Z_scope.

Lemma download_all_files_mono E image_urls output_folder i total successful st path :
  is_Some (files st !! path) ->
  is_Some (files (snd (download_all E image_urls output_folder i total successful st)) !! path).
Proof.
  revert i successful st.
  induction image_urls as [|u rest IH]; intros i successful st Hp; [exact Hp|].
  destruct (download_image_returns E u output_folder i st) as (ok & st1 & H).
  rewrite (download_all_cons _ _ _ _ _ _ _ _ _ _ H).
  apply IH. rewrite files_progress.
  pose proof (download_files_mono E u output_folder i st path Hp) as Hm.
  now rewrite H in Hm.
Qed.

Lemma stdout_progress i total st :
  stdout (progress i total st)
  = ((if i mod 10 =? 0 then [MsgProgress i total] else []) ++ stdout st)%list.
Proof. unfold progress. now destruct (_ =? _). Qed.

(** A run in which every URL counted as successful, replayed on a scraper
    that has marked no more URLs and sees at least the files the run has
    left: every URL is found on disk. *)
Lemma replay_all_exist image_urls output_folder total :
  forall i successful st st1,
    download_all E1 image_urls output_folder i total successful st
    = (Ok (successful + Z.of_nat (length image_urls)), st1) ->
    forall successful' st2,
      downloaded_urls st2 ⊆ downloaded_urls st ->
      (forall path, is_Some (files st1 !! path) -> is_Some (files st2 !! path)) ->
      exists st2',
        download_all E2 image_urls output_folder i total successful' st2
        = (Ok (successful' + Z.of_nat (length image_urls)), st2') /\
        requests st2' = requests st2 /\
        files st2' = files st2 /\
        stdout st2' = (rev (all_exist_report image_urls i total) ++ stdout st2)%list.
Proof.
  induction image_urls as [|u rest IH]; intros i successful st st1 Hrun successful' st2 Hseen Hfiles.
  - exists st2. cbn [download_all length all_exist_report rev]. unfold ret.
    rewrite Z.add_0_r. auto.
  - destruct (download_image_returns E1 u output_folder i st) as (ok & stm & H).
    rewrite (download_all_cons _ _ _ _ _ _ _ _ _ _ H) in Hrun.
    destruct (download_all_returns E1 rest output_folder (i + 1) total
                (if ok then successful + 1 else successful) (progress i total stm))
      as (n & st' & Hn & Hb).
    rewrite Hn in Hrun. injection Hrun as Hcount ->. cbn [length] in Hcount.
    destruct ok; [|lia].
    apply download_true in H as (Hnew & Hmark & Hfile).
    assert (Hfile1 : is_Some (files st1 !! target u output_folder i)).
    { pose proof (download_all_files_mono E1 rest output_folder (i + 1) total
                    (successful + 1) (progress i total stm)
                    (target u output_folder i)) as Hm.
      rewrite Hn, files_progress in Hm. auto. }
    assert (H2 := download_already_exists E2 u output_folder i st2
                    (fun Hin => Hnew (Hseen _ Hin)) (Hfiles _ Hfile1)).
    rewrite (download_all_cons _ _ _ _ _ _ _ _ _ _ H2).
    destruct (IH (i + 1) (successful + 1) (progress i total stm) st1) with
      (successful' := successful' + 1)
      (st2 := progress i total
                (set_downloaded_urls (fun seen => {[ u ]} ∪ seen)
                   (set_stdout (cons (MsgAlreadyExists (Naming.filename u i))) st2)))
      as (st2' & Hrun2 & Hreq & Hf & Hout).
    + rewrite Hn. f_equal. f_equal. lia.
    + rewrite !downloaded_urls_progress, Hmark. simpl.
      now apply union_mono_l.
    + rewrite files_progress. simpl. exact Hfiles.
    + exists st2'. split; [|split; [|split]].
      * rewrite Hrun2. f_equal. f_equal. cbn [length]. lia.
      * rewrite Hreq, requests_progress. reflexivity.
      * rewrite Hf, files_progress. reflexivity.
      * rewrite Hout, stdout_progress. cbn [all_exist_report rev stdout set_downloaded_urls set_stdout].
        rewrite rev_app_distr, <- !app_assoc. f_equal.
        destruct (i mod 10 =? 0); reflexivity.
Qed.

End Rerun.

(** C3 (as amended).  If in the first run every URL was counted as
    successful (downloaded, or already on disk), then a second run over
    the same URLs in the same order and with the same output folder,
    whatever the network answers by then, sends no request, finds every
    file on disk (it prints "Already exists" for each URL and counts it
    as successful) and leaves the files as they were. *)
Theorem second_run_fetches_nothing (E1 E2 : env) (image_urls : list string)
    (output_folder : string) (st st1 : state) :
  download_all E1 image_urls output_folder 1 (length image_urls) 0 st
  = (Ok (Z.of_nat (length image_urls)), st1) ->
  exists st2,
    download_all E2 image_urls output_folder 1 (length image_urls) 0 (next_run st1)
    = (Ok (Z.of_nat (length image_urls)), st2) /\
    requests st2 = requests st1 /\
    files st2 = files st1 /\
    stdout st2
    = (rev (all_exist_report image_urls 1 (length image_urls)) ++ stdout st1)%list.
Proof.
  intros Hrun.
  destruct (replay_all_exist E1 E2 image_urls output_folder (length image_urls)
              1%Z 0%Z st st1 Hrun 0%Z (next_run st1))
    as (st2 & H2 & Hreq & Hf & Hout).
  - simpl. set_solver.
  - auto.
  - exists st2. auto.
Qed.

Lemma second_run_fetches_nothing_witness :
  let urls := ["https://i.pinimg.com/736x/20be.jpg"; "https://i.pinimg.com/736x/abc.jpg"] in
  let st1 := snd (download_all serving_pictures urls "out" 1 2 0 (new_scraper ∅)) in
  exists st2,
    download_all serving_404 urls "out" 1 2 0 (next_run st1) = (Ok 2%Z, st2) /\
    requests st2 = requests st1 /\
    files st2 = files st1 /\
    stdout st2 = (rev (all_exist_report urls 1 2) ++ stdout st1)%list.
Proof.
  intros urls st1.
  apply (second_run_fetches_nothing serving_pictures serving_404 urls "out"
           (new_scraper ∅) st1).
  vm_compute. reflexivity.
Defined.

(** C3 as stated fails: a URL that failed in the first run is requested
    again in the second run, which does not find its file. *)
Lemma second_run_fetches_failed_url :
  let urls := ["https://i.pinimg.com/736x/abc.jpg"] in
  let st1 := snd (download_all serving_404 urls "out" 1 1 0 (new_scraper ∅)) in
  let st2 := snd (download_all serving_404 urls "out" 1 1 0 (next_run st1)) in
  requests st1 = urls /\
  requests st2 = ["https://i.pinimg.com/736x/abc.jpg"; "https://i.pinimg.com/736x/abc.jpg"] /\
  requests st2 <> requests st1 /\
  stdout st2 <> (rev (all_exist_report urls 1 1) ++ stdout st1)%list.
Proof.
  vm_compute. repeat split; congruence.
Qed.

(** The ordinal is part of the file name: the same URLs in another order
    are downloaded again, all of them. *)
Example second_run_in_another_order :
  let a := "https://i.pinimg.com/736x/20be.jpg" in
  let b := "https://i.pinimg.com/736x/abc.jpg" in
  let st1 := snd (download_all serving_pictures [a; b] "out" 1 2 0 (new_scraper ∅)) in
  let st2 := snd (download_all serving_pictures [b; a] "out" 1 2 0 (next_run st1)) in
  requests st1 = [b; a] /\ requests st2 = [a; b; b; a] /\
  size (files st1) = 2 /\ size (files st2) = 4.
Proof.
  vm_compute. auto.
Qed.

(** C6.  When the body of the response does not decode as an image (an
    HTML page answered with status 200, say), [download_image] answers
    [False] after printing "Invalid image format", writes no file and
    marks nothing; the loop goes on with the next URL and comes to its
    end. *)
Theorem invalid_image_fails_without_file (E : env) (img_url output_folder : string)
    (i : Z) (total : nat) (successful : Z) (rest : list string) (st : state)
    (r : response) :
  img_url ∉ downloaded_urls st ->
  files st !! target img_url output_folder i = None ->
  requests_get E (length (requests st)) img_url = Ok r ->
  ~ (400 <= status_code r < 600)%Z ->
  image_verify E (content r) = false ->
  exists st',
    download_image E img_url output_folder i st = (Ok false, st') /\
    stdout st' = MsgInvalidImage (Naming.filename img_url i) :: stdout st /\
    files st' = files st /\
    downloaded_urls st' = downloaded_urls st /\
    download_all E (img_url :: rest) output_folder i total successful st
    = download_all E rest output_folder (i + 1) total successful (progress i total st') /\
    exists n st'',
      download_all E (img_url :: rest) output_folder i total successful st = (Ok n, st'').
Proof.
  intros Hs Hf Hr Hc Hv.
  download_cases E img_url output_folder i st Heq.
  eexists. split; [reflexivity|]. repeat split.
  - now apply (download_all_cons E img_url rest output_folder i total successful st false).
  - destruct (download_all_returns E (img_url :: rest) output_folder i total successful st)
      as (n & st'' & Hn & _). eauto.
Qed.

Lemma invalid_image_fails_without_file_witness :
  let url := "https://i.pinimg.com/736x/abc.jpg" in
  exists st',
    download_image serving_html url "out" 1 (new_scraper ∅) = (Ok false, st') /\
    stdout st' = [MsgInvalidImage (Naming.filename url 1)] /\
    files st' = ∅ /\
    downloaded_urls st' = ∅.
Proof.
  intros url.
  destruct (invalid_image_fails_without_file serving_html url "out" 1 1 0 []
              (new_scraper ∅) (Response 200 "<html>Oops</html>"))
    as (st' & H1 & H2 & H3 & H4 & _).
  - vm_compute. set_solver.
  - reflexivity.
  - reflexivity.
  - simpl. lia.
  - reflexivity.
  - exists st'. auto.
Defined.

(** C9.  A download attempt that fails because the request raises, because
    the status is one [raise_for_status] raises on, or because the body
    does not decode as an image, answers [False] and leaves the set of
    downloaded URLs and the files exactly as they were. *)
Theorem failed_download_is_atomic (E : env) (img_url folder_path : string)
    (img_num : Z) (st : state) :
  img_url ∉ downloaded_urls st ->
  files st !! target img_url folder_path img_num = None ->
  (exists e, requests_get E (length (requests st)) img_url = Raise e) \/
  (exists r, requests_get E (length (requests st)) img_url = Ok r /\
             ((400 <= status_code r < 600)%Z \/ image_verify E (content r) = false)) ->
  exists st',
    download_image E img_url folder_path img_num st = (Ok false, st') /\
    downloaded_urls st' = downloaded_urls st /\
    files st' = files st /\
    (img_url ∉ downloaded_urls st') /\
    files st' !! target img_url folder_path img_num = None.
Proof.
  intros Hs Hf [(e & He) | (r & Hr & [Hc | Hv])];
    download_cases E img_url folder_path img_num st Heq;
    (eexists; split; [reflexivity | simpl; auto]).
Qed.

Lemma failed_download_is_atomic_witness :
  exists st',
    download_image serving_404 "https://i.pinimg.com/736x/abc.jpg" "out" 1 (new_scraper ∅)
    = (Ok false, st') /\
    downloaded_urls st' = ∅ /\
    files st' = ∅.
Proof.
  destruct (failed_download_is_atomic serving_404 "https://i.pinimg.com/736x/abc.jpg"
              "out" 1 (new_scraper ∅)) as (st' & H1 & H2 & H3 & _).
  - vm_compute. set_solver.
  - reflexivity.
  - right. exists (Response 404 "<html>Not Found</html>"). split; [reflexivity|].
    left. simpl. lia.
  - exists st'. auto.
Defined.

(** C10.  The two skips are reported differently.  A URL not yet marked
    whose file is on disk answers [True] and the loop adds one to its
    tally; a URL already marked answers [False], does nothing, and the
    tally stays. *)
Theorem skips_are_counted_asymmetrically (E : env) (img_url output_folder : string)
    (i : Z) (total : nat) (successful : Z) (rest : list string) (st : state) :
  (img_url ∉ downloaded_urls st ->
   is_Some (files st !! target img_url output_folder i) ->
   exists st',
     download_image E img_url output_folder i st = (Ok true, st') /\
     requests st' = requests st /\
     download_all E (img_url :: rest) output_folder i total successful st
     = download_all E rest output_folder (i + 1) total (successful + 1)
         (progress i total st')) /\
  (img_url ∈ downloaded_urls st ->
   download_image E img_url output_folder i st = (Ok false, st) /\
   download_all E (img_url :: rest) output_folder i total successful st
   = download_all E rest output_folder (i + 1) total successful (progress i total st)).
Proof.
  split.
  - intros Hs Hex. eexists. split; [now apply download_already_exists|].
    split; [reflexivity|].
    now apply (download_all_cons E img_url rest output_folder i total successful st true),
      download_already_exists.
  - intros Hs. split; [now apply download_in_session|].
    now apply (download_all_cons E img_url rest output_folder i total successful st false),
      download_in_session.
Qed.

Lemma skips_are_counted_asymmetrically_witness :
  let url := "https://i.pinimg.com/736x/abc.jpg" in
  let on_disk := new_scraper {[ target url "out" 1 := Sample.jpeg ]} in
  let marked := set_downloaded_urls (fun _ => {[ url ]}) (new_scraper ∅) in
  (exists st',
     download_image Sample.quiet url "out" 1 on_disk = (Ok true, st') /\
     requests st' = requests on_disk /\
     download_all Sample.quiet [url] "out" 1 1 0 on_disk
     = download_all Sample.quiet [] "out" (1 + 1) 1 (0 + 1) (progress 1 1 st')) /\
  (download_image Sample.quiet url "out" 1 marked = (Ok false, marked) /\
   download_all Sample.quiet [url] "out" 1 1 0 marked
   = download_all Sample.quiet [] "out" (1 + 1) 1 0 (progress 1 1 marked)).
Proof.
  intros url on_disk marked. split.
  - apply (proj1 (skips_are_counted_asymmetrically Sample.quiet url "out" 1 1 0 [] on_disk)).
    + simpl. apply not_elem_of_empty.
    + simpl. rewrite lookup_singleton_eq. eauto.
  - apply (proj2 (skips_are_counted_asymmetrically Sample.quiet url "out" 1 1 0 [] marked)).
    simpl. now apply elem_of_singleton.
Defined.

(** ** File names *)

Section FilenameFacts.

Lemma append_cancel_l s a b : s +:+ a = s +:+ b -> a = b.
Proof.
  induction s as [|c s IH]; rewrite ?append_nil_l, ?append_cons; [auto|].
  intros H. injection H as H. auto.
Qed.

Lemma append_cancel_r s a b : a +:+ s = b +:+ s -> a = b.
Proof.
  revert b. induction a as [|c a IH]; intros [|d b] H.
  - reflexivity.
  - apply (f_equal String.length) in H. rewrite !append_length in H. simpl in H. lia.
  - apply (f_equal String.length) in H. rewrite !append_length in H. simpl in H. lia.
  - rewrite !append_cons in H. injection H as -> H. f_equal. auto.
Qed.

Lemma filename_eq_iff img_num url url' :
  Naming.filename url img_num = Naming.filename url' img_num
  <-> Naming.url_hash url = Naming.url_hash url'.
Proof.
  unfold Naming.filename. split.
  - intros H. do 3 apply append_cancel_l in H. now apply append_cancel_r in H.
  - now intros ->.
Qed.

End FilenameFacts.

Section NamingMore.

Import PyStr.

Lemma avoids_app c s t : avoids c (s +:+ t) = avoids c s && avoids c t.
Proof.
  induction s as [|x s IH]; rewrite ?append_nil_l, ?append_cons; [reflexivity|].
  simpl. rewrite IH. now rewrite andb_assoc.
Qed.

Lemma avoids_zeros c k :
  Ascii.eqb "0" c = false -> avoids c (string_of_list_ascii (repeat "0"%char k)) = true.
Proof.
  intros H. induction k as [|k IH]; [reflexivity|].
  cbn [repeat string_of_list_ascii avoids]. now rewrite H, IH.
Qed.

(** The decimal digits of a number are digits. *)
Lemma avoids_string_of_uint c d :
  avoids c "0123456789" = true -> avoids c (NilEmpty.string_of_uint d) = true.
Proof.
  intros H. cbn [avoids] in H. rewrite !andb_true_iff in H.
  destruct H as (H0 & H1 & H2 & H3 & H4 & H5 & H6 & H7 & H8 & H9 & _).
  induction d as [|d IH|d IH|d IH|d IH|d IH|d IH|d IH|d IH|d IH|d IH];
    cbn [NilEmpty.string_of_uint avoids]; rewrite ?IH, ?andb_true_r; auto.
Qed.

Lemma avoids_format_04d c n :
  avoids c "-0123456789" = true -> avoids c (Naming.format_04d n) = true.
Proof.
  intros H. cbn [avoids] in H. apply andb_true_iff in H as [Hminus H].
  assert (H0 : Ascii.eqb "0" c = false).
  { apply andb_true_iff in H as [H _]. now apply negb_true_iff. }
  assert (H' : avoids c "0123456789" = true) by exact H.
  assert (Hd : avoids c (NilZero.string_of_uint (N.to_uint (Z.abs_N n))) = true).
  { unfold NilZero.string_of_uint.
    destruct (N.to_uint (Z.abs_N n)) eqn:Hu;
      try (rewrite <- Hu; now apply avoids_string_of_uint).
    cbn [avoids]. now rewrite H0. }
  unfold Naming.format_04d, Naming.zfill.
  destruct (n <? 0)%Z; rewrite ?avoids_app, Hd, avoids_zeros by assumption;
    [|reflexivity].
  cbn [avoids]. now rewrite Hminus.
Qed.

Lemma hex_digit_avoided c x :
  avoids c "0123456789abcdef" = true -> Ascii.eqb (MD5.hex_digit x) c = false.
Proof.
  intros H. cbn [avoids] in H. rewrite !andb_true_iff, !negb_true_iff in H.
  unfold MD5.hex_digit. generalize (Z.to_nat x). intros k.
  cbn [list_ascii_of_string].
  do 16 (destruct k as [|k]; [cbn [nth]; tauto|]).
  cbn [nth]. destruct k; tauto.
Qed.

Lemma avoids_hex_of_bytes c bs :
  avoids c "0123456789abcdef" = true -> avoids c (MD5.hex_of_bytes bs) = true.
Proof.
  intros H. induction bs as [|b bs IH]; [reflexivity|].
  cbn [MD5.hex_of_bytes avoids]. now rewrite !hex_digit_avoided, IH by assumption.
Qed.

Lemma avoids_substring c n m s : avoids c s = true -> avoids c (substring n m s) = true.
Proof.
  revert n m. induction s as [|x s IH]; intros n m H.
  - destruct n, m; reflexivity.
  - cbn [avoids] in H. apply andb_true_iff in H as [Hx H].
    destruct n as [|n]; [destruct m as [|m]|]; cbn [substring avoids]; auto.
    rewrite Hx. simpl. auto.
Qed.

Lemma avoids_url_hash c img_url :
  avoids c "0123456789abcdef" = true -> avoids c (Naming.url_hash img_url) = true.
Proof.
  intros H. apply avoids_substring, avoids_hex_of_bytes, H.
Qed.

(** Two texts without the separator, each followed by the separator:
    where they end is determined. *)
Lemma split_at_separator c a b x y :
  avoids c a = true -> avoids c b = true ->
  a +:+ String c x = b +:+ String c y -> a = b /\ x = y.
Proof.
  revert b. induction a as [|p a IH]; intros [|q b] Ha Hb H;
    rewrite ?append_nil_l, ?append_cons in H.
  - injection H as H. auto.
  - injection H as Hc H. subst q. cbn [avoids] in Hb.
    now rewrite Ascii.eqb_refl in Hb.
  - injection H as Hc H. subst p. cbn [avoids] in Ha.
    now rewrite Ascii.eqb_refl in Ha.
  - injection H as Hc H. subst q. cbn [avoids] in Ha, Hb.
    apply andb_true_iff in Ha as [_ Ha], Hb as [_ Hb].
    destruct (IH b Ha Hb H) as [-> ->]. auto.
Qed.

(** Reading the digits back gives the number, the padding zeros
    notwithstanding. *)
Lemma zfill_reads_back width m :
  exists d,
    NilEmpty.uint_of_string (Naming.zfill width (NilZero.string_of_uint (N.to_uint m)))
    = Some d /\ N.of_uint d = m.
Proof.
  unfold Naming.zfill.
  generalize (width - String.length (NilZero.string_of_uint (N.to_uint m))).
  intros k. induction k as [|k (d & Hd & Hm)].
  - simpl. rewrite append_nil_l. unfold NilZero.string_of_uint.
    destruct (N.to_uint m) eqn:Hu;
      try (rewrite <- Hu, NilEmpty.usu; eexists; split;
           [reflexivity | apply DecimalN.Unsigned.of_to]).
    exists (Decimal.D0 Decimal.Nil). split; [reflexivity|].
    rewrite <- (DecimalN.Unsigned.of_to m), Hu. reflexivity.
  - exists (Decimal.D0 d). cbn [repeat string_of_list_ascii]. rewrite append_cons.
    cbn [NilEmpty.uint_of_string]. rewrite Hd. split; [reflexivity|]. exact Hm.
Qed.

Lemma zfill_inj width m m' :
  Naming.zfill width (NilZero.string_of_uint (N.to_uint m))
  = Naming.zfill width (NilZero.string_of_uint (N.to_uint m')) -> m = m'.
Proof.
  intros H.
  destruct (zfill_reads_back width m) as (d & Hd & <-).
  destruct (zfill_reads_back width m') as (d' & Hd' & <-).
  rewrite H in Hd. congruence.
Qed.

Lemma format_04d_inj n n' : Naming.format_04d n = Naming.format_04d n' -> n = n'.
Proof.
  unfold Naming.format_04d.
  destruct (n <? 0)%Z eqn:Hn, (n' <? 0)%Z eqn:Hn'; intros H.
  - rewrite !append_cons, !append_nil_l in H. injection H as H.
    apply zfill_inj in H. apply Z.ltb_lt in Hn, Hn'. lia.
  - exfalso. destruct (zfill_reads_back 4 (Z.abs_N n')) as (d & Hd & _).
    rewrite <- H, append_cons, append_nil_l in Hd. cbn [NilEmpty.uint_of_string] in Hd.
    destruct (NilEmpty.uint_of_string _) in Hd; discriminate.
  - exfalso. destruct (zfill_reads_back 4 (Z.abs_N n)) as (d & Hd & _).
    rewrite H, append_cons, append_nil_l in Hd. cbn [NilEmpty.uint_of_string] in Hd.
    destruct (NilEmpty.uint_of_string _) in Hd; discriminate.
  - apply zfill_inj in H. apply Z.ltb_ge in Hn, Hn'. lia.
Qed.

End NamingMore.

Section FilenameShape.

Lemma le_bytes_length k : forall n, length (MD5.le_bytes k n) = k.
Proof.
  induction k as [|k IH]; intros n; [reflexivity|].
  cbn [MD5.le_bytes length]. now rewrite IH.
Qed.

(** A digest is sixteen bytes, whatever the message. *)
Lemma digest_length msg : length (MD5.digest msg) = 16.
Proof.
  unfold MD5.digest. cbv zeta. rewrite !List.length_app, !le_bytes_length. reflexivity.
Qed.

Lemma hex_of_bytes_length bs : String.length (MD5.hex_of_bytes bs) = 2 * length bs.
Proof.
  induction bs as [|b bs IH]; [reflexivity|].
  cbn [MD5.hex_of_bytes String.length length]. rewrite IH. lia.
Qed.

Lemma hexdigest_length s : String.length (MD5.hexdigest s) = 32.
Proof.
  unfold MD5.hexdigest. now rewrite hex_of_bytes_length, digest_length.
Qed.

(** [s[:n]] of a text that has [n] characters at least. *)
Lemma substring_prefix n : forall s,
  n <= String.length s ->
  String.length (substring 0 n s) = n /\
  exists rest, s = substring 0 n s +:+ rest /\ String.length rest = String.length s - n.
Proof.
  induction n as [|n IH]; intros s Hn.
  - destruct s; (split; [reflexivity|]); eexists; rewrite append_nil_l;
      (split; [reflexivity|]); cbn [String.length]; lia.
  - destruct s as [|c s]; cbn [String.length] in Hn; [lia|].
    destruct (IH s ltac:(lia)) as (Hlen & rest & Hs & Hrest).
    cbn [substring String.length]. rewrite Hlen. split; [reflexivity|].
    exists rest. rewrite append_cons, <- Hs. split; [reflexivity | exact Hrest].
Qed.

Lemma zeros_length k : String.length (string_of_list_ascii (repeat "0"%char k)) = k.
Proof.
  induction k as [|k IH]; [reflexivity|].
  cbn [repeat string_of_list_ascii String.length]. now rewrite IH.
Qed.

Lemma zfill_length width digits :
  String.length (Naming.zfill width digits)
  = (width - String.length digits) + String.length digits.
Proof.
  unfold Naming.zfill. now rewrite append_length, zeros_length.
Qed.

(** The decimal digits of a number begin with a zero only when they are
    the one digit 0. *)
Lemma to_uint_leading_zero m d : N.to_uint m = Decimal.D0 d -> d = Decimal.Nil.
Proof.
  intros Hm.
  pose proof (DecimalN.Unsigned.to_of (N.to_uint m)) as Hnorm.
  rewrite DecimalN.Unsigned.of_to, Hm, DecimalFacts.unorm_D0 in Hnorm.
  unfold Decimal.unorm in Hnorm.
  destruct (Decimal.nzhead d) eqn:Hz; try discriminate.
  - now injection Hnorm as <-.
  - exfalso. apply (DecimalFacts.nzhead_nonzero d u).
    rewrite Hz. now rewrite <- Hnorm.
Qed.

Lemma digits_without_padding m :
  1 < String.length (NilZero.string_of_uint (N.to_uint m)) ->
  PyStr.startswith "0" (NilZero.string_of_uint (N.to_uint m)) = false.
Proof.
  unfold NilZero.string_of_uint.
  destruct (N.to_uint m) as [|d|d|d|d|d|d|d|d|d|d] eqn:Hm;
    try (intros _; reflexivity).
  - cbn [String.length]. lia.
  - apply to_uint_leading_zero in Hm as ->. cbn. lia.
Qed.

Lemma zfill_without_padding width m :
  width < String.length (Naming.zfill width (NilZero.string_of_uint (N.to_uint m))) ->
  1 <= width ->
  PyStr.startswith "0" (Naming.zfill width (NilZero.string_of_uint (N.to_uint m))) = false.
Proof.
  rewrite zfill_length. intros Hlen Hw. unfold Naming.zfill.
  replace (width - String.length (NilZero.string_of_uint (N.to_uint m))) with 0 by lia.
  cbn [repeat string_of_list_ascii]. rewrite append_nil_l.
  apply digits_without_padding. lia.
Qed.

End FilenameShape.

(** C7.  The file name is a function of the URL and the ordinal alone:
    it is pinterest_, the ordinal, an underscore, the hash and .jpg.  The
    ordinal is written in decimal digits that read back as the number,
    four at least, and begins with a zero only to reach four.  The hash
    has eight characters, all of them hexadecimal digits in lower case,
    and they are the first eight of the thirty-two of the MD5 of the
    URL, which takes the values of the test suite of RFC 1321.  Whatever
    the state of the scraper and the answers of the world, a file that
    [download_image] creates lies at that name in the folder.  Two URLs
    get the same name at the same ordinal only if (and whenever) the
    eight digits of their MD5 agree. *)
Theorem filename_is_a_function_of_url_and_ordinal (img_url : string) (img_num : Z) :
  Naming.filename img_url img_num
  = "pinterest_" +:+ Naming.format_04d img_num +:+ "_"
    +:+ substring 0 8 (MD5.hexdigest img_url) +:+ ".jpg" /\
  ((0 <= img_num)%Z ->
   (exists d, NilEmpty.uint_of_string (Naming.format_04d img_num) = Some d /\
              Z.of_N (N.of_uint d) = img_num) /\
   4 <= String.length (Naming.format_04d img_num) /\
   (4 < String.length (Naming.format_04d img_num) ->
    PyStr.startswith "0" (Naming.format_04d img_num) = false)) /\
  (String.length (substring 0 8 (MD5.hexdigest img_url)) = 8 /\
   (forall c, PyStr.avoids c "0123456789abcdef" = true ->
              PyStr.avoids c (substring 0 8 (MD5.hexdigest img_url)) = true) /\
   exists rest,
     MD5.hexdigest img_url = substring 0 8 (MD5.hexdigest img_url) +:+ rest /\
     String.length rest = 24) /\
  map MD5.hexdigest
    [ ""; "a"; "abc"; "message digest"; "abcdefghijklmnopqrstuvwxyz";
      "ABCDEFGHIJKLMNOPQRSTUVWXYZabcdefghijklmnopqrstuvwxyz0123456789";
      "12345678901234567890123456789012345678901234567890123456789012345678901234567890" ]
  = [ "d41d8cd98f00b204e9800998ecf8427e"; "0cc175b9c0f1b6a831c399e269772661";
      "900150983cd24fb0d6963f7d28e17f72"; "f96b697d7cb7938d525a2f31aaf161d0";
      "c3fcd3d76192e4007dfb496cca67e13b"; "d174ab98d277d9f5a5611c2c9f419d9f";
      "57edf4a22be3c955ac49da2e2107b67a" ] /\
  (forall (E : env) (st : state) (folder_path path : string),
     is_Some (files (snd (download_image E img_url folder_path img_num st)) !! path) ->
     is_Some (files st !! path) \/
     path = Naming.os_path_join folder_path (Naming.filename img_url img_num)) /\
  (forall img_url',
     Naming.filename img_url img_num = Naming.filename img_url' img_num ->
     substring 0 8 (MD5.hexdigest img_url) = substring 0 8 (MD5.hexdigest img_url')) /\
  (forall img_url',
     substring 0 8 (MD5.hexdigest img_url) = substring 0 8 (MD5.hexdigest img_url') ->
     Naming.filename img_url img_num = Naming.filename img_url' img_num).
Proof.
  split; [reflexivity|]. split; [|split; [|split; [|split; [|split]]]].
  - intros Hnum. unfold Naming.format_04d.
    replace (img_num <? 0)%Z with false by (symmetry; apply Z.ltb_ge; exact Hnum).
    split; [|split].
    + destruct (zfill_reads_back 4 (Z.abs_N img_num)) as (d & Hd & Hm).
      exists d. split; [exact Hd|]. rewrite Hm. lia.
    + rewrite zfill_length. lia.
    + intros Hlen. apply zfill_without_padding; [exact Hlen | lia].
  - pose proof (hexdigest_length img_url) as Hlen.
    destruct (substring_prefix 8 (MD5.hexdigest img_url) ltac:(lia))
      as (H8 & rest & Hrest & Hlrest).
    split; [exact H8|]. split.
    + intros c Hc. apply (avoids_url_hash c img_url Hc).
    + exists rest. split; [exact Hrest | lia].
  - vm_compute. reflexivity.
  - intros E st folder_path path. apply download_files_new.
  - intros img_url'. apply filename_eq_iff.
  - intros img_url'. apply filename_eq_iff.
Qed.

(** Two URLs whose MD5 digests begin with the same eight digits. *)
Lemma filename_is_a_function_of_url_and_ordinal_witness :
  Naming.filename "https://i.pinimg.com/736x/20be.jpg" 7
  = Naming.filename "https://i.pinimg.com/736x/220cd.jpg" 7 /\
  substring 0 8 (MD5.hexdigest "https://i.pinimg.com/736x/20be.jpg")
  = substring 0 8 (MD5.hexdigest "https://i.pinimg.com/736x/220cd.jpg") /\
  4 <= String.length (Naming.format_04d 7).
Proof.
  assert (H : Naming.filename "https://i.pinimg.com/736x/20be.jpg" 7
              = Naming.filename "https://i.pinimg.com/736x/220cd.jpg" 7)
    by (vm_compute; reflexivity).
  destruct (filename_is_a_function_of_url_and_ordinal
              "https://i.pinimg.com/736x/20be.jpg" 7)
    as (_ & Hordinal & _ & _ & _ & Honly_if & _).
  split; [exact H|]. split; [exact (Honly_if _ H)|].
  apply Hordinal. lia.
Defined.

Example colliding_filenames :
  Naming.filename "https://i.pinimg.com/736x/20be.jpg" 7 = "pinterest_0007_fbeeea66.jpg" /\
  Naming.filename "https://i.pinimg.com/736x/220cd.jpg" 7 = "pinterest_0007_fbeeea66.jpg".
Proof. vm_compute. auto. Qed.

(** ** The scroll loop *)

Section ScrollFacts.

Variable E : env.

(** One iteration of the loop. *)
Lemma scroll_loop_step r i max_scrolls last_height no_change_count st :
  scroll_loop E (S r) i max_scrolls last_height no_change_count st =
  match scroll_to E (scrolls st) with
  | Raise e => (Raise e, set_scrolls S st)
  | Ok _ =>
      let st1 := set_scrolls S st in
      match scroll_height E (height_reads st) with
      | Raise e => (Raise e, set_height_reads S st1)
      | Ok new_height =>
          let st2 := set_height_reads S st1 in
          if (new_height =? last_height)%Z then
            if (no_change_count + 1 >=? 3)%Z
            then (Ok tt, set_stdout (cons MsgReachedBottom) st2)
            else scroll_loop E r (i + 1) max_scrolls last_height (no_change_count + 1)
                   (set_stdout (cons (MsgScroll (i + 1) max_scrolls new_height)) st2)
          else scroll_loop E r (i + 1) max_scrolls new_height 0
                 (set_stdout (cons (MsgScroll (i + 1) max_scrolls new_height)) st2)
      end
  end.
Proof.
  cbn [scroll_loop]. unfold bind, execute_scroll, read_scroll_height, print, modify.
  destruct (scroll_to E (scrolls st)); [|reflexivity].
  cbn [height_reads set_scrolls].
  destruct (scroll_height E (height_reads st)) as [new_height|]; [|reflexivity].
  destruct (new_height =? last_height)%Z; [|reflexivity].
  destruct (no_change_count + 1 >=? 3)%Z; reflexivity.
Qed.

(** Each iteration scrolls once, so the counter of scrolls counts the
    iterations; there are never more than [remaining]. *)
Lemma scroll_loop_bound remaining : forall i max_scrolls last_height no_change_count st st',
  snd (scroll_loop E remaining i max_scrolls last_height no_change_count st) = st' ->
  scrolls st <= scrolls st' <= scrolls st + remaining.
Proof.
  induction remaining as [|r IH]; intros i max_scrolls last_height c st st'.
  - simpl. intros <-. lia.
  - rewrite scroll_loop_step.
    destruct (scroll_to E (scrolls st)); [|simpl; intros <-; simpl; lia].
    destruct (scroll_height E (height_reads st)) as [new_height|];
      [|simpl; intros <-; simpl; lia].
    cbv zeta.
    destruct (new_height =? last_height)%Z;
      [destruct (c + 1 >=? 3)%Z; [simpl; intros <-; simpl; lia|]|];
      intros H; apply IH in H; simpl in H; lia.
Qed.

Lemma scroll_to_bottom_bound max_scrolls st st' :
  snd (scroll_to_bottom E max_scrolls st) = st' ->
  scrolls st <= scrolls st' <= scrolls st + Z.to_nat max_scrolls.
Proof.
  unfold scroll_to_bottom, bind, read_scroll_height.
  destruct (scroll_height E (height_reads st)) as [h|]; [|simpl; intros <-; simpl; lia].
  intros H. apply scroll_loop_bound in H. simpl in H. lia.
Qed.

Variable hs : nat -> Z.
Variables s0 r0 : nat.
Hypothesis scroll_ok : forall k, scroll_to E k = Ok tt.
Hypothesis heights : forall k, scroll_height E (r0 + k) = Ok (hs k).

(** The loop, entered after [j] iterations with the counter the readings
    give: it stops at the first iteration where the counter reaches 3,
    or when the iterations are used up. *)
Lemma scroll_loop_stops remaining : forall j i max_scrolls st res,
  scrolls st = s0 + j ->
  height_reads st = r0 + 1 + j ->
  no_change_run hs j < 3 ->
  scroll_loop E remaining i max_scrolls (hs j) (Z.of_nat (no_change_run hs j)) st = res ->
  let n := scrolls (snd res) - s0 in
  fst res = Ok tt /\
  j <= n <= j + remaining /\
  (forall k, j < k <= j + remaining -> 3 <= no_change_run hs k -> n <= k) /\
  (n < j + remaining -> j < n /\ 3 <= no_change_run hs n).
Proof.
  induction remaining as [|r IH]; intros j i max_scrolls st res Hs Hr Hc.
  - simpl. intros <-. simpl. rewrite Hs. repeat split; lia.
  - rewrite scroll_loop_step, scroll_ok.
    replace (height_reads st) with (r0 + S j) by lia. rewrite heights. cbv zeta.
    assert (Hrun : no_change_run hs (S j)
                   = if (hs (S j) =? hs j)%Z then S (no_change_run hs j) else 0)
      by reflexivity.
    destruct (hs (S j) =? hs j)%Z eqn:Heq.
    + apply Z.eqb_eq in Heq.
      destruct (Z.of_nat (no_change_run hs j) + 1 >=? 3)%Z eqn:Hge.
      * intros <-. simpl. rewrite Hs.
        replace (S (s0 + j) - s0) with (S j) by lia. rewrite Hrun.
        repeat split; lia.
      * rewrite <- Heq.
        replace (Z.of_nat (no_change_run hs j) + 1)%Z
          with (Z.of_nat (no_change_run hs (S j))) by (rewrite Hrun; lia).
        intros H. apply IH in H; [|simpl; lia | simpl; lia | rewrite Hrun; lia].
        destruct H as (H1 & H2 & H3 & H4).
        split; [exact H1|]. split; [lia|]. split.
        -- intros k Hk Hk3. destruct (decide (k = S j)) as [-> | Hne].
           ++ rewrite Hrun in Hk3. lia.
           ++ apply H3; [lia | exact Hk3].
        -- intros Hn. split; [lia|]. apply H4. lia.
    + intros H.
      replace 0%Z with (Z.of_nat (no_change_run hs (S j))) in H
        by (rewrite Hrun; reflexivity).
      apply IH in H; [|simpl; lia | simpl; lia | rewrite Hrun; lia].
      destruct H as (H1 & H2 & H3 & H4).
      split; [exact H1|]. split; [lia|]. split.
      * intros k Hk Hk3. destruct (decide (k = S j)) as [-> | Hne].
        -- rewrite Hrun in Hk3. lia.
        -- apply H3; [lia | exact Hk3].
      * intros Hn. split; [lia|]. apply H4. lia.
Qed.

End ScrollFacts.

(** The counter reaches 3 exactly when four readings in a row agree. *)
Lemma no_change_run_ge_3 hs k :
  3 <= no_change_run hs k <->
  3 <= k /\ hs k = hs (k - 1) /\ hs (k - 1) = hs (k - 2) /\ hs (k - 2) = hs (k - 3).
Proof.
  destruct k as [|[|[|k]]].
  - simpl. lia.
  - simpl. destruct (_ =? _)%Z; lia.
  - simpl. repeat destruct (_ =? _)%Z; lia.
  - cbn [no_change_run]. replace (S (S (S k)) - 1) with (S (S k)) by lia.
    replace (S (S (S k)) - 2) with (S k) by lia.
    replace (S (S (S k)) - 3) with k by lia.
    replace (S (S k) - 1) with (S k) by lia.
    replace (S (S k) - 2) with k by lia.
    replace (S k - 1) with k by lia.
    destruct (hs (S (S (S k))) =? hs (S (S k)))%Z eqn:H1;
      destruct (hs (S (S k)) =? hs (S k))%Z eqn:H2;
      destruct (hs (S k) =? hs k)%Z eqn:H3;
      rewrite ?Z.eqb_eq, ?Z.eqb_neq in *; lia.
Qed.

(** C4 (as amended).  Whatever the page reports, the loop makes at most
    [max_scrolls] iterations (30 in [scrape_board]).  When the driver
    answers every call, the reported heights being [hs 0] before the loop
    and [hs k] in iteration [k], the loop stops no later than the first
    iteration whose height and the three before it agree, which is when
    the no-change counter reaches 3, and it stops before [max_scrolls]
    only there.  For heights beginning 1000, 2000, 2000, 2000 the counter
    is at 2 after iteration 3 and the loop goes on; with one more 2000 it
    stops at iteration 4. *)
Theorem scroll_loop_is_bounded_and_stops_when_stable (E : env) (max_scrolls : Z)
    (st : state) :
  let res := scroll_to_bottom E max_scrolls st in
  let n := scrolls (snd res) - scrolls st in
  n <= Z.to_nat max_scrolls /\
  forall hs : nat -> Z,
    (forall k, scroll_to E k = Ok tt) ->
    (forall k, scroll_height E (height_reads st + k) = Ok (hs k)) ->
    fst res = Ok tt /\
    (forall k, 3 <= k <= Z.to_nat max_scrolls ->
       hs k = hs (k - 1) -> hs (k - 1) = hs (k - 2) -> hs (k - 2) = hs (k - 3) ->
       n <= k) /\
    (n < Z.to_nat max_scrolls ->
       3 <= n /\ hs n = hs (n - 1) /\ hs (n - 1) = hs (n - 2) /\ hs (n - 2) = hs (n - 3)) /\
    (hs 0 = 1000%Z -> hs 1 = 2000%Z -> hs 2 = 2000%Z -> hs 3 = 2000%Z ->
     4 <= Z.to_nat max_scrolls ->
     4 <= n /\ (hs 4 = 2000%Z -> n = 4)).
Proof.
  intros res n. split.
  - pose proof (scroll_to_bottom_bound E max_scrolls st (snd res) eq_refl). lia.
  - intros hs Hscroll Hheights.
    assert (Hres : scroll_loop E (Z.to_nat max_scrolls) 0 max_scrolls (hs 0)
                     (Z.of_nat (no_change_run hs 0)) (set_height_reads S st) = res).
    { subst res. unfold scroll_to_bottom, bind, read_scroll_height.
      specialize (Hheights 0). rewrite Nat.add_0_r in Hheights.
      now rewrite Hheights. }
    apply (scroll_loop_stops E hs (scrolls st) (height_reads st) Hscroll Hheights)
      in Hres; [|simpl; lia | simpl; lia | simpl; lia].
    fold n in Hres. destruct Hres as (H1 & H2 & H3 & H4).
    assert (Hstable : n < Z.to_nat max_scrolls ->
              3 <= n /\ hs n = hs (n - 1) /\ hs (n - 1) = hs (n - 2) /\
              hs (n - 2) = hs (n - 3)).
    { intros Hn. apply no_change_run_ge_3, H4. lia. }
    split; [exact H1|]. split; [|split; [exact Hstable|]].
    + intros k Hk Ha Hb Hc. apply H3; [lia|].
      apply no_change_run_ge_3. repeat split; auto; lia.
    + intros h0 h1 h2 h3 Hmax.
      assert (Hn3 : n <> 3).
      { intros Hn. destruct Hstable as (_ & _ & _ & Hc); [lia|].
        rewrite Hn in Hc. simpl in Hc. lia. }
      assert (Hlow : 3 <= n).
      { destruct (decide (n < Z.to_nat max_scrolls)) as [Hlt | Hge];
          [apply Hstable in Hlt | ]; lia. }
      split; [lia|].
      intros h4. assert (n <= 4); [|lia].
      apply H3; [lia|]. apply no_change_run_ge_3. simpl. lia.
Qed.

Lemma scroll_loop_is_bounded_and_stops_when_stable_witness :
  let res := scroll_to_bottom page_1000_2000 30 (new_scraper ∅) in
  let n := scrolls (snd res) - 0 in
  fst res = Ok tt /\ n = 4.
Proof.
  intros res n.
  destruct (proj2 (scroll_loop_is_bounded_and_stops_when_stable
                     page_1000_2000 30 (new_scraper ∅))
              (fun k => nth k [1000; 2000; 2000; 2000]%Z 2000%Z))
    as (H1 & _ & _ & H4).
  - reflexivity.
  - reflexivity.
  - split; [exact H1|].
    apply H4; try reflexivity. simpl. lia.
Defined.

(** C4 as stated fails: with the heights 1000, 2000, 2000, 2000 the loop
    does not stop at iteration 3.  After three iterations the bottom has
    not been declared; the loop stops at iteration 4, when the page
    reports 2000 once more. *)
Lemma scroll_does_not_stop_at_iteration_3 :
  scrolls (snd (scroll_to_bottom page_1000_2000 30 (new_scraper ∅))) = 4 /\
  scrolls (snd (scroll_to_bottom page_1000_2000 30 (new_scraper ∅))) <> 3 /\
  stdout (snd (scroll_to_bottom page_1000_2000 3 (new_scraper ∅)))
  = [MsgScroll 3 3 2000; MsgScroll 2 3 2000; MsgScroll 1 3 2000] /\
  stdout (snd (scroll_to_bottom page_1000_2000 30 (new_scraper ∅)))
  = [MsgReachedBottom; MsgScroll 3 30 2000; MsgScroll 2 30 2000; MsgScroll 1 30 2000].
Proof.
  vm_compute. repeat split; congruence.
Qed.

(** ** The login check *)

Section LoginFacts.

Variable E : env.

(** A loop over indicators none of which is displayed. *)
Lemma probe_logged_in_none indicators : forall st,
  (forall i, i < length indicators ->
     find_displayed E (probes st + i) (nth i indicators "") <> Ok true) ->
  exists st',
    probe_logged_in E indicators st = (Ok false, st') /\
    probes st' = probes st + length indicators /\
    stdout st' = stdout st /\
    prompts st' = prompts st.
Proof.
  induction indicators as [|x rest IH]; intros st H.
  - exists st. simpl. auto.
  - cbn [probe_logged_in]. unfold bind at 1. unfold try_except, is_displayed.
    pose proof (H 0 ltac:(simpl; lia)) as H0.
    rewrite Nat.add_0_r in H0. cbn [nth] in H0.
    destruct (IH (set_probes S st)) as (st' & Hrun & Hp & Ho & Hi).
    { intros i Hi. specialize (H (S i) ltac:(simpl; lia)).
      cbn [nth] in H. simpl. now rewrite Nat.add_succ_r in H. }
    destruct (find_displayed E (probes st) x) as [[|]|e]; [congruence | |];
      unfold ret; cbv beta iota; rewrite Hrun;
      exists st'; simpl in *; repeat split; auto; lia.
Qed.

Lemma probe_login_none again indicators : forall st,
  (forall i, i < length indicators ->
     find_displayed E (probes st + i) (nth i indicators "") <> Ok true) ->
  exists st',
    probe_login E again indicators st = (Ok true, st') /\
    probes st' = probes st + length indicators /\
    stdout st' = MsgLoginUndetermined :: stdout st /\
    prompts st' = prompts st.
Proof.
  induction indicators as [|x rest IH]; intros st H.
  - eexists. split; [reflexivity|]. simpl. auto.
  - cbn [probe_login]. unfold bind at 1. unfold try_except. unfold bind at 1.
    unfold is_displayed.
    pose proof (H 0 ltac:(simpl; lia)) as H0.
    rewrite Nat.add_0_r in H0. cbn [nth] in H0.
    destruct (IH (set_probes S st)) as (st' & Hrun & Hp & Ho & Hi).
    { intros i Hi. specialize (H (S i) ltac:(simpl; lia)).
      cbn [nth] in H. simpl. now rewrite Nat.add_succ_r in H. }
    destruct (find_displayed E (probes st) x) as [[|]|e]; [congruence | |];
      unfold ret; cbv beta iota; rewrite Hrun;
      exists st'; simpl in *; repeat split; auto; lia.
Qed.

End LoginFacts.

(** C8.  When the home page loads and none of the seven indicators, the
    four of a logged-in page and then the three of a login page, finds a
    displayed element (the element is absent, hidden, or the probe
    raises), [check_login_status] answers [True], after printing that it
    could not determine the state and without asking the operator. *)
Theorem ambiguous_login_state_counts_as_logged_in (E : env) (depth : nat) (st : state) :
  driver_get E (length (navigations st)) "https://www.pinterest.com" = Ok tt ->
  (forall i, i < 7 ->
     find_displayed E (probes st + i)
       (nth i (logged_in_indicators ++ login_indicators)%list "") <> Ok true) ->
  exists st',
    check_login_status E (S depth) st = (Ok true, st') /\
    stdout st' = MsgLoginUndetermined :: stdout st /\
    prompts st' = prompts st /\
    probes st' = probes st + 7.
Proof.
  intros Hnav Hprobe.
  cbn [check_login_status]. unfold try_except. unfold bind at 1. unfold navigate.
  rewrite Hnav. cbv beta iota. unfold bind at 1.
  destruct (probe_logged_in_none E logged_in_indicators
              (set_navigations (cons "https://www.pinterest.com") st))
    as (st1 & Hrun1 & Hp1 & Ho1 & Hi1).
  { intros i Hi. simpl in Hi. specialize (Hprobe i ltac:(lia)).
    rewrite app_nth1 in Hprobe by (simpl; lia). exact Hprobe. }
  rewrite Hrun1. cbv beta iota.
  destruct (probe_login_none E (check_login_status E depth) login_indicators st1)
    as (st2 & Hrun2 & Hp2 & Ho2 & Hi2).
  { intros i Hi. simpl in Hi. specialize (Hprobe (4 + i) ltac:(lia)).
    rewrite app_nth2 in Hprobe by (simpl; lia).
    replace (4 + i - length logged_in_indicators) with i in Hprobe by (simpl; lia).
    rewrite Hp1. simpl in *.
    now replace (probes st + 4 + i) with (probes st + S (S (S (S i)))) by lia. }
  rewrite Hrun2. exists st2. simpl in *. repeat split; try congruence. lia.
Qed.

Lemma ambiguous_login_state_counts_as_logged_in_witness :
  exists st',
    check_login_status Sample.quiet 1 (new_scraper ∅) = (Ok true, st') /\
    stdout st' = [MsgLoginUndetermined] /\
    prompts st' = 0 /\
    probes st' = 7.
Proof.
  apply (ambiguous_login_state_counts_as_logged_in Sample.quiet 0 (new_scraper ∅)).
  - reflexivity.
  - intros i _. discriminate.
Defined.

(** ** The session *)

Section SessionFacts.

Variable E : env.

Create HintDb quits.

Lemma keeps_quits_ret {A} (a : A) : keeps_quits (ret a).
Proof. intros st. reflexivity. Qed.

Lemma keeps_quits_raise {A} e : keeps_quits (@raise A e).
Proof. intros st. reflexivity. Qed.

Lemma keeps_quits_lift {A} (r : result A) : keeps_quits (lift r).
Proof. intros st. reflexivity. Qed.

Lemma keeps_quits_gets {A} (f : state -> A) : keeps_quits (gets f).
Proof. intros st. reflexivity. Qed.

Lemma keeps_quits_bind {A B} (m : M A) (k : A -> M B) :
  keeps_quits m -> (forall a, keeps_quits (k a)) -> keeps_quits (bind m k).
Proof.
  intros Hm Hk st. unfold bind. specialize (Hm st).
  destruct (m st) as [[a | e] st1]; simpl in *; [|exact Hm].
  rewrite (Hk a st1). exact Hm.
Qed.

Lemma keeps_quits_try_except {A} (m : M A) (h : exn -> M A) :
  keeps_quits m -> (forall e, keeps_quits (h e)) -> keeps_quits (try_except m h).
Proof.
  intros Hm Hh st. unfold try_except. specialize (Hm st).
  destruct (m st) as [[a | e] st1]; simpl in *; [exact Hm|].
  rewrite (Hh e st1). exact Hm.
Qed.

Lemma keeps_quits_if {A} (b : bool) (m1 m2 : M A) :
  keeps_quits m1 -> keeps_quits m2 -> keeps_quits (if b then m1 else m2).
Proof. now destruct b. Qed.

Lemma keeps_quits_print msg : keeps_quits (print msg).
Proof. intros st. reflexivity. Qed.

Lemma keeps_quits_navigate url : keeps_quits (navigate E url).
Proof. intros st. reflexivity. Qed.

Lemma keeps_quits_is_displayed x : keeps_quits (is_displayed E x).
Proof. intros st. reflexivity. Qed.

Lemma keeps_quits_input : keeps_quits (input E).
Proof. intros st. reflexivity. Qed.

Lemma keeps_quits_execute_scroll : keeps_quits (execute_scroll E).
Proof. intros st. reflexivity. Qed.

Lemma keeps_quits_read_scroll_height : keeps_quits (read_scroll_height E).
Proof. intros st. reflexivity. Qed.

Lemma keeps_quits_get_current_url : keeps_quits (get_current_url E).
Proof. intros st. reflexivity. Qed.

Hint Resolve keeps_quits_ret keeps_quits_raise keeps_quits_lift keeps_quits_gets
  keeps_quits_print keeps_quits_navigate keeps_quits_is_displayed keeps_quits_input
  keeps_quits_execute_scroll keeps_quits_read_scroll_height
  keeps_quits_get_current_url : quits.

(** Goes through binds, handlers and branches down to the calls. *)
Ltac keeps :=
  repeat first
    [ solve [auto with quits]
    | apply keeps_quits_bind; [|intros ?]
    | apply keeps_quits_try_except; [|intros ?]
    | apply keeps_quits_if
    | match goal with
      | |- keeps_quits (match ?x with _ => _ end) => destruct x
      end ].

Lemma keeps_quits_probe_logged_in indicators : keeps_quits (probe_logged_in E indicators).
Proof. induction indicators as [|x rest IH]; cbn [probe_logged_in]; keeps. Qed.
Hint Resolve keeps_quits_probe_logged_in : quits.

Lemma keeps_quits_probe_login again indicators :
  keeps_quits again -> keeps_quits (probe_login E again indicators).
Proof. intros H. induction indicators as [|x rest IH]; cbn [probe_login]; keeps. Qed.
Hint Resolve keeps_quits_probe_login : quits.

Lemma keeps_quits_check_login_status depth : keeps_quits (check_login_status E depth).
Proof.
  induction depth as [|d IH]; cbn [check_login_status]; keeps.
Qed.
Hint Resolve keeps_quits_check_login_status : quits.

Lemma keeps_quits_scroll_loop remaining : forall i max_scrolls last_height no_change_count,
  keeps_quits (scroll_loop E remaining i max_scrolls last_height no_change_count).
Proof.
  induction remaining as [|r IH]; intros; cbn [scroll_loop]; keeps.
Qed.
Hint Resolve keeps_quits_scroll_loop : quits.

Lemma keeps_quits_scroll_to_bottom max_scrolls : keeps_quits (scroll_to_bottom E max_scrolls).
Proof. unfold scroll_to_bottom. keeps. Qed.
Hint Resolve keeps_quits_scroll_to_bottom : quits.

Lemma keeps_quits_collect_fallback images : forall image_urls,
  keeps_quits (collect_fallback images image_urls).
Proof. induction images as [|img rest IH]; intros; cbn [collect_fallback]; keeps. Qed.
Hint Resolve keeps_quits_collect_fallback : quits.

Lemma keeps_quits_extract_image_urls : keeps_quits (extract_image_urls E).
Proof. unfold extract_image_urls. keeps. Qed.
Hint Resolve keeps_quits_extract_image_urls : quits.

Lemma keeps_quits_download_image img_url folder_path img_num :
  keeps_quits (download_image E img_url folder_path img_num).
Proof.
  intros st. destruct (download_image_path E img_url folder_path img_num st); reflexivity.
Qed.
Hint Resolve keeps_quits_download_image : quits.

Lemma keeps_quits_download_all image_urls : forall output_folder i total successful,
  keeps_quits (download_all E image_urls output_folder i total successful).
Proof.
  induction image_urls as [|u rest IH]; intros; cbn [download_all]; keeps.
Qed.
Hint Resolve keeps_quits_download_all : quits.

Lemma keeps_quits_pipeline depth board_url output_folder :
  keeps_quits (pipeline E depth board_url output_folder).
Proof.
  unfold pipeline. keeps.
Qed.

(** With the output folder there, [scrape_board] is its [try] statement:
    the pipeline, the handler that prints and raises again, and the
    [finally] block behind both. *)
Lemma scrape_board_try depth board_url output_folder st :
  makedirs E output_folder = Ok tt ->
  scrape_board E depth board_url output_folder st =
  let (r, st1) :=
    try_except (pipeline E depth board_url output_folder)
      (fun e => bind (print (MsgScrapeError e)) (fun _ => raise e)) st in
  (r, set_stdout (cons MsgBrowserClosed) (set_quits S st1)).
Proof.
  intros Hmk. unfold scrape_board.
  unfold bind at 1. unfold os_makedirs, lift. rewrite Hmk.
  unfold try_finally.
  destruct (try_except (pipeline E depth board_url output_folder) _ st) as [r st1].
  reflexivity.
Qed.

(** Once the output folder is there, [scrape_board] closes the browser
    exactly once, however the pipeline ends: by one of its returns or by
    an exception. *)
Lemma scrape_board_quits_once depth board_url output_folder st st' r :
  makedirs E output_folder = Ok tt ->
  scrape_board E depth board_url output_folder st = (r, st') ->
  quits st' = S (quits st) /\
  exists out, stdout st' = MsgBrowserClosed :: out.
Proof.
  intros Hmk. rewrite (scrape_board_try _ _ _ _ Hmk).
  pose proof (keeps_quits_try_except (pipeline E depth board_url output_folder)
                (fun e => bind (print (MsgScrapeError e)) (fun _ => raise e))
                (keeps_quits_pipeline depth board_url output_folder)
                ltac:(intros; keeps) st) as Hq.
  destruct (try_except (pipeline E depth board_url output_folder) _ st) as [r1 st1].
  intros [= <- <-]. simpl in *. split; [now rewrite Hq | eauto].
Qed.

(** When [os.makedirs] raises, nothing of the [try] statement is run. *)
Lemma scrape_board_makedirs_raises depth board_url output_folder st e :
  makedirs E output_folder = Raise e ->
  scrape_board E depth board_url output_folder st = (Raise e, st).
Proof.
  intros Hmk. unfold scrape_board. unfold bind at 1. unfold os_makedirs, lift.
  now rewrite Hmk.
Qed.

End SessionFacts.

(** C5.  [scrape_board] closes the browser exactly once on every way out
    of its [try] statement, by return or by exception; but [os.makedirs]
    stands before the [try], and when it raises the method is left
    without the [finally] block: the session is not released.  So it is
    for an output folder whose name is taken by a regular file. *)
Theorem session_release_misses_makedirs (E : env) (depth : nat)
    (board_url output_folder : string) (st : state) :
  match makedirs E output_folder with
  | Ok _ =>
      quits (snd (scrape_board E depth board_url output_folder st)) = S (quits st)
  | Raise e =>
      scrape_board E depth board_url output_folder st = (Raise e, st)
  end /\
  scrape_board folder_is_a_file 1000 "https://jp.pinterest.com/user/board/" "/etc/hosts"
    (new_scraper ∅)
  = (Raise OSError, new_scraper ∅) /\
  quits (snd (scrape_board folder_is_a_file 1000 "https://jp.pinterest.com/user/board/"
                "/etc/hosts" (new_scraper ∅))) = 0.
Proof.
  split; [|split; reflexivity].
  destruct (makedirs E output_folder) as [[]|e] eqn:Hmk.
  - destruct (scrape_board E depth board_url output_folder st) as [r st'] eqn:Hrun.
    now destruct (scrape_board_quits_once E depth board_url output_folder st st' r Hmk Hrun).
  - now apply scrape_board_makedirs_raises.
Qed.

(** Every way out of the [try] statement, run: the login check fails (the
    home page does not load); the board redirects to the login page; the
    board has no images; the driver raises while scrolling; two images
    are downloaded.  The browser is closed once each time. *)
Example every_exit_closes_the_browser :
  let run E := scrape_board E 5 "https://jp.pinterest.com/user/board/" "out" (new_scraper ∅) in
  let offline := Env (fun _ _ => Raise WebDriverException) (find_displayed Sample.quiet)
                   (user_input Sample.quiet) (current_url Sample.quiet)
                   (scroll_to Sample.quiet) (scroll_height Sample.quiet)
                   (wait_for_image Sample.quiet) (images_by_xpath Sample.quiet)
                   (images_by_tag Sample.quiet) (requests_get Sample.quiet)
                   (image_verify Sample.quiet) (open_write Sample.quiet)
                   (makedirs Sample.quiet) in
  let redirected := Env (driver_get Sample.quiet) (find_displayed Sample.quiet)
                   (user_input Sample.quiet) (fun _ => "https://jp.pinterest.com/login/")
                   (scroll_to Sample.quiet) (scroll_height Sample.quiet)
                   (wait_for_image Sample.quiet) (images_by_xpath Sample.quiet)
                   (images_by_tag Sample.quiet) (requests_get Sample.quiet)
                   (image_verify Sample.quiet) (open_write Sample.quiet)
                   (makedirs Sample.quiet) in
  let crashing := Sample.with_heights (fun _ => Raise WebDriverException) Sample.quiet in
  let two_images :=
    Sample.with_xpath_images
      [Ok (Some "https://i.pinimg.com/236x/a.jpg"); Ok (Some "https://i.pinimg.com/564x/b.jpg")]
      serving_pictures in
  (fst (run offline) = Ok tt /\ quits (snd (run offline)) = 1 /\
   hd_error (tl (stdout (snd (run offline)))) = Some MsgLoginCheckFailed) /\
  (fst (run redirected) = Ok tt /\ quits (snd (run redirected)) = 1 /\
   hd_error (tl (stdout (snd (run redirected)))) = Some MsgRedirected) /\
  (fst (run Sample.quiet) = Ok tt /\ quits (snd (run Sample.quiet)) = 1 /\
   hd_error (tl (stdout (snd (run Sample.quiet)))) = Some MsgNoImages) /\
  (fst (run crashing) = Raise WebDriverException /\ quits (snd (run crashing)) = 1 /\
   hd_error (tl (stdout (snd (run crashing)))) = Some (MsgScrapeError WebDriverException)) /\
  (fst (run two_images) = Ok tt /\ quits (snd (run two_images)) = 1 /\
   hd_error (tl (stdout (snd (run two_images)))) = Some (MsgCompleted 2 2) /\
   size (files (snd (run two_images))) = 2).
Proof.
  vm_compute. repeat split.
Qed.

(** * Further properties *)

(** ** What the stages leave alone *)

Section Frames.

Context {X : Type} (f : state -> X).
Hypothesis blind : browser_blind f.
Variable E : env.

Lemma preserves_ret {A} (a : A) : preserves f (ret a).
Proof. intros st. reflexivity. Qed.

Lemma preserves_raise {A} e : preserves f (@raise A e).
Proof. intros st. reflexivity. Qed.

Lemma preserves_lift {A} (r : result A) : preserves f (lift r).
Proof. intros st. reflexivity. Qed.

Lemma preserves_gets {A} (g : state -> A) : preserves f (gets g).
Proof. intros st. reflexivity. Qed.

Lemma preserves_bind {A B} (m : M A) (k : A -> M B) :
  preserves f m -> (forall a, preserves f (k a)) -> preserves f (bind m k).
Proof.
  intros Hm Hk st. unfold bind. specialize (Hm st).
  destruct (m st) as [[a | e] st1]; simpl in *; [|exact Hm].
  rewrite (Hk a st1). exact Hm.
Qed.

Lemma preserves_try_except {A} (m : M A) (h : exn -> M A) :
  preserves f m -> (forall e, preserves f (h e)) -> preserves f (try_except m h).
Proof.
  intros Hm Hh st. unfold try_except. specialize (Hm st).
  destruct (m st) as [[a | e] st1]; simpl in *; [exact Hm|].
  rewrite (Hh e st1). exact Hm.
Qed.

Lemma preserves_if {A} (b : bool) (m1 m2 : M A) :
  preserves f m1 -> preserves f m2 -> preserves f (if b then m1 else m2).
Proof. now destruct b. Qed.

Lemma preserves_print msg : preserves f (print msg).
Proof. intros st. apply blind. Qed.

Lemma preserves_navigate url : preserves f (navigate E url).
Proof. intros st. apply blind. Qed.

Lemma preserves_is_displayed x : preserves f (is_displayed E x).
Proof. intros st. apply blind. Qed.

Lemma preserves_input : preserves f (input E).
Proof. intros st. apply blind. Qed.

Lemma preserves_execute_scroll : preserves f (execute_scroll E).
Proof. intros st. apply blind. Qed.

Lemma preserves_read_scroll_height : preserves f (read_scroll_height E).
Proof. intros st. apply blind. Qed.

Lemma preserves_get_current_url : preserves f (get_current_url E).
Proof. intros st. reflexivity. Qed.

Create HintDb frame.

Hint Resolve preserves_ret preserves_raise preserves_lift preserves_gets
  preserves_print preserves_navigate preserves_is_displayed preserves_input
  preserves_execute_scroll preserves_read_scroll_height
  preserves_get_current_url : frame.

Ltac framed :=
  repeat first
    [ solve [auto with frame]
    | apply preserves_bind; [|intros ?]
    | apply preserves_try_except; [|intros ?]
    | apply preserves_if
    | match goal with
      | |- preserves _ (match ?x with _ => _ end) => destruct x
      end ].

Lemma preserves_probe_logged_in indicators : preserves f (probe_logged_in E indicators).
Proof. induction indicators as [|x rest IH]; cbn [probe_logged_in]; framed. Qed.
Hint Resolve preserves_probe_logged_in : frame.

Lemma preserves_probe_login again indicators :
  preserves f again -> preserves f (probe_login E again indicators).
Proof. intros H. induction indicators as [|x rest IH]; cbn [probe_login]; framed. Qed.
Hint Resolve preserves_probe_login : frame.

Lemma preserves_check_login_status depth : preserves f (check_login_status E depth).
Proof. induction depth as [|d IH]; cbn [check_login_status]; framed. Qed.
Hint Resolve preserves_check_login_status : frame.

Lemma preserves_scroll_loop remaining : forall i max_scrolls last_height no_change_count,
  preserves f (scroll_loop E remaining i max_scrolls last_height no_change_count).
Proof. induction remaining as [|r IH]; intros; cbn [scroll_loop]; framed. Qed.
Hint Resolve preserves_scroll_loop : frame.

Lemma preserves_scroll_to_bottom max_scrolls : preserves f (scroll_to_bottom E max_scrolls).
Proof. unfold scroll_to_bottom. framed. Qed.
Hint Resolve preserves_scroll_to_bottom : frame.

Lemma preserves_collect_fallback images : forall image_urls,
  preserves f (collect_fallback images image_urls).
Proof. induction images as [|img rest IH]; intros; cbn [collect_fallback]; framed. Qed.
Hint Resolve preserves_collect_fallback : frame.

Lemma preserves_extract_image_urls : preserves f (extract_image_urls E).
Proof. unfold extract_image_urls. framed. Qed.

End Frames.

Lemma downloads_blind : browser_blind downloads.
Proof. repeat split. Qed.

Lemma preserves_downloads {A} (m : M A) st :
  preserves downloads m ->
  files (snd (m st)) = files st /\ requests (snd (m st)) = requests st /\
  downloaded_urls (snd (m st)) = downloaded_urls st.
Proof.
  intros H. specialize (H st). unfold downloads in H.
  injection H as H1 H2 H3. auto.
Qed.

Lemma scroll_to_bottom_keeps_downloads E max_scrolls st :
  files (snd (scroll_to_bottom E max_scrolls st)) = files st /\
  requests (snd (scroll_to_bottom E max_scrolls st)) = requests st /\
  downloaded_urls (snd (scroll_to_bottom E max_scrolls st)) = downloaded_urls st.
Proof.
  apply preserves_downloads, preserves_scroll_to_bottom, downloads_blind.
Qed.

(** ** The login check *)

Section LoginMore.

Variable E : env.

(** The first loop raises nothing and asks nothing. *)
Lemma probe_logged_in_returns indicators : forall st,
  exists found st',
    probe_logged_in E indicators st = (Ok found, st') /\
    prompts st' = prompts st.
Proof.
  induction indicators as [|x rest IH]; intros st.
  - exists false, st. auto.
  - cbn [probe_logged_in]. unfold bind at 1. unfold try_except, is_displayed.
    destruct (IH (set_probes S st)) as (b & st' & Hrun & Hp).
    destruct (find_displayed E (probes st) x) as [[|]|e];
      unfold ret; cbv beta iota; try (rewrite Hrun; eauto).
    eexists _, _. split; reflexivity.
Qed.

(** The second loop raises nothing either; it answers [False] only after
    it has asked the operator. *)
Lemma probe_login_returns again indicators :
  (forall s, prompts s <= prompts (snd (again s))) ->
  forall st,
    exists v st',
      probe_login E again indicators st = (Ok v, st') /\
      prompts st <= prompts st' /\
      (v = false -> prompts st < prompts st').
Proof.
  intros Hagain. induction indicators as [|x rest IH]; intros st.
  - eexists _, _. split; [reflexivity|]. simpl. split; [lia | discriminate].
  - cbn [probe_login]. unfold bind at 1. unfold try_except. unfold bind at 1.
    unfold is_displayed.
    destruct (IH (set_probes S st)) as (v0 & st0 & Hrun0 & Hle0 & Hlt0).
    destruct (find_displayed E (probes st) x) as [[|]|e]; cbv beta iota.
    + unfold bind at 1. unfold print, modify. cbv beta iota.
      unfold bind at 1. unfold input.
      set (s1 := set_stdout (cons MsgNotLoggedIn) (set_probes S st)).
      destruct (user_input E (prompts s1)) as [[]|e]; cbv beta iota.
      * unfold bind at 1. pose proof (Hagain (set_prompts S s1)) as Hmono.
        destruct (again (set_prompts S s1)) as [[v | e] s2]; simpl in Hmono.
        -- unfold ret. eexists _, _. split; [reflexivity|].
           subst s1. simpl in *. split; [lia | intros _; lia].
        -- cbv beta iota. unfold ret at 1. cbv beta iota.
           destruct (IH s2) as (v2 & st2 & Hrun2 & Hle2 & Hlt2).
           rewrite Hrun2. exists v2, st2. subst s1. simpl in *.
           split; [reflexivity|]. split; [lia | intros Hv; specialize (Hlt2 Hv); lia].
      * unfold ret at 1. cbv beta iota.
        destruct (IH (set_prompts S s1)) as (v2 & st2 & Hrun2 & Hle2 & Hlt2).
        rewrite Hrun2. exists v2, st2. subst s1. simpl in *.
        split; [reflexivity|]. split; [lia | intros Hv; specialize (Hlt2 Hv); lia].
    + unfold ret at 1. cbv beta iota. rewrite Hrun0. exists v0, st0.
      simpl in *. auto.
    + unfold ret at 1. cbv beta iota. rewrite Hrun0. exists v0, st0.
      simpl in *. auto.
Qed.

Lemma check_login_status_prompts depth : forall st,
  prompts st <= prompts (snd (check_login_status E depth st)).
Proof.
  induction depth as [|d IH]; intros st; [simpl; lia|].
  cbn [check_login_status]. unfold try_except. unfold bind at 1. unfold navigate.
  destruct (driver_get E (length (navigations st)) "https://www.pinterest.com")
    as [[]|e]; cbv beta iota; [|simpl; lia].
  unfold bind at 1.
  destruct (probe_logged_in_returns logged_in_indicators
              (set_navigations (cons "https://www.pinterest.com") st))
    as (found & st1 & Hrun1 & Hp1).
  rewrite Hrun1. cbv beta iota. destruct found.
  - unfold ret. simpl in *. lia.
  - destruct (probe_login_returns (check_login_status E d) login_indicators IH st1)
      as (v & st2 & Hrun2 & Hle & _).
    rewrite Hrun2. simpl in *. lia.
Qed.

End LoginMore.

(** X1.  [check_login_status] raises nothing, whatever the driver and the
    operator do.  When the home page does not load it answers [False]
    without probing; when it loads, it answers [False] only after the
    operator has been asked to log in. *)
Theorem check_login_status_never_raises (E : env) (depth : nat) (st : state) :
  exists answer st',
    check_login_status E (S depth) st = (Ok answer, st') /\
    (forall e,
       driver_get E (length (navigations st)) "https://www.pinterest.com" = Raise e ->
       answer = false /\ probes st' = probes st /\
       stdout st' = MsgLoginError e :: stdout st) /\
    (driver_get E (length (navigations st)) "https://www.pinterest.com" = Ok tt ->
     answer = false -> prompts st < prompts st').
Proof.
  cbn [check_login_status]. unfold try_except. unfold bind at 1. unfold navigate.
  destruct (driver_get E (length (navigations st)) "https://www.pinterest.com")
    as [[]|e]; cbv beta iota.
  - unfold bind at 1.
    destruct (probe_logged_in_returns E logged_in_indicators
                (set_navigations (cons "https://www.pinterest.com") st))
      as (found & st1 & Hrun1 & Hp1).
    rewrite Hrun1. cbv beta iota. destruct found.
    + unfold ret. eexists _, _. split; [reflexivity|].
      split; [discriminate | intros _; discriminate].
    + destruct (probe_login_returns E (check_login_status E depth) login_indicators
                  (check_login_status_prompts E depth) st1)
        as (v & st2 & Hrun2 & Hle & Hlt).
      rewrite Hrun2. exists v, st2. split; [reflexivity|].
      split; [discriminate|]. intros _ Hv. specialize (Hlt Hv). simpl in *. lia.
  - eexists _, _. split; [reflexivity|]. split.
    + intros e' [= <-]. simpl. auto.
    + discriminate.
Qed.

Lemma check_login_status_never_raises_witness :
  exists answer st',
    check_login_status World.offline 1 (new_scraper ∅) = (Ok answer, st') /\
    answer = false /\ probes st' = 0.
Proof.
  destruct (check_login_status_never_raises World.offline 0 (new_scraper ∅)) as (answer & st' & Hrun & Hfail & _).
  destruct (Hfail WebDriverException eq_refl) as (Ha & Hp & _).
  exists answer, st'. auto.
Defined.

Section LoginPaths.

Variable E : env.

Lemma check_login_status_S depth st :
  check_login_status E (S depth) st =
  try_except
    (bind (navigate E "https://www.pinterest.com") (fun _ =>
     bind (probe_logged_in E logged_in_indicators) (fun found =>
     if found then ret true
     else probe_login E (check_login_status E depth) login_indicators)))
    (fun e => bind (print (MsgLoginError e)) (fun _ => ret false)) st.
Proof. reflexivity. Qed.

Lemma check_login_status_returns depth st :
  exists answer st', check_login_status E (S depth) st = (Ok answer, st').
Proof.
  cbn [check_login_status]. unfold try_except.
  match goal with |- context [bind ?m ?k st] => destruct (bind m k st) as [[a | e] s] end.
  - eauto.
  - unfold bind, print, modify, ret. eauto.
Qed.

(** The first loop stops at the first indicator that is displayed. *)
Lemma probe_logged_in_found indicators : forall j st,
  j < length indicators ->
  (forall i, i < j ->
     find_displayed E (probes st + i) (nth i indicators "") <> Ok true) ->
  find_displayed E (probes st + j) (nth j indicators "") = Ok true ->
  exists st',
    probe_logged_in E indicators st = (Ok true, st') /\
    probes st' = probes st + S j /\
    stdout st' = MsgLoggedIn :: stdout st /\
    prompts st' = prompts st /\
    navigations st' = navigations st.
Proof.
  induction indicators as [|x rest IH]; intros j st Hj Hbefore Hshown;
    [simpl in Hj; lia|].
  cbn [probe_logged_in]. unfold bind at 1. unfold try_except, is_displayed.
  destruct j as [|j].
  - rewrite Nat.add_0_r in Hshown. cbn [nth] in Hshown. rewrite Hshown.
    unfold bind, print, modify, ret. cbv beta iota.
    eexists. split; [reflexivity|]. simpl. repeat split; lia.
  - pose proof (Hbefore 0 ltac:(lia)) as H0.
    rewrite Nat.add_0_r in H0. cbn [nth] in H0.
    destruct (IH j (set_probes S st)) as (st' & Hrun & Hp & Ho & Hi & Hn).
    { simpl in Hj. lia. }
    { intros i Hi. specialize (Hbefore (S i) ltac:(lia)).
      cbn [nth] in Hbefore. simpl. now rewrite Nat.add_succ_r in Hbefore. }
    { cbn [nth] in Hshown. simpl. now rewrite Nat.add_succ_r in Hshown. }
    destruct (find_displayed E (probes st) x) as [[|]|e]; [congruence | |];
      unfold ret; cbv beta iota; rewrite Hrun;
      exists st'; simpl in *; repeat split; auto; lia.
Qed.

(** The first loop does not navigate. *)
Lemma probe_logged_in_navigations indicators : forall st,
  navigations (snd (probe_logged_in E indicators st)) = navigations st.
Proof.
  induction indicators as [|x rest IH]; intros st; [reflexivity|].
  cbn [probe_logged_in]. unfold bind at 1. unfold try_except, is_displayed.
  destruct (find_displayed E (probes st) x) as [[|]|e];
    unfold ret; cbv beta iota; try apply (IH (set_probes S st)).
  reflexivity.
Qed.

(** The second loop, when every prompt raises: no new check is started,
    and the answer is [True]. *)
Lemma probe_login_unattended again indicators :
  (forall k, exists e, user_input E k = Raise e) ->
  forall st,
    exists st',
      probe_login E again indicators st = (Ok true, st') /\
      navigations st' = navigations st /\
      hd_error (stdout st') = Some MsgLoginUndetermined.
Proof.
  intros Hinput. induction indicators as [|x rest IH]; intros st.
  - eexists. split; [reflexivity|]. simpl. auto.
  - cbn [probe_login]. unfold bind at 1. unfold try_except. unfold bind at 1.
    unfold is_displayed.
    destruct (find_displayed E (probes st) x) as [[|]|e]; cbv beta iota.
    + unfold bind at 1. unfold print, modify. cbv beta iota.
      unfold bind at 1. unfold input.
      set (s1 := set_stdout (cons MsgNotLoggedIn) (set_probes S st)).
      destruct (Hinput (prompts s1)) as (e & He). rewrite He. cbv beta iota.
      unfold ret at 1. cbv beta iota.
      destruct (IH (set_prompts S s1)) as (st' & Hrun & Hn & Ho).
      rewrite Hrun. exists st'. subst s1. simpl in *. auto.
    + unfold ret at 1. cbv beta iota.
      destruct (IH (set_probes S st)) as (st' & Hrun & Hn & Ho).
      rewrite Hrun. exists st'. simpl in *. auto.
    + unfold ret at 1. cbv beta iota.
      destruct (IH (set_probes S st)) as (st' & Hrun & Hn & Ho).
      rewrite Hrun. exists st'. simpl in *. auto.
Qed.

(** The second loop at the first login indicator that is displayed, the
    prompt being answered: the answer is that of the new check. *)
Lemma probe_login_asks again indicators : forall j st,
  j < length indicators ->
  (forall i, i < j ->
     find_displayed E (probes st + i) (nth i indicators "") <> Ok true) ->
  find_displayed E (probes st + j) (nth j indicators "") = Ok true ->
  user_input E (prompts st) = Ok tt ->
  exists st1,
    navigations st1 = navigations st /\
    probes st1 = probes st + S j /\
    prompts st1 = S (prompts st) /\
    stdout st1 = MsgNotLoggedIn :: stdout st /\
    forall v st2, again st1 = (Ok v, st2) ->
      probe_login E again indicators st = (Ok v, st2).
Proof.
  induction indicators as [|x rest IH]; intros j st Hj Hbefore Hshown Hin;
    [simpl in Hj; lia|].
  destruct j as [|j].
  - rewrite Nat.add_0_r in Hshown. cbn [nth] in Hshown.
    exists (set_prompts S (set_stdout (cons MsgNotLoggedIn) (set_probes S st))).
    simpl. repeat split; try lia.
    intros v st2 Hagain.
    cbn [probe_login]. unfold bind at 1. unfold try_except. unfold bind at 1.
    unfold is_displayed. rewrite Hshown. cbv beta iota.
    unfold bind at 1. unfold print, modify. cbv beta iota.
    unfold bind at 1. unfold input. simpl prompts. rewrite Hin. cbv beta iota.
    unfold bind at 1. rewrite Hagain. reflexivity.
  - pose proof (Hbefore 0 ltac:(lia)) as H0.
    rewrite Nat.add_0_r in H0. cbn [nth] in H0.
    destruct (IH j (set_probes S st)) as (st1 & Hn & Hp & Hi & Ho & Hk).
    { simpl in Hj. lia. }
    { intros i Hi. specialize (Hbefore (S i) ltac:(lia)).
      cbn [nth] in Hbefore. simpl. now rewrite Nat.add_succ_r in Hbefore. }
    { cbn [nth] in Hshown. simpl. now rewrite Nat.add_succ_r in Hshown. }
    { exact Hin. }
    exists st1. simpl in *. repeat split; auto; try lia.
    intros v st2 Hagain. specialize (Hk v st2 Hagain).
    cbn [probe_login]. unfold bind at 1. unfold try_except. unfold bind at 1.
    unfold is_displayed.
    destruct (find_displayed E (probes st) x) as [[|]|e]; [congruence | |];
      unfold ret; cbv beta iota; exact Hk.
Qed.

End LoginPaths.

(** X2.  When the home page loads and one of the four logged-in
    indicators is displayed, the ones before it not, the check answers
    [True] at that indicator: it probes no further, looks at no login
    indicator and asks nothing. *)
Theorem displayed_profile_means_logged_in (E : env) (depth j : nat) (st : state) :
  driver_get E (length (navigations st)) "https://www.pinterest.com" = Ok tt ->
  j < 4 ->
  (forall i, i < j ->
     find_displayed E (probes st + i) (nth i logged_in_indicators "") <> Ok true) ->
  find_displayed E (probes st + j) (nth j logged_in_indicators "") = Ok true ->
  exists st',
    check_login_status E (S depth) st = (Ok true, st') /\
    probes st' = probes st + S j /\
    prompts st' = prompts st /\
    stdout st' = MsgLoggedIn :: stdout st /\
    navigations st' = "https://www.pinterest.com" :: navigations st.
Proof.
  intros Hnav Hj Hbefore Hshown.
  cbn [check_login_status]. unfold try_except. unfold bind at 1. unfold navigate.
  rewrite Hnav. cbv beta iota. unfold bind at 1.
  destruct (probe_logged_in_found E logged_in_indicators j
              (set_navigations (cons "https://www.pinterest.com") st))
    as (st' & Hrun & Hp & Ho & Hi & Hn); auto.
  rewrite Hrun. exists st'. simpl in *. auto.
Qed.

Lemma displayed_profile_means_logged_in_witness :
  exists st',
    check_login_status World.logged_in 1 (new_scraper ∅) = (Ok true, st') /\
    probes st' = 3 /\ prompts st' = 0.
Proof.
  destruct (displayed_profile_means_logged_in World.logged_in 0 2 (new_scraper ∅))
    as (st' & Hrun & Hp & Hi & _).
  - reflexivity.
  - lia.
  - intros i Hi. destruct i as [|[|i]]; [discriminate | discriminate | lia].
  - reflexivity.
  - exists st'. auto.
Defined.

(** X3.  When the home page loads, no logged-in indicator is displayed,
    a login indicator is displayed and the operator answers the prompt,
    the answer of the check is the answer of a new check, started after
    one prompt: the operator is asked once at this level, and the login
    indicators after the displayed one are not looked at. *)
Theorem login_wall_asks_and_checks_again (E : env) (depth j : nat) (st : state) :
  driver_get E (length (navigations st)) "https://www.pinterest.com" = Ok tt ->
  (forall i, i < 4 ->
     find_displayed E (probes st + i) (nth i logged_in_indicators "") <> Ok true) ->
  j < 3 ->
  (forall i, i < j ->
     find_displayed E (probes st + 4 + i) (nth i login_indicators "") <> Ok true) ->
  find_displayed E (probes st + 4 + j) (nth j login_indicators "") = Ok true ->
  user_input E (prompts st) = Ok tt ->
  exists st1,
    check_login_status E (S (S depth)) st = check_login_status E (S depth) st1 /\
    navigations st1 = "https://www.pinterest.com" :: navigations st /\
    probes st1 = probes st + 5 + j /\
    prompts st1 = S (prompts st) /\
    stdout st1 = MsgNotLoggedIn :: stdout st.
Proof.
  intros Hnav Hnone Hj Hbefore Hshown Hin.
  destruct (probe_logged_in_none E logged_in_indicators
              (set_navigations (cons "https://www.pinterest.com") st))
    as (s1 & Hrun1 & Hp1 & Ho1 & Hi1).
  { intros i Hi. simpl in Hi. apply Hnone. lia. }
  pose proof (probe_logged_in_navigations E logged_in_indicators
                (set_navigations (cons "https://www.pinterest.com") st)) as Hn1.
  rewrite Hrun1 in Hn1. simpl in Hn1, Hp1, Ho1, Hi1.
  destruct (probe_login_asks E (check_login_status E (S depth)) login_indicators j s1)
    as (st1 & Hn & Hp & Hi & Ho & Hk).
  { simpl. lia. }
  { intros i Hi. rewrite Hp1. simpl. apply Hbefore, Hi. }
  { rewrite Hp1. exact Hshown. }
  { rewrite Hi1. exact Hin. }
  exists st1. split; [|repeat split; try congruence; lia].
  destruct (check_login_status_returns E depth st1) as (v & st2 & Hv).
  rewrite Hv. specialize (Hk v st2 Hv).
  rewrite check_login_status_S.
  unfold try_except at 1. unfold bind at 1. unfold navigate.
  rewrite Hnav. cbv beta iota. unfold bind at 1. rewrite Hrun1. cbv beta iota.
  rewrite Hk. reflexivity.
Qed.

Lemma login_wall_asks_and_checks_again_witness :
  exists st1,
    check_login_status World.login_wall_once 2 (new_scraper ∅)
    = check_login_status World.login_wall_once 1 st1 /\
    prompts st1 = 1 /\
    fst (check_login_status World.login_wall_once 2 (new_scraper ∅)) = Ok true.
Proof.
  destruct (login_wall_asks_and_checks_again World.login_wall_once 0 0 (new_scraper ∅))
    as (st1 & Hrun & _ & _ & Hi & _).
  - reflexivity.
  - intros i Hi. destruct i as [|[|[|[|i]]]]; try discriminate. lia.
  - lia.
  - intros i Hi. lia.
  - reflexivity.
  - reflexivity.
  - exists st1. repeat split; auto.
Defined.

(** X4.  When every prompt raises (nobody is at the keyboard), the check
    answers [True] on every home page that loads, a login page included:
    what [input] raises is passed over like a missing element, no new
    check is started, and the loops end in "could not determine". *)
Theorem unattended_login_wall_counts_as_logged_in (E : env) (depth : nat) (st : state) :
  driver_get E (length (navigations st)) "https://www.pinterest.com" = Ok tt ->
  (forall k, exists e, user_input E k = Raise e) ->
  exists st',
    check_login_status E (S depth) st = (Ok true, st') /\
    navigations st' = "https://www.pinterest.com" :: navigations st /\
    (hd_error (stdout st') = Some MsgLoggedIn \/
     hd_error (stdout st') = Some MsgLoginUndetermined).
Proof.
  intros Hnav Hinput.
  cbn [check_login_status]. unfold try_except. unfold bind at 1. unfold navigate.
  rewrite Hnav. cbv beta iota. unfold bind at 1.
  pose proof (probe_logged_in_navigations E logged_in_indicators
                (set_navigations (cons "https://www.pinterest.com") st)) as Hn1.
  destruct (probe_logged_in E logged_in_indicators
              (set_navigations (cons "https://www.pinterest.com") st))
    as [[found | e] s1] eqn:Hrun1.
  - cbv beta iota. destruct found.
    + unfold ret. exists s1. split; [reflexivity|]. split; [exact Hn1|].
      left. clear Hn1. revert Hrun1.
      generalize (set_navigations (cons "https://www.pinterest.com") st).
      generalize logged_in_indicators.
      induction l as [|x rest IH]; intros s; [discriminate|].
      cbn [probe_logged_in]. unfold bind at 1. unfold try_except, is_displayed.
      destruct (find_displayed E (probes s) x) as [[|]|e];
        unfold ret; cbv beta iota; try apply IH.
      unfold bind, print, modify. intros [= <-]. reflexivity.
    + destruct (probe_login_unattended E (check_login_status E depth) login_indicators
                  Hinput s1) as (st' & Hrun & Hn & Ho).
      rewrite Hrun. exists st'. simpl in *. split; [reflexivity|].
      split; [congruence | auto].
  - destruct (probe_logged_in_returns E logged_in_indicators
                (set_navigations (cons "https://www.pinterest.com") st))
      as (b & s' & Hb & _).
    congruence.
Qed.

Lemma unattended_login_wall_counts_as_logged_in_witness :
  exists st',
    check_login_status World.login_wall_unattended 3 (new_scraper ∅) = (Ok true, st') /\
    navigations st' = ["https://www.pinterest.com"].
Proof.
  destruct (unattended_login_wall_counts_as_logged_in World.login_wall_unattended 2
              (new_scraper ∅)) as (st' & Hrun & Hn & _).
  - reflexivity.
  - intros k. exists EOFError. reflexivity.
  - exists st'. auto.
Defined.

(** ** The scroll loop, further *)

Section ScrollMore.

Variable E : env.

(** Inside the loop every scroll is followed by one reading.  When the
    loop ends by an exception, the driver raised it in the last call
    made. *)
Lemma scroll_loop_calls remaining : forall i max_scrolls last_height no_change_count st r st',
  scroll_loop E remaining i max_scrolls last_height no_change_count st = (r, st') ->
  match r with
  | Ok _ => height_reads st' + scrolls st = height_reads st + scrolls st'
  | Raise e =>
      (scroll_to E (scrolls st' - 1) = Raise e /\ scrolls st < scrolls st' /\
       height_reads st' + scrolls st + 1 = height_reads st + scrolls st') \/
      (scroll_height E (height_reads st' - 1) = Raise e /\
       height_reads st < height_reads st' /\
       height_reads st' + scrolls st = height_reads st + scrolls st')
  end.
Proof.
  induction remaining as [|n IH]; intros i max_scrolls last_height c st r st'.
  - simpl. unfold ret. intros [= <- <-]. lia.
  - rewrite scroll_loop_step.
    destruct (scroll_to E (scrolls st)) as [[]|e] eqn:Hs.
    2:{ intros [= <- <-]. left. simpl. rewrite Nat.sub_0_r.
        split; [exact Hs | lia]. }
    destruct (scroll_height E (height_reads st)) as [new_height|e] eqn:Hh.
    2:{ intros [= <- <-]. right. simpl. rewrite Nat.sub_0_r.
        split; [exact Hh | lia]. }
    cbv zeta.
    destruct (new_height =? last_height)%Z;
      [destruct (c + 1 >=? 3)%Z; [intros [= <- <-]; simpl; lia|]|];
      intros H; apply IH in H; destruct r as [[]|e]; simpl in H; try lia;
      (destruct H as [(H1 & H2 & H3) | (H1 & H2 & H3)]; [left | right];
       (split; [exact H1 | lia])).
Qed.

End ScrollMore.

(** X5.  [scroll_to_bottom] reads the height once before the loop and
    once after every scroll; it changes nothing but the browser.  It
    raises only what the driver raised, in the last call it made: a
    scroll, or a reading (the first one included, and then nothing was
    scrolled). *)
Theorem scroll_reads_once_per_scroll (E : env) (max_scrolls : Z) (st : state) :
  let r := fst (scroll_to_bottom E max_scrolls st) in
  let st' := snd (scroll_to_bottom E max_scrolls st) in
  match r with
  | Ok _ => height_reads st' - height_reads st = 1 + (scrolls st' - scrolls st)
  | Raise e =>
      (scroll_to E (scrolls st' - 1) = Raise e /\ scrolls st < scrolls st' /\
       height_reads st' - height_reads st = scrolls st' - scrolls st) \/
      (scroll_height E (height_reads st' - 1) = Raise e /\
       height_reads st' - height_reads st = 1 + (scrolls st' - scrolls st))
  end /\
  scrolls st <= scrolls st' /\
  (forall e, scroll_height E (height_reads st) = Raise e ->
     r = Raise e /\ scrolls st' = scrolls st) /\
  files st' = files st /\ requests st' = requests st /\
  downloaded_urls st' = downloaded_urls st.
Proof.
  intros r st'.
  pose proof (scroll_to_bottom_bound E max_scrolls st st' eq_refl) as Hbound.
  assert (Hfirst : forall e, scroll_height E (height_reads st) = Raise e ->
            r = Raise e /\ scrolls st' = scrolls st).
  { intros e He. subst r st'. unfold scroll_to_bottom, bind, read_scroll_height.
    rewrite He. auto. }
  assert (Hframe : files st' = files st /\ requests st' = requests st /\
                   downloaded_urls st' = downloaded_urls st).
  { subst st'. apply (scroll_to_bottom_keeps_downloads E max_scrolls st). }
  split; [|split; [lia | split; [exact Hfirst | exact Hframe]]].
  subst r st'. unfold scroll_to_bottom, bind, read_scroll_height.
  destruct (scroll_height E (height_reads st)) as [h|e] eqn:Hh.
  - destruct (scroll_loop E (Z.to_nat max_scrolls) 0 max_scrolls h 0
                (set_height_reads S st)) as [r st'] eqn:Hloop.
    pose proof (scroll_loop_bound E _ _ _ _ _ _ st' (f_equal snd Hloop)) as Hb.
    apply scroll_loop_calls in Hloop. simpl in *.
    destruct r as [[]|e]; [lia|].
    destruct Hloop as [(H1 & H2 & H3) | (H1 & H2 & H3)]; [left | right];
      (split; [exact H1 | lia]).
  - simpl. right. rewrite Nat.sub_0_r. split; [exact Hh | lia].
Qed.

Lemma scroll_reads_once_per_scroll_witness :
  fst (scroll_to_bottom Page.crashed 30 (new_scraper ∅)) = Raise WebDriverException /\
  scrolls (snd (scroll_to_bottom Page.crashed 30 (new_scraper ∅))) = 0.
Proof.
  apply (scroll_reads_once_per_scroll Page.crashed 30 (new_scraper ∅)).
  reflexivity.
Defined.

(** The number of iterations, when the driver answers every call. *)
Lemma scroll_to_bottom_count (E : env) (max_scrolls : Z) (st : state) (hs : nat -> Z) :
  (forall k, scroll_to E k = Ok tt) ->
  (forall k, scroll_height E (height_reads st + k) = Ok (hs k)) ->
  let n := scrolls (snd (scroll_to_bottom E max_scrolls st)) - scrolls st in
  fst (scroll_to_bottom E max_scrolls st) = Ok tt /\
  n <= Z.to_nat max_scrolls /\
  (forall k, 0 < k <= Z.to_nat max_scrolls -> 3 <= no_change_run hs k -> n <= k) /\
  (n < Z.to_nat max_scrolls -> 0 < n /\ 3 <= no_change_run hs n).
Proof.
  intros Hscroll Hheights n.
  assert (Hres : scroll_loop E (Z.to_nat max_scrolls) 0 max_scrolls (hs 0)
                   (Z.of_nat (no_change_run hs 0)) (set_height_reads S st)
                 = scroll_to_bottom E max_scrolls st).
  { unfold scroll_to_bottom, bind, read_scroll_height.
    specialize (Hheights 0). rewrite Nat.add_0_r in Hheights.
    now rewrite Hheights. }
  apply (scroll_loop_stops E hs (scrolls st) (height_reads st) Hscroll Hheights)
    in Hres; [|simpl; lia | simpl; lia | simpl; lia].
  fold n in Hres. destruct Hres as (H1 & H2 & H3 & H4).
  split; [exact H1|]. split; [lia|]. split.
  - intros k Hk. apply H3. lia.
  - intros Hn. apply H4. lia.
Qed.

(** X6.  On a page whose height changes at every reading the loop never
    declares the bottom: it makes exactly [max_scrolls] iterations (none
    when [max_scrolls] is not positive). *)
Theorem changing_page_uses_every_scroll (E : env) (max_scrolls : Z) (st : state)
    (hs : nat -> Z) :
  (forall k, scroll_to E k = Ok tt) ->
  (forall k, scroll_height E (height_reads st + k) = Ok (hs k)) ->
  (forall k, hs (S k) <> hs k) ->
  fst (scroll_to_bottom E max_scrolls st) = Ok tt /\
  scrolls (snd (scroll_to_bottom E max_scrolls st)) = scrolls st + Z.to_nat max_scrolls.
Proof.
  intros Hscroll Hheights Hchange.
  destruct (scroll_to_bottom_count E max_scrolls st hs Hscroll Hheights)
    as (H1 & H2 & _ & H4).
  pose proof (scroll_to_bottom_bound E max_scrolls st _ eq_refl) as Hb.
  assert (Hrun : forall k, no_change_run hs k = 0).
  { intros [|k]; [reflexivity|]. simpl.
    destruct (hs (S k) =? hs k)%Z eqn:Heq; [|reflexivity].
    apply Z.eqb_eq in Heq. now destruct (Hchange k). }
  split; [exact H1|].
  destruct (decide (scrolls (snd (scroll_to_bottom E max_scrolls st)) - scrolls st
                    < Z.to_nat max_scrolls)) as [Hlt | Hge]; [|lia].
  apply H4 in Hlt. rewrite Hrun in Hlt. lia.
Qed.

Lemma changing_page_uses_every_scroll_witness :
  fst (scroll_to_bottom Page.endless 30 (new_scraper ∅)) = Ok tt /\
  scrolls (snd (scroll_to_bottom Page.endless 30 (new_scraper ∅))) = 0 + Z.to_nat 30.
Proof.
  apply (changing_page_uses_every_scroll Page.endless 30 (new_scraper ∅)
           (fun k => (1000 + Z.of_nat k)%Z)).
  - reflexivity.
  - reflexivity.
  - intros k. lia.
Defined.

(** X7.  On a page whose height never changes the loop stops at its
    third iteration; with fewer than three iterations allowed it makes
    them all. *)
Theorem static_page_stops_at_third_scroll (E : env) (max_scrolls : Z) (st : state)
    (h : Z) :
  (forall k, scroll_to E k = Ok tt) ->
  (forall k, scroll_height E (height_reads st + k) = Ok h) ->
  fst (scroll_to_bottom E max_scrolls st) = Ok tt /\
  scrolls (snd (scroll_to_bottom E max_scrolls st))
  = scrolls st + Nat.min 3 (Z.to_nat max_scrolls).
Proof.
  intros Hscroll Hheights.
  destruct (scroll_to_bottom_count E max_scrolls st (fun _ => h) Hscroll Hheights)
    as (H1 & H2 & H3 & H4).
  pose proof (scroll_to_bottom_bound E max_scrolls st _ eq_refl) as Hb.
  assert (Hrun : forall k, no_change_run (fun _ => h) k = k).
  { induction k as [|k IH]; [reflexivity|]. simpl. rewrite Z.eqb_refl. now rewrite IH. }
  split; [exact H1|].
  destruct (decide (3 <= Z.to_nat max_scrolls)) as [Hmax | Hmax].
  - specialize (H3 3 ltac:(lia)). rewrite Hrun in H3. specialize (H3 ltac:(lia)).
    destruct (decide (scrolls (snd (scroll_to_bottom E max_scrolls st)) - scrolls st
                      < Z.to_nat max_scrolls)) as [Hlt | Hge]; [|lia].
    apply H4 in Hlt. rewrite Hrun in Hlt. lia.
  - destruct (decide (scrolls (snd (scroll_to_bottom E max_scrolls st)) - scrolls st
                      < Z.to_nat max_scrolls)) as [Hlt | Hge]; [|lia].
    apply H4 in Hlt. rewrite Hrun in Hlt. lia.
Qed.

Lemma static_page_stops_at_third_scroll_witness :
  fst (scroll_to_bottom Sample.quiet 30 (new_scraper ∅)) = Ok tt /\
  scrolls (snd (scroll_to_bottom Sample.quiet 30 (new_scraper ∅)))
  = 0 + Nat.min 3 (Z.to_nat 30).
Proof.
  apply (static_page_stops_at_third_scroll Sample.quiet 30 (new_scraper ∅) 1000%Z).
  - reflexivity.
  - reflexivity.
Defined.

(** ** URL extraction, further *)

Section ExtractMore.

Variable E : env.

Lemma collect_primary_size images : forall acc,
  size (fold_left collect_primary images acc) <= size acc + length images.
Proof.
  induction images as [|img rest IH]; intros acc; simpl; [lia|].
  etransitivity; [apply IH|].
  assert (size (collect_primary acc img) <= S (size acc)); [|lia].
  destruct img as [[src|]|e]; simpl; try lia.
  destruct (truthy src); [|lia].
  rewrite size_union_alt, size_singleton.
  assert (size (acc ∖ {[high_res src]}) <= size acc); [|lia].
  apply subseteq_size, subseteq_difference_l. reflexivity.
Qed.

(** The loop of the fallback when every [src] can be read. *)
Lemma collect_fallback_readable images : forall acc st,
  (forall img, In img images -> exists o, img = Ok o) ->
  exists found,
    collect_fallback images acc st = (Ok found, st) /\
    forall u, u ∈ found <->
      u ∈ acc \/ (In (Ok (Some u)) images /\ PyStr.contains "pinimg.com" u = true).
Proof.
  induction images as [|img rest IH]; intros acc st Hok.
  - exists acc. split; [reflexivity|]. intros u. split; [auto | intros [H | [[] _]]; auto].
  - destruct (Hok img (or_introl eq_refl)) as (o & ->).
    cbn [collect_fallback]. unfold bind at 1. unfold lift. cbv beta iota.
    match goal with |- context [collect_fallback rest ?a st] =>
      destruct (IH a st) as (found & Hrun & Hmem); [intros; apply Hok; now right|]
    end.
    exists found. split; [exact Hrun|]. intros u. rewrite Hmem. clear Hrun Hmem.
    destruct o as [src|]; simpl.
    + destruct (truthy src && PyStr.contains "pinimg.com" src) eqn:Hc.
      * apply andb_true_iff in Hc as [_ Hc]. rewrite elem_of_union, elem_of_singleton.
        split.
        -- intros [[-> | H] | [H1 H2]]; auto.
        -- intros [H | [[[= ->] | H1] H2]]; auto.
      * split; [intros [H | [H1 H2]]; auto|].
        intros [H | [[[= ->] | H1] H2]]; auto.
        apply andb_false_iff in Hc as [Hc | Hc]; [|congruence].
        unfold truthy in Hc. apply negb_false_iff, String.eqb_eq in Hc. subst u.
        discriminate.
    + split; [intros [H | [H1 H2]]; auto|].
      intros [H | [[[=] | H1] H2]]; auto.
Qed.

(** The loop of the fallback at the first [src] that cannot be read. *)
Lemma collect_fallback_raises pre e post : forall acc st,
  (forall img, In img pre -> exists o, img = Ok o) ->
  collect_fallback (pre ++ Raise e :: post)%list acc st = (Raise e, st).
Proof.
  induction pre as [|img pre IH]; intros acc st Hok.
  - reflexivity.
  - destruct (Hok img (or_introl eq_refl)) as (o & ->).
    cbn [app collect_fallback]. unfold bind at 1. unfold lift. cbv beta iota.
    apply IH. intros; apply Hok; now right.
Qed.

End ExtractMore.

(** X8.  When the wait succeeds and [find_elements] returns its
    elements, the extractor returns normally, whatever [get_attribute]
    does: it gives exactly the rewritten sources of the elements whose
    [src] could be read and is not empty, each once, an element whose
    [src] is missing, empty or raises when read being passed over, and
    no more URLs than there are elements.  When [find_elements] itself
    raises after the wait, an exception other than a timeout goes
    through with nothing printed, and a timeout is handled as a timeout
    of the wait is: by the fallback, which rewrites nothing. *)
Theorem primary_extraction_skips_unreadable_elements (E : env) (st : state) :
  wait_for_image E = Ok tt ->
  (forall images,
     images_by_xpath E = Ok images ->
     exists urls st',
       extract_image_urls E st = (Ok urls, st') /\
       (forall u, In u urls <->
          exists src, In (Ok (Some src)) images /\ src <> "" /\ u = high_res src) /\
       NoDup urls /\
       length urls <= length images /\
       stdout st' = MsgExtracted (length urls) :: MsgFoundImages (length images) :: stdout st) /\
  (forall e,
     images_by_xpath E = Raise e -> e <> TimeoutException ->
     extract_image_urls E st = (Raise e, st)) /\
  (images_by_xpath E = Raise TimeoutException ->
   extract_image_urls E st
   = extract_image_urls (World.with_wait (Raise TimeoutException) E) st).
Proof.
  intros Hw. split; [|split].
  - intros images Hi. rewrite (extract_primary E st images Hw Hi). cbv zeta.
    eexists _, _. split; [reflexivity|].
    split; [|split; [|split; [|reflexivity]]].
    + intros u. rewrite filter_In, <- list_elem_of_In, elem_of_elements,
        elem_of_collect_primary. split.
      * intros [[H | (src & Hin & Ht & ->)] _]; [now apply not_elem_of_empty in H|].
        exists src. rewrite <- truthy_nonempty. auto.
      * intros (src & Hin & Hne & ->). split.
        -- right. exists src. rewrite truthy_nonempty. auto.
        -- apply truthy_nonempty, high_res_nonempty, Hne.
    + apply NoDup_ListNoDup, List.NoDup_filter, NoDup_ListNoDup, NoDup_elements.
    + etransitivity; [apply List.filter_length_le|].
      change (length (elements ?X)) with (size X).
      pose proof (collect_primary_size images ∅) as Hsz.
      rewrite size_empty in Hsz. exact Hsz.
  - intros e Hi Hne. unfold extract_image_urls. unfold bind at 1. unfold try_except.
    unfold bind at 1. unfold lift at 1. rewrite Hw. cbv beta iota.
    unfold bind at 1. unfold lift at 1. rewrite Hi. cbv beta iota.
    destruct e; try reflexivity. now destruct Hne.
  - intros Hi. unfold extract_image_urls. unfold bind at 1. unfold try_except.
    unfold bind at 1. unfold lift at 1. rewrite Hw. cbv beta iota.
    unfold bind at 1. unfold lift at 1. rewrite Hi. cbv beta iota.
    unfold bind at 3. unfold try_except. unfold bind at 3. unfold lift at 2.
    cbn [World.with_wait wait_for_image images_by_tag]. reflexivity.
Qed.

Lemma primary_extraction_skips_unreadable_elements_witness :
  exists urls st',
    extract_image_urls
      (Sample.with_xpath_images
         [Raise WebDriverException; Ok None; Ok (Some "");
          Ok (Some "https://i.pinimg.com/236x/a.jpg");
          Ok (Some "https://i.pinimg.com/736x/a.jpg")] Sample.quiet)
      (new_scraper ∅) = (Ok urls, st') /\
    length urls <= 5 /\ urls = ["https://i.pinimg.com/736x/a.jpg"].
Proof.
  destruct (primary_extraction_skips_unreadable_elements
              (Sample.with_xpath_images
                 [Raise WebDriverException; Ok None; Ok (Some "");
                  Ok (Some "https://i.pinimg.com/236x/a.jpg");
                  Ok (Some "https://i.pinimg.com/736x/a.jpg")] Sample.quiet)
              (new_scraper ∅) eq_refl)
    as (Hreturns & _ & _).
  destruct (Hreturns
              [Raise WebDriverException; Ok None; Ok (Some "");
               Ok (Some "https://i.pinimg.com/236x/a.jpg");
               Ok (Some "https://i.pinimg.com/736x/a.jpg")] eq_refl)
    as (urls & st' & Hrun & _ & _ & Hlen & _).
  exists urls, st'. split; [exact Hrun|]. split; [exact Hlen|].
  revert Hrun. vm_compute. congruence.
Defined.

(** [find_elements] raising after a wait that went through. *)
Example find_elements_raising_after_the_wait :
  let E := World.with_find_elements (Raise WebDriverException) Sample.quiet in
  fst (extract_image_urls E (new_scraper ∅)) = Raise WebDriverException.
Proof. reflexivity. Qed.

(** X9.  When the wait times out, and every [img] element of the page
    lets its [src] be read, the extractor returns exactly the sources
    that contain pinimg.com, as they are: no size token is rewritten. *)
Theorem fallback_extraction_filters_without_rewriting (E : env) (st : state)
    (images : list (result (option string))) :
  wait_for_image E = Raise TimeoutException ->
  images_by_tag E = Ok images ->
  (forall img, In img images -> exists o, img = Ok o) ->
  exists urls st',
    extract_image_urls E st = (Ok urls, st') /\
    (forall u, In u urls <->
       In (Ok (Some u)) images /\ PyStr.contains "pinimg.com" u = true) /\
    NoDup urls /\
    stdout st' = MsgExtracted (length urls) :: MsgWaitTimeout :: stdout st.
Proof.
  intros Hw Hi Hok.
  destruct (collect_fallback_readable images ∅ (set_stdout (cons MsgWaitTimeout) st) Hok)
    as (found & Hrun & Hmem).
  unfold extract_image_urls. unfold bind at 1. unfold try_except.
  unfold bind at 1. unfold lift at 1. rewrite Hw. cbv beta iota.
  unfold bind at 1. unfold print at 1, modify. cbv beta iota.
  unfold bind at 1. unfold lift at 1. rewrite Hi. cbv beta iota. rewrite Hrun.
  cbv beta iota zeta. unfold bind, print, modify, ret. cbv beta iota.
  eexists _, _. split; [reflexivity|]. split; [|split; [|reflexivity]].
  - intros u. rewrite filter_In, <- list_elem_of_In, elem_of_elements, Hmem. split.
    + intros [[H | H] _]; [now apply not_elem_of_empty in H | exact H].
    + intros [H1 H2]. split; [auto|].
      apply truthy_nonempty. intros ->. discriminate.
  - apply NoDup_ListNoDup, List.NoDup_filter, NoDup_ListNoDup, NoDup_elements.
Qed.

Lemma fallback_extraction_filters_without_rewriting_witness :
  exists urls st',
    extract_image_urls
      (Sample.with_timeout
         [Ok (Some "https://i.pinimg.com/236x/a.jpg"); Ok (Some "https://example.com/logo.png");
          Ok None] Sample.quiet)
      (new_scraper ∅) = (Ok urls, st') /\
    urls = ["https://i.pinimg.com/236x/a.jpg"].
Proof.
  destruct (fallback_extraction_filters_without_rewriting
              (Sample.with_timeout
                 [Ok (Some "https://i.pinimg.com/236x/a.jpg");
                  Ok (Some "https://example.com/logo.png"); Ok None] Sample.quiet)
              (new_scraper ∅)
              [Ok (Some "https://i.pinimg.com/236x/a.jpg");
               Ok (Some "https://example.com/logo.png"); Ok None])
    as (urls & st' & Hrun & _).
  - reflexivity.
  - reflexivity.
  - intros img [<- | [<- | [<- | []]]]; eauto.
  - exists urls, st'. split; [exact Hrun|]. revert Hrun. vm_compute. congruence.
Defined.

(** X10.  What the extractor raises.  An exception of the wait other than
    a timeout goes through; after a timeout, an exception of
    [find_elements] goes through, and so does the first exception of a
    [get_attribute]: in the fallback one unreadable element loses the
    whole extraction. *)
Theorem extraction_raises_what_the_driver_raises (E : env) (st : state) (e : exn) :
  (wait_for_image E = Raise e -> e <> TimeoutException ->
   extract_image_urls E st = (Raise e, st)) /\
  (wait_for_image E = Raise TimeoutException -> images_by_tag E = Raise e ->
   extract_image_urls E st = (Raise e, set_stdout (cons MsgWaitTimeout) st)) /\
  (forall pre post,
     wait_for_image E = Raise TimeoutException ->
     images_by_tag E = Ok (pre ++ Raise e :: post)%list ->
     (forall img, In img pre -> exists o, img = Ok o) ->
     extract_image_urls E st = (Raise e, set_stdout (cons MsgWaitTimeout) st)).
Proof.
  split; [|split].
  - intros Hw Hne. unfold extract_image_urls. unfold bind at 1. unfold try_except.
    unfold bind at 1. unfold lift at 1. rewrite Hw. cbv beta iota.
    destruct e; try reflexivity. congruence.
  - intros Hw Hi. unfold extract_image_urls. unfold bind at 1. unfold try_except.
    unfold bind at 1. unfold lift at 1. rewrite Hw. cbv beta iota.
    unfold bind at 1. unfold print at 1, modify. cbv beta iota.
    unfold bind at 1. unfold lift at 1. rewrite Hi. reflexivity.
  - intros pre post Hw Hi Hok. unfold extract_image_urls. unfold bind at 1.
    unfold try_except.
    unfold bind at 1. unfold lift at 1. rewrite Hw. cbv beta iota.
    unfold bind at 1. unfold print at 1, modify. cbv beta iota.
    unfold bind at 1. unfold lift at 1. rewrite Hi. cbv beta iota.
    now rewrite collect_fallback_raises.
Qed.

Lemma extraction_raises_what_the_driver_raises_witness :
  extract_image_urls
    (Sample.with_timeout
       [Ok (Some "https://i.pinimg.com/236x/a.jpg"); Raise WebDriverException] Sample.quiet)
    (new_scraper ∅)
  = (Raise WebDriverException, set_stdout (cons MsgWaitTimeout) (new_scraper ∅)).
Proof.
  apply (proj2 (proj2 (extraction_raises_what_the_driver_raises
                         (Sample.with_timeout
                            [Ok (Some "https://i.pinimg.com/236x/a.jpg");
                             Raise WebDriverException] Sample.quiet)
                         (new_scraper ∅) WebDriverException))
           [Ok (Some "https://i.pinimg.com/236x/a.jpg")] []).
  - reflexivity.
  - reflexivity.
  - intros img [<- | []]. eauto.
Defined.

(** ** The downloader, further *)

Section DownloadMore.

Variable E : env.

Local Open Scope Z_scope.

Lemma download_image_keeps_file img_url folder_path img_num st path data :
  files st !! path = Some data ->
  files (snd (download_image E img_url folder_path img_num st)) !! path = Some data.
Proof.
  intros H.
  destruct (download_image_path E img_url folder_path img_num st); simpl; auto;
    (rewrite lookup_insert_ne; [exact H | congruence]).
Qed.

Lemma download_false_keeps_seen img_url folder_path img_num st st' :
  download_image E img_url folder_path img_num st = (Ok false, st') ->
  downloaded_urls st' = downloaded_urls st.
Proof.
  intros H. pose proof (download_image_path E img_url folder_path img_num st) as P.
  rewrite H in P. inversion P; subst; reflexivity.
Qed.

(** A file written where the disk does not fail in the middle of a write
    holds a body that was verified. *)
Lemma download_image_verified img_url folder_path img_num st path data :
  (forall p d kept, open_write E p d <> WriteFailed kept) ->
  files (snd (download_image E img_url folder_path img_num st)) !! path = Some data ->
  files st !! path = Some data \/
  (path = target img_url folder_path img_num /\ image_verify E data = true /\
   exists r, requests_get E (length (requests st)) img_url = Ok r /\ content r = data).
Proof.
  intros Hdisk.
  destruct (download_image_path E img_url folder_path img_num st); simpl; auto.
  - destruct (decide (target img_url folder_path img_num = path)) as [<- | Hne].
    + rewrite lookup_insert_eq. intros [= <-]. right. eauto.
    + rewrite lookup_insert_ne by assumption. auto.
  - match goal with H : open_write _ _ _ = WriteFailed _ |- _ =>
      now apply Hdisk in H end.
Qed.

End DownloadMore.

(** X11.  The downloader never overwrites and never removes a file: a
    path that holds data before the loop holds the same data after it,
    whatever the network and the disk do. *)
Theorem download_never_touches_an_existing_file (E : env) (image_urls : list string)
    (output_folder : string) (i : Z) (total : nat) (successful : Z) (st : state)
    (path data : string) :
  files st !! path = Some data ->
  files (snd (download_all E image_urls output_folder i total successful st)) !! path
  = Some data.
Proof.
  revert i successful st.
  induction image_urls as [|u rest IH]; intros i successful st H; [exact H|].
  destruct (download_image_returns E u output_folder i st) as (ok & st1 & Hrun).
  rewrite (download_all_cons _ _ _ _ _ _ _ _ _ _ Hrun).
  apply IH. rewrite files_progress.
  pose proof (download_image_keeps_file E u output_folder i st path data H) as Hk.
  now rewrite Hrun in Hk.
Qed.

Lemma download_never_touches_an_existing_file_witness :
  let url := "https://i.pinimg.com/736x/abc.jpg" in
  let st := new_scraper {[ target url "out" 1 := "old data" ]} in
  files (snd (download_all serving_pictures [url; url] "out" 1 2 0 st))
    !! target url "out" 1 = Some "old data".
Proof.
  intros url st.
  apply (download_never_touches_an_existing_file serving_pictures [url; url] "out" 1 2 0 st).
  simpl. apply lookup_singleton_eq.
Defined.

(** X12.  Where the disk does not fail in the middle of a write, every
    file the loop adds holds the body of a response that passed the image
    check. *)
Theorem downloaded_files_are_verified_images (E : env) (image_urls : list string)
    (output_folder : string) (i : Z) (total : nat) (successful : Z) (st : state)
    (path data : string) :
  (forall p d kept, open_write E p d <> WriteFailed kept) ->
  files (snd (download_all E image_urls output_folder i total successful st)) !! path
  = Some data ->
  files st !! path = Some data \/ image_verify E data = true.
Proof.
  intros Hdisk. revert i successful st.
  induction image_urls as [|u rest IH]; intros i successful st H; [left; exact H|].
  destruct (download_image_returns E u output_folder i st) as (ok & st1 & Hrun).
  rewrite (download_all_cons _ _ _ _ _ _ _ _ _ _ Hrun) in H.
  apply IH in H. destruct H as [H | H]; [|right; exact H].
  rewrite files_progress in H.
  pose proof (download_image_verified E u output_folder i st path data Hdisk) as Hv.
  rewrite Hrun in Hv. destruct (Hv H) as [Hold | (_ & Hok & _)]; auto.
Qed.

Lemma downloaded_files_are_verified_images_witness :
  let url := "https://i.pinimg.com/736x/abc.jpg" in
  files (new_scraper ∅) !! target url "out" 1 = Some Sample.jpeg \/
  image_verify serving_pictures Sample.jpeg = true.
Proof.
  intros url.
  apply (downloaded_files_are_verified_images serving_pictures [url] "out" 1 1 0
           (new_scraper ∅) (target url "out" 1) Sample.jpeg).
  - intros p d kept. discriminate.
  - vm_compute. reflexivity.
Defined.

(** A write that stops half-way leaves a file that was not verified, and
    a later run takes it for a download. *)
Example broken_write_is_taken_for_a_download :
  let url := "https://i.pinimg.com/736x/abc.jpg" in
  let st1 := snd (download_all disk_full [url] "out" 1 1 0 (new_scraper ∅)) in
  fst (download_all disk_full [url] "out" 1 1 0 (new_scraper ∅)) = Ok 0%Z /\
  files st1 !! target url "out" 1 = Some "" /\
  fst (download_all serving_pictures [url] "out" 1 1 0 (next_run st1)) = Ok 1%Z /\
  files (snd (download_all serving_pictures [url] "out" 1 1 0 (next_run st1)))
    !! target url "out" 1 = Some "".
Proof. vm_compute. auto. Qed.

(** X13.  The tally of the loop is the number of URLs it has marked as
    downloaded: every success marks one URL that was not marked, and a
    failure or a skip marks none. *)
Theorem tally_counts_the_urls_marked (E : env) (image_urls : list string)
    (output_folder : string) (i : Z) (total : nat) (successful : Z) (st : state) :
  exists n st',
    download_all E image_urls output_folder i total successful st = (Ok n, st') /\
    downloaded_urls st ⊆ downloaded_urls st' /\
    n = (successful + Z.of_nat (size (downloaded_urls st') - size (downloaded_urls st)))%Z /\
    (forall url, url ∈ downloaded_urls st' -> url ∈ downloaded_urls st \/ In url image_urls).
Proof.
  revert i successful st.
  induction image_urls as [|u rest IH]; intros i successful st.
  - exists successful, st. split; [reflexivity|]. split; [reflexivity|].
    split; [lia | auto].
  - destruct (download_image_returns E u output_folder i st) as (ok & st1 & Hrun).
    rewrite (download_all_cons _ _ _ _ _ _ _ _ _ _ Hrun).
    destruct (IH (i + 1)%Z (if ok then (successful + 1)%Z else successful)
                (progress i total st1)) as (n & st' & Hn & Hsub & Hcount & Hin).
    rewrite downloaded_urls_progress in Hsub, Hcount, Hin.
    exists n, st'. split; [exact Hn|].
    pose proof (subseteq_size _ _ Hsub) as Hsz.
    destruct ok.
    + apply download_true in Hrun as (Hnew & Hmark & _).
      assert (Hsize : size (downloaded_urls st1) = S (size (downloaded_urls st))).
      { rewrite Hmark, size_union, size_singleton; [reflexivity|].
        now apply disjoint_singleton_l. }
      rewrite Hmark in Hsub, Hin. split; [|split].
      * etransitivity; [|exact Hsub]. apply union_subseteq_r.
      * lia.
      * intros url Hurl. destruct (Hin url Hurl) as [H | H]; [|right; now right].
        apply elem_of_union in H as [H | H]; [|now left].
        apply elem_of_singleton in H. subst url. right. now left.
    + apply download_false_keeps_seen in Hrun. rewrite Hrun in Hsub, Hcount, Hin.
      split; [exact Hsub|]. split; [lia|].
      intros url Hurl. destruct (Hin url Hurl) as [H | H]; [now left | right; now right].
Qed.

(** X14.  A URL is marked as downloaded only when its file is on disk:
    if every URL marked before the loop has a file in the folder, under
    some ordinal, so has every URL marked after it. *)
Theorem marked_urls_have_their_file (E : env) (image_urls : list string)
    (output_folder : string) (i : Z) (total : nat) (successful : Z) (st : state) :
  (forall url, url ∈ downloaded_urls st ->
     exists k, is_Some (files st !! target url output_folder k)) ->
  forall url,
    url ∈ downloaded_urls (snd (download_all E image_urls output_folder i total successful st)) ->
    exists k,
      is_Some (files (snd (download_all E image_urls output_folder i total successful st))
                 !! target url output_folder k).
Proof.
  revert i successful st.
  induction image_urls as [|u rest IH]; intros i successful st Hinv; [exact Hinv|].
  destruct (download_image_returns E u output_folder i st) as (ok & st1 & Hrun).
  rewrite (download_all_cons _ _ _ _ _ _ _ _ _ _ Hrun).
  apply IH. intros url. rewrite downloaded_urls_progress, files_progress.
  pose proof (download_files_mono E u output_folder i st) as Hmono.
  rewrite Hrun in Hmono. simpl in Hmono.
  destruct ok.
  - apply download_true in Hrun as (_ & Hmark & Hfile). rewrite Hmark.
    intros H. apply elem_of_union in H as [H | H].
    + apply elem_of_singleton in H. subst url. eauto.
    + destruct (Hinv url H) as (k & Hk). eauto.
  - apply download_false_keeps_seen in Hrun. rewrite Hrun.
    intros H. destruct (Hinv url H) as (k & Hk). eauto.
Qed.

Lemma marked_urls_have_their_file_witness :
  let url := "https://i.pinimg.com/736x/abc.jpg" in
  let st' := snd (download_all serving_pictures [url] "out" 1 1 0 (new_scraper ∅)) in
  exists k, is_Some (files st' !! target url "out" k).
Proof.
  intros url st'.
  apply (marked_urls_have_their_file serving_pictures [url] "out" 1 1 0 (new_scraper ∅)).
  - intros u Hu. simpl in Hu. now apply not_elem_of_empty in Hu.
  - vm_compute. set_solver.
Defined.

(** X15.  The loop sends at most one request for each entry of the list
    it is given, and only for URLs of the list; it creates files only at
    the names computed from a URL of the list and its ordinal. *)
Theorem loop_stays_within_its_list (E : env) (image_urls : list string)
    (output_folder : string) (i : Z) (total : nat) (successful : Z) (st : state) :
  let st' := snd (download_all E image_urls output_folder i total successful st) in
  (exists sent,
     requests st' = (sent ++ requests st)%list /\
     length sent <= length image_urls /\
     forall url, In url sent -> In url image_urls) /\
  (forall path,
     is_Some (files st' !! path) ->
     is_Some (files st !! path) \/
     exists url k,
       nth_error image_urls k = Some url /\
       path = target url output_folder (i + Z.of_nat k)).
Proof.
  revert i successful st.
  induction image_urls as [|u rest IH]; intros i successful st; cbv zeta.
  - split; [exists []; simpl; auto | auto].
  - destruct (download_image_returns E u output_folder i st) as (ok & st1 & Hrun).
    rewrite (download_all_cons _ _ _ _ _ _ _ _ _ _ Hrun).
    destruct (IH (i + 1)%Z (if ok then (successful + 1)%Z else successful)
                (progress i total st1)) as ((sent & Hsent & Hlen & Hin) & Hfiles).
    rewrite requests_progress in Hsent. split.
    + pose proof (download_requests E u output_folder i st) as Hone.
      rewrite Hrun in Hone. simpl in Hone. destruct Hone as [Hone | Hone].
      * exists sent. rewrite Hsent, Hone. simpl. repeat split; auto.
      * exists (sent ++ [u])%list. rewrite Hsent, Hone, <- app_assoc.
        repeat split; [rewrite length_app; simpl; lia|].
        intros url Hurl. apply in_app_or in Hurl as [Hurl | [<- | []]];
          [right; auto | now left].
    + intros path Hpath. destruct (Hfiles path Hpath) as [Hold | (url & k & Hk & ->)].
      * rewrite files_progress in Hold.
        pose proof (download_files_new E u output_folder i st path) as Hnew.
        rewrite Hrun in Hnew. destruct (Hnew Hold) as [H | ->]; [now left|].
        right. exists u, 0. split; [reflexivity|]. now rewrite Z.add_0_r.
      * right. exists url, (S k). split; [exact Hk|]. f_equal. lia.
Qed.

(** ** File names, further *)


(** X16.  Two calls get the same file name exactly when their ordinals
    are equal and the first eight digits of the MD5 of their URLs agree:
    within a run, where every URL has an ordinal of its own, no two URLs
    share a file. *)
Theorem filename_determines_the_ordinal (img_url img_url' : string) (img_num img_num' : Z) :
  Naming.filename img_url img_num = Naming.filename img_url' img_num'
  <-> img_num = img_num' /\ Naming.url_hash img_url = Naming.url_hash img_url'.
Proof.
  split.
  - unfold Naming.filename. intros H. apply append_cancel_l in H.
    apply split_at_separator in H as [Hnum H];
      try (apply avoids_format_04d; reflexivity).
    apply format_04d_inj in Hnum. apply append_cancel_r in H. auto.
  - intros [-> H]. now apply filename_eq_iff.
Qed.

Lemma target_inside img_url folder_path img_num :
  target img_url folder_path img_num = folder_path +:+ Naming.filename img_url img_num \/
  target img_url folder_path img_num
  = folder_path +:+ "/" +:+ Naming.filename img_url img_num.
Proof.
  unfold target, Naming.os_path_join.
  replace (PyStr.startswith "/" (Naming.filename img_url img_num)) with false
    by reflexivity.
  destruct ((String.length folder_path =? 0)%nat || Naming.ends_with_sep folder_path);
    auto.
Qed.


(** ** The whole run *)

Section FilesAlong.

Variable P : gmap string string -> gmap string string -> Prop.
Hypothesis P_refl : forall a, P a a.
Hypothesis P_trans : forall a b c, P a b -> P b c -> P a c.

Lemma files_along_preserves {A} (m : M A) : preserves files m -> files_along P m.
Proof. intros H st. rewrite (H st). apply P_refl. Qed.

Lemma files_along_bind {A B} (m : M A) (k : A -> M B) :
  files_along P m -> (forall a, files_along P (k a)) -> files_along P (bind m k).
Proof.
  intros Hm Hk st. unfold bind. specialize (Hm st).
  destruct (m st) as [[a | e] st1]; simpl in *; [|exact Hm].
  eapply P_trans; [exact Hm | apply Hk].
Qed.

Lemma files_along_try_except {A} (m : M A) (h : exn -> M A) :
  files_along P m -> (forall e, files_along P (h e)) -> files_along P (try_except m h).
Proof.
  intros Hm Hh st. unfold try_except. specialize (Hm st).
  destruct (m st) as [[a | e] st1]; simpl in *; [exact Hm|].
  eapply P_trans; [exact Hm | apply Hh].
Qed.

Lemma files_along_try_finally {A} (m : M A) (c : M unit) :
  files_along P m -> files_along P c -> files_along P (try_finally m c).
Proof.
  intros Hm Hc st. unfold try_finally. specialize (Hm st).
  destruct (m st) as [r st1]. specialize (Hc st1).
  destruct (c st1) as [[[] | e] st2]; simpl in *; eapply P_trans; eauto.
Qed.

End FilesAlong.

Lemma files_blind : browser_blind files.
Proof. repeat split. Qed.

Lemma grows_inside_refl folder a : grows_inside folder a a.
Proof. split; auto. Qed.

Lemma grows_inside_trans folder a b c :
  grows_inside folder a b -> grows_inside folder b c -> grows_inside folder a c.
Proof.
  intros [H1 H2] [H3 H4]. split; [auto|].
  intros path Hc. destruct (H4 path Hc) as [Hb | Hnew]; auto.
Qed.

Lemma download_image_grows_inside E img_url folder_path img_num :
  files_along (grows_inside folder_path) (download_image E img_url folder_path img_num).
Proof.
  intros st. split.
  - intros path data. apply download_image_keeps_file.
  - intros path Hp. apply download_files_new in Hp as [Hp | ->]; eauto.
Qed.

Lemma download_all_grows_inside E image_urls output_folder : forall i total successful,
  files_along (grows_inside output_folder)
    (download_all E image_urls output_folder i total successful).
Proof.
  induction image_urls as [|u rest IH]; intros i total successful.
  - intros st. apply grows_inside_refl.
  - cbn [download_all].
    apply files_along_bind;
      [apply grows_inside_trans | apply download_image_grows_inside | intros ok].
    apply files_along_bind; [apply grows_inside_trans | | intros _; apply IH].
    apply files_along_preserves; [apply grows_inside_refl|].
    destruct (_ =? _)%Z; [apply preserves_print, files_blind | apply preserves_ret].
Qed.

Lemma pipeline_grows_inside E depth board_url output_folder :
  files_along (grows_inside output_folder) (pipeline E depth board_url output_folder).
Proof.
  pose proof (grows_inside_refl output_folder) as Hrefl.
  pose proof (grows_inside_trans output_folder) as Htrans.
  pose proof files_blind as Hblind.
  unfold pipeline.
  assert (Hstage : forall A (m : M A), preserves files m ->
            files_along (grows_inside output_folder) m)
    by (intros; now apply files_along_preserves).
  apply files_along_bind;
    [exact Htrans | apply Hstage, preserves_check_login_status, Hblind | intros logged_in].
  destruct (negb logged_in); [apply Hstage, preserves_print, Hblind|].
  apply files_along_bind;
    [exact Htrans | apply Hstage, preserves_navigate, Hblind | intros _].
  apply files_along_bind;
    [exact Htrans | apply Hstage, preserves_get_current_url | intros url].
  destruct (_ || _); [apply Hstage, preserves_print, Hblind|].
  apply files_along_bind;
    [exact Htrans | apply Hstage, preserves_scroll_to_bottom, Hblind | intros _].
  apply files_along_bind;
    [exact Htrans | apply Hstage, preserves_extract_image_urls, Hblind | intros image_urls].
  destruct image_urls as [|u rest]; [apply Hstage, preserves_print, Hblind|].
  apply files_along_bind;
    [exact Htrans | apply download_all_grows_inside | intros successful].
  apply Hstage, preserves_print, Hblind.
Qed.

(** X18.  Whatever the browser, the network and the disk do,
    [scrape_board] changes and removes no file that was there, and every
    file it adds lies in the output folder under a name computed from a
    URL and an ordinal. *)
Theorem scrape_board_only_adds_files_to_its_folder (E : env) (depth : nat)
    (board_url output_folder : string) (st : state) :
  let st' := snd (scrape_board E depth board_url output_folder st) in
  (forall path data, files st !! path = Some data -> files st' !! path = Some data) /\
  (forall path, is_Some (files st' !! path) ->
     is_Some (files st !! path) \/
     exists url k,
       path = Naming.os_path_join output_folder (Naming.filename url k) /\
       PyStr.startswith output_folder path = true).
Proof.
  intros st'.
  assert (H : grows_inside output_folder (files st) (files st')).
  { subst st'. revert st. unfold scrape_board.
    apply files_along_bind; [apply grows_inside_trans | | intros _].
    { apply files_along_preserves; [apply grows_inside_refl | apply preserves_lift]. }
    apply files_along_try_finally; [apply grows_inside_trans | |].
    - apply files_along_try_except;
        [apply grows_inside_trans | apply pipeline_grows_inside | intros e].
      apply files_along_preserves; [apply grows_inside_refl|].
      apply preserves_bind; [apply preserves_print, files_blind | intros _].
      apply preserves_raise.
    - apply files_along_preserves; [apply grows_inside_refl|].
      intros s. reflexivity. }
  destruct H as [Hkeep Hnew]. split; [exact Hkeep|].
  intros path Hp. destruct (Hnew path Hp) as [Hold | (url & k & ->)]; [now left|].
  right. exists url, k. split; [reflexivity|].
  destruct (target_inside url output_folder k) as [-> | ->]; apply startswith_app.
Qed.

Section Aborts.

Variable E : env.

Lemma preserves_downloads_check_login_status depth :
  preserves downloads (check_login_status E depth).
Proof. apply preserves_check_login_status, downloads_blind. Qed.

(** The [try] statement when the login check answers [False]. *)
Lemma pipeline_login_failed depth board_url output_folder st st1 :
  check_login_status E depth st = (Ok false, st1) ->
  pipeline E depth board_url output_folder st
  = (Ok tt, set_stdout (cons MsgLoginCheckFailed) st1).
Proof.
  intros H. unfold pipeline. unfold bind at 1. rewrite H. reflexivity.
Qed.

(** The [try] statement when the board does not show. *)
Lemma pipeline_redirected depth board_url output_folder st st1 :
  check_login_status E depth st = (Ok true, st1) ->
  driver_get E (length (navigations st1)) board_url = Ok tt ->
  negb (PyStr.contains "pinterest.com" (current_url E (S (length (navigations st1)))))
  || PyStr.contains "login" (current_url E (S (length (navigations st1)))) = true ->
  pipeline E depth board_url output_folder st
  = (Ok tt, set_stdout (cons MsgRedirected) (set_navigations (cons board_url) st1)).
Proof.
  intros H Hnav Hurl. unfold pipeline. unfold bind at 1. rewrite H. cbv beta iota.
  cbn [negb]. unfold bind at 1. unfold navigate. rewrite Hnav. cbv beta iota.
  unfold bind at 1. unfold get_current_url, gets. cbv beta iota.
  cbn [navigations set_navigations length]. now rewrite Hurl.
Qed.

End Aborts.

(** X19.  A run that is aborted because the login check answers [False],
    or because the browser is not on a pinterest.com page or is on a
    login page after loading the board, returns normally: it sends no
    request, marks no URL and writes no file, never scrolls the page in
    the second case nor loads the board in the first, and closes the
    browser. *)
Theorem aborted_run_downloads_nothing (E : env) (depth : nat)
    (board_url output_folder : string) (st st1 : state) :
  makedirs E output_folder = Ok tt ->
  let res := scrape_board E depth board_url output_folder st in
  (check_login_status E depth st = (Ok false, st1) ->
   fst res = Ok tt /\
   downloads (snd res) = downloads st /\
   navigations (snd res) = navigations st1 /\
   quits (snd res) = S (quits st) /\
   stdout (snd res) = MsgBrowserClosed :: MsgLoginCheckFailed :: stdout st1) /\
  (check_login_status E depth st = (Ok true, st1) ->
   driver_get E (length (navigations st1)) board_url = Ok tt ->
   negb (PyStr.contains "pinterest.com" (current_url E (S (length (navigations st1)))))
   || PyStr.contains "login" (current_url E (S (length (navigations st1)))) = true ->
   fst res = Ok tt /\
   downloads (snd res) = downloads st /\
   scrolls (snd res) = scrolls st1 /\
   height_reads (snd res) = height_reads st1 /\
   quits (snd res) = S (quits st) /\
   stdout (snd res) = MsgBrowserClosed :: MsgRedirected :: stdout st1).
Proof.
  intros Hmk res. subst res. rewrite (scrape_board_try E _ _ _ _ Hmk).
  pose proof (preserves_downloads_check_login_status E depth st) as Hd.
  pose proof (keeps_quits_check_login_status E depth st) as Hq.
  split.
  - intros Hcheck. rewrite Hcheck in Hd, Hq. simpl in Hd, Hq.
    unfold try_except. rewrite (pipeline_login_failed E _ _ _ _ _ Hcheck).
    simpl. repeat split; auto; try (now rewrite Hq).
  - intros Hcheck Hnav Hurl. rewrite Hcheck in Hd, Hq. simpl in Hd, Hq.
    unfold try_except. rewrite (pipeline_redirected E _ _ _ _ _ Hcheck Hnav Hurl).
    simpl. repeat split; auto; try (now rewrite Hq).
Qed.

Lemma aborted_run_downloads_nothing_witness :
  let res := scrape_board World.offline 5 "https://jp.pinterest.com/user/board/" "out"
               (new_scraper ∅) in
  fst res = Ok tt /\ downloads (snd res) = downloads (new_scraper ∅) /\
  quits (snd res) = 1.
Proof.
  intros res.
  destruct (proj1 (aborted_run_downloads_nothing World.offline 5
                     "https://jp.pinterest.com/user/board/" "out" (new_scraper ∅)
                     (snd (check_login_status World.offline 5 (new_scraper ∅)))
                     eq_refl) eq_refl)
    as (H1 & H2 & _ & H4 & _).
  auto.
Defined.

Section Survives.

Variable E : env.
Variable hs : nat -> Z.
Variable images : list (result (option string)).
Hypothesis navigation_ok : forall k url, driver_get E k url = Ok tt.
Hypothesis scroll_ok : forall k, scroll_to E k = Ok tt.
Hypothesis heights_ok : forall k, scroll_height E k = Ok (hs k).
Hypothesis wait_ok : wait_for_image E = Ok tt.
Hypothesis images_ok : images_by_xpath E = Ok images.

Lemma pipeline_returns depth board_url output_folder st :
  exists st', pipeline E (S depth) board_url output_folder st = (Ok tt, st').
Proof.
  unfold pipeline. unfold bind at 1.
  destruct (check_login_status_returns E depth st) as (logged_in & st1 & Hcheck).
  rewrite Hcheck. cbv beta iota.
  destruct logged_in; cbn [negb]; [|eexists; reflexivity].
  unfold bind at 1. unfold navigate. rewrite navigation_ok. cbv beta iota.
  unfold bind at 1. unfold get_current_url, gets. cbv beta iota.
  match goal with |- context [if ?b then _ else _] => destruct b end;
    [eexists; reflexivity|].
  unfold bind at 1.
  match goal with |- context [scroll_to_bottom E 30 ?s] =>
    pose proof (scroll_to_bottom_count E 30 s (fun k => hs (height_reads s + k))
                  scroll_ok (fun k => heights_ok (height_reads s + k))) as (Hscroll & _);
    destruct (scroll_to_bottom E 30 s) as [r st3]
  end.
  simpl in Hscroll. subst r. cbv beta iota.
  unfold bind at 1. rewrite (extract_primary E st3 images wait_ok images_ok).
  cbv zeta beta iota.
  match goal with |- context [match ?l with [] => _ | _ :: _ => _ end] =>
    destruct l as [|u rest] eqn:Hurls end; [eexists; reflexivity|].
  unfold bind at 1.
  match goal with |- context [download_all E ?l ?f ?i ?t ?n ?s] =>
    destruct (download_all_returns E l f i t n s) as (n' & st5 & Hrun & _)
  end.
  rewrite Hrun. eexists. reflexivity.
Qed.

End Survives.

(** X20.  When the output folder can be created and the browser answers
    every call (it loads the pages, scrolls, reports heights and finds
    the images), [scrape_board] returns normally and closes the browser
    once, whatever the login page shows and whatever the network and the
    disk do: no failed download ends the run. *)
Theorem run_survives_network_and_disk (E : env) (depth : nat)
    (board_url output_folder : string) (st : state) (hs : nat -> Z)
    (images : list (result (option string))) :
  makedirs E output_folder = Ok tt ->
  (forall k url, driver_get E k url = Ok tt) ->
  (forall k, scroll_to E k = Ok tt) ->
  (forall k, scroll_height E k = Ok (hs k)) ->
  wait_for_image E = Ok tt ->
  images_by_xpath E = Ok images ->
  fst (scrape_board E (S depth) board_url output_folder st) = Ok tt /\
  quits (snd (scrape_board E (S depth) board_url output_folder st)) = S (quits st).
Proof.
  intros Hmk Hnav Hscroll Hheights Hwait Himages.
  destruct (scrape_board E (S depth) board_url output_folder st) as [r st'] eqn:Hrun.
  destruct (scrape_board_quits_once E _ _ _ _ _ _ Hmk Hrun) as [Hq _].
  split; [|exact Hq].
  rewrite (scrape_board_try E _ _ _ _ Hmk) in Hrun. unfold try_except in Hrun.
  destruct (pipeline_returns E hs images Hnav Hscroll Hheights Hwait Himages
              depth board_url output_folder st) as (st1 & Hp).
  rewrite Hp in Hrun. now injection Hrun as <- _.
Qed.

Lemma run_survives_network_and_disk_witness :
  let E := Sample.with_xpath_images
             [Ok (Some "https://i.pinimg.com/236x/a.jpg")] disk_full in
  fst (scrape_board E 3 "https://jp.pinterest.com/user/board/" "out" (new_scraper ∅))
  = Ok tt /\
  quits (snd (scrape_board E 3 "https://jp.pinterest.com/user/board/" "out"
                (new_scraper ∅))) = 1.
Proof.
  intros E.
  apply (run_survives_network_and_disk E 2 "https://jp.pinterest.com/user/board/" "out"
           (new_scraper ∅) (fun _ => 1000%Z)
           [Ok (Some "https://i.pinimg.com/236x/a.jpg")]); reflexivity.
Defined.

(** ** Construction of the scraper *)

(** The loop over candidate paths stops at the first one that exists. *)
Lemma first_existing_first fs paths :
  match first_existing fs paths with
  | Some path =>
      exists before after,
        paths = (before ++ path :: after)%list /\
        is_Some (fs !! path) /\
        forall p, In p before -> fs !! p = None
  | None => forall p, In p paths -> fs !! p = None
  end.
Proof.
  induction paths as [|path rest IH]; simpl.
  - intros p [].
  - destruct (bool_decide (is_Some (fs !! path))) eqn:Hd.
    + apply bool_decide_eq_true in Hd. exists [], rest. repeat split; auto.
      intros p [].
    + apply bool_decide_eq_false in Hd.
      assert (Hnone : fs !! path = None).
      { destruct (fs !! path) eqn:Hp; [|reflexivity]. destruct Hd. eauto. }
      destruct (first_existing fs rest) as [found|].
      * destruct IH as (before & after & -> & Hex & Hbefore).
        exists (path :: before), after. repeat split; auto.
        intros p [<- | Hp]; auto.
      * intros p [<- | Hp]; auto.
Qed.

(** X21.  [get_chrome_profile_path] answers the first of its two
    candidates that exists, Default before Profile 1, and [None] exactly
    when neither exists; it starts no browser.  The candidates lie under
    /Users/ followed by the value of USER, and under /Users/None when the
    variable is not set. *)
Theorem profile_is_the_first_candidate_that_exists (H : host) (fs : gmap string string)
    (l : launch) :
  let default := "/Users/" +:+ format_user (getenv_user H)
                 +:+ "/Library/Application Support/Google/Chrome/Default" in
  let profile_1 := "/Users/" +:+ format_user (getenv_user H)
                   +:+ "/Library/Application Support/Google/Chrome/Profile 1" in
  let found := fst (get_chrome_profile_path H fs l) in
  let l' := snd (get_chrome_profile_path H fs l) in
  (is_Some (fs !! default) -> found = Some default) /\
  (fs !! default = None -> is_Some (fs !! profile_1) -> found = Some profile_1) /\
  (fs !! default = None -> fs !! profile_1 = None -> found = None) /\
  (forall path, found = Some path -> is_Some (fs !! path)) /\
  (getenv_user H = None ->
   default = "/Users/None/Library/Application Support/Google/Chrome/Default") /\
  driver l' = driver l /\ attempts l' = attempts l /\ browsers l' = browsers l.
Proof.
  intros default profile_1 found l'.
  assert (Hloop : first_existing fs (chrome_profiles H)
                  = if bool_decide (is_Some (fs !! default)) then Some default
                    else if bool_decide (is_Some (fs !! profile_1)) then Some profile_1
                    else None) by reflexivity.
  assert (Hfound : found = first_existing fs (chrome_profiles H)).
  { subst found. unfold get_chrome_profile_path.
    now destruct (first_existing fs (chrome_profiles H)). }
  assert (Hno : forall p, fs !! p = None -> bool_decide (is_Some (fs !! p)) = false).
  { intros p Hp. apply bool_decide_eq_false. rewrite Hp. apply is_Some_None. }
  rewrite Hfound, Hloop. repeat split.
  - intros Hd. now rewrite (bool_decide_eq_true_2 _ Hd).
  - intros Hd Hp. now rewrite (Hno _ Hd), (bool_decide_eq_true_2 _ Hp).
  - intros Hd Hp. now rewrite (Hno _ Hd), (Hno _ Hp).
  - intros path.
    destruct (bool_decide (is_Some (fs !! default))) eqn:Hd;
      [apply bool_decide_eq_true in Hd; now intros [= <-]|].
    destruct (bool_decide (is_Some (fs !! profile_1))) eqn:Hp;
      [apply bool_decide_eq_true in Hp; now intros [= <-] | discriminate].
  - intros Hu. subst default. now rewrite Hu.
  - subst l'. unfold get_chrome_profile_path.
    now destruct (first_existing fs (chrome_profiles H)).
  - subst l'. unfold get_chrome_profile_path.
    now destruct (first_existing fs (chrome_profiles H)).
  - subst l'. unfold get_chrome_profile_path.
    now destruct (first_existing fs (chrome_profiles H)).
Qed.

Lemma profile_is_the_first_candidate_that_exists_witness :
  fst (get_chrome_profile_path Hosts.healthy Hosts.disk no_launch)
  = Some "/Users/ada/Library/Application Support/Google/Chrome/Profile 1".
Proof.
  apply (profile_is_the_first_candidate_that_exists Hosts.healthy Hosts.disk no_launch).
  - vm_compute. reflexivity.
  - vm_compute. eauto.
Defined.

Section SetupDriver.

Variable H : host.
Variable fs : gmap string string.
Variable headless : bool.
Variable l : launch.

Let options := build_options (first_existing fs (chrome_profiles H)) headless.
Let k := length (attempts l).
Let alternative := first_existing fs possible_paths.

(** [setup_driver], by what the first call and the script do. *)
Lemma setup_driver_first_try :
  chrome H k None options = Ok tt ->
  hide_webdriver H k = Ok tt ->
  exists l',
    setup_driver H fs headless l = (Ok tt, l') /\
    attempts l' = (None, options) :: attempts l /\
    driver l' = Some k /\
    browsers l' = k :: browsers l.
Proof.
  intros Hc Hs. unfold setup_driver, get_chrome_profile_path.
  fold alternative.
  destruct (first_existing fs (chrome_profiles H)) as [p|] eqn:Hp;
    [destruct (negb (String.eqb p ""))|];
    unfold start_chrome; cbn [attempts say]; fold k; subst options;
    rewrite ?Hp in *; rewrite Hc; cbn [attempts say]; fold k; rewrite Hs;
    eexists; split; reflexivity || (repeat split; reflexivity).
Qed.

Lemma setup_driver_second_try :
  (exists e, chrome H k None options = Raise e) \/
  (chrome H k None options = Ok tt /\ exists e, hide_webdriver H k = Raise e) ->
  exists l',
    setup_driver H fs headless l = (chrome H (S k) alternative options, l') /\
    attempts l' = (alternative, options) :: (None, options) :: attempts l /\
    (chrome H (S k) alternative options = Ok tt -> driver l' = Some (S k)) /\
    (forall e, chrome H (S k) alternative options = Raise e ->
       hd_error (console l') = Some (MsgAllFailed e)) /\
    (chrome H k None options = Ok tt ->
     In k (browsers l') /\
     forall e, chrome H (S k) alternative options = Raise e ->
       driver l' = Some k /\ browsers l' = k :: browsers l).
Proof.
  intros Hfail. unfold setup_driver, get_chrome_profile_path.
  destruct (first_existing fs (chrome_profiles H)) as [p|] eqn:Hp;
    [destruct (negb (String.eqb p ""))|];
    unfold start_chrome; cbn [attempts say]; fold k; subst options;
    rewrite ?Hp in *;
    (destruct Hfail as [(e & Hc) | (Hc & e & Hs)];
     rewrite Hc; cbn [attempts say]; fold k; rewrite ?Hs;
     unfold setup_driver_alternative, start_chrome; fold alternative;
     destruct alternative as [path|]; cbn [attempts say length]; fold k;
     destruct (chrome H (S k) _ _) as [[]|e2] eqn:H2;
     eexists; (split; [reflexivity|]); cbn [attempts driver browsers console say];
     repeat split; try congruence; try (intros; discriminate);
     try (intros ? [= <-]; reflexivity); try (now left); try (right; now left)).
Qed.

End SetupDriver.

(** X22.  [setup_driver] calls [webdriver.Chrome] once or twice, with the
    same options.  When the first call, without a path, and the script
    after it go through, that is all.  Otherwise there is exactly one
    more call, with the first chromedriver path that exists (with none
    when none exists), and its outcome is the outcome of [setup_driver]:
    a path after the first existing one is never tried, whatever the
    call with the first does.  On success the scraper holds the browser
    its last call has started. *)
Theorem setup_driver_tries_at_most_twice (H : host) (fs : gmap string string)
    (headless : bool) (l : launch) :
  let options := build_options (first_existing fs (chrome_profiles H)) headless in
  let k := length (attempts l) in
  let alternative := first_existing fs possible_paths in
  let r := fst (setup_driver H fs headless l) in
  let l' := snd (setup_driver H fs headless l) in
  (chrome H k None options = Ok tt /\ hide_webdriver H k = Ok tt ->
   r = Ok tt /\ attempts l' = (None, options) :: attempts l) /\
  (~ (chrome H k None options = Ok tt /\ hide_webdriver H k = Ok tt) ->
   r = chrome H (S k) alternative options /\
   attempts l' = (alternative, options) :: (None, options) :: attempts l) /\
  (r = Ok tt ->
   driver l' = Some (length (attempts l') - 1) /\
   In (length (attempts l') - 1) (browsers l')) /\
  match alternative with
  | Some path =>
      exists before after,
        possible_paths = (before ++ path :: after)%list /\
        is_Some (fs !! path) /\
        forall p, In p before -> fs !! p = None
  | None => forall p, In p possible_paths -> fs !! p = None
  end.
Proof.
  intros options k alternative r l'.
  pose proof (first_existing_first fs possible_paths) as Hfe.
  assert (Hpred : forall n, S n - 1 = n) by (intros; lia).
  destruct (chrome H k None options) as [[]|e1] eqn:Hc;
    [destruct (hide_webdriver H k) as [[]|e2] eqn:Hs|].
  - destruct (setup_driver_first_try H fs headless l Hc Hs) as (l1 & Hrun & Ha & Hd & Hb).
    subst r l'. rewrite Hrun. cbn [fst snd]. rewrite Ha, Hd, Hb. cbn [length].
    rewrite Hpred. fold k.
    split; [auto|]. split; [intros Hn; destruct Hn; auto|]. split; [|exact Hfe].
    intros _. split; [reflexivity | now left].
  - destruct (setup_driver_second_try H fs headless l) as (l1 & Hrun & Ha & Hd & _).
    { right. split; [exact Hc | eauto]. }
    subst r l'. rewrite Hrun. cbn [fst snd]. rewrite Ha. cbn [length].
    rewrite Hpred. fold k options alternative.
    split; [intros [_ [=]]|]. split; [auto|]. split; [|exact Hfe].
    intros Hok. rewrite (Hd Hok). split; [reflexivity|].
    revert Hrun. unfold setup_driver, get_chrome_profile_path.
    destruct (first_existing fs (chrome_profiles H)) as [p|] eqn:Hp;
      [destruct (negb (String.eqb p ""))|];
      unfold start_chrome; cbn [attempts say]; fold k; fold options;
      rewrite Hc; cbn [attempts say]; fold k; rewrite Hs;
      unfold setup_driver_alternative, start_chrome; fold alternative;
      destruct alternative as [path|]; cbn [attempts say length]; fold k;
      rewrite Hok; intros [= <-]; now left.
  - destruct (setup_driver_second_try H fs headless l) as (l1 & Hrun & Ha & Hd & _).
    { left. eauto. }
    subst r l'. rewrite Hrun. cbn [fst snd]. rewrite Ha. cbn [length].
    rewrite Hpred. fold k options alternative.
    split; [intros [[=] _]|]. split; [auto|]. split; [|exact Hfe].
    intros Hok. rewrite (Hd Hok). split; [reflexivity|].
    revert Hrun. unfold setup_driver, get_chrome_profile_path.
    destruct (first_existing fs (chrome_profiles H)) as [p|] eqn:Hp;
      [destruct (negb (String.eqb p ""))|];
      unfold start_chrome; cbn [attempts say]; fold k; fold options;
      rewrite Hc; cbn [attempts say]; fold k;
      unfold setup_driver_alternative, start_chrome; fold alternative;
      destruct alternative as [path|]; cbn [attempts say length]; fold k;
      rewrite Hok; intros [= <-]; now left.
Qed.

Lemma setup_driver_tries_at_most_twice_witness :
  fst (setup_driver Hosts.needs_driver_path Hosts.disk false no_launch)
  = chrome Hosts.needs_driver_path 1 (first_existing Hosts.disk possible_paths)
      (build_options (first_existing Hosts.disk (chrome_profiles Hosts.needs_driver_path)) false)
  /\
  attempts (snd (setup_driver Hosts.needs_driver_path Hosts.disk false no_launch))
  = [ (first_existing Hosts.disk possible_paths,
       build_options (first_existing Hosts.disk (chrome_profiles Hosts.needs_driver_path)) false);
      (None,
       build_options (first_existing Hosts.disk (chrome_profiles Hosts.needs_driver_path)) false) ].
Proof.
  pose proof (setup_driver_tries_at_most_twice Hosts.needs_driver_path Hosts.disk
                false no_launch) as T.
  cbv zeta in T. destruct T as (_ & T & _). apply T. intros [[=] _].
Defined.

Example second_chromedriver_is_the_one_tried :
  first_existing Hosts.disk possible_paths = Some "/opt/homebrew/bin/chromedriver" /\
  fst (setup_driver Hosts.needs_driver_path Hosts.disk false no_launch) = Ok tt /\
  driver (snd (setup_driver Hosts.needs_driver_path Hosts.disk false no_launch)) = Some 1.
Proof. vm_compute. auto. Qed.

(** X23.  A browser that has started, and in which the script then
    raises, is never closed by [setup_driver]: either a second browser is
    started and held in its place, both being open, or the second call
    raises and the construction fails with the first browser open. *)
Theorem browser_with_failed_script_stays_open (H : host) (fs : gmap string string)
    (headless : bool) (l : launch) (e : exn) :
  let options := build_options (first_existing fs (chrome_profiles H)) headless in
  let k := length (attempts l) in
  let alternative := first_existing fs possible_paths in
  let r := fst (setup_driver H fs headless l) in
  let l' := snd (setup_driver H fs headless l) in
  chrome H k None options = Ok tt ->
  hide_webdriver H k = Raise e ->
  match chrome H (S k) alternative options with
  | Ok _ => r = Ok tt /\ driver l' = Some (S k) /\ browsers l' = S k :: k :: browsers l
  | Raise e' => r = Raise e' /\ driver l' = Some k /\ browsers l' = k :: browsers l
  end.
Proof.
  intros options k alternative r l' Hc Hs. subst r l'.
  unfold setup_driver, get_chrome_profile_path.
  destruct (first_existing fs (chrome_profiles H)) as [p|] eqn:Hp;
    [destruct (negb (String.eqb p ""))|];
    unfold start_chrome; cbn [attempts say]; fold k; fold options;
    rewrite Hc; cbn [attempts say]; fold k; rewrite Hs;
    unfold setup_driver_alternative, start_chrome; fold alternative;
    destruct alternative as [path|]; cbn [attempts say length]; fold k;
    destruct (chrome H (S k) _ options) as [[]|e2]; cbn; auto.
Qed.

Lemma browser_with_failed_script_stays_open_witness :
  fst (setup_driver Hosts.script_blocked Hosts.disk false no_launch) = Ok tt /\
  driver (snd (setup_driver Hosts.script_blocked Hosts.disk false no_launch)) = Some 1 /\
  browsers (snd (setup_driver Hosts.script_blocked Hosts.disk false no_launch)) = [1; 0].
Proof.
  apply (browser_with_failed_script_stays_open Hosts.script_blocked Hosts.disk false
           no_launch WebDriverException); reflexivity.
Defined.

(** ** The program *)

Lemma startswith_prefix p : forall s,
  PyStr.startswith p s = true -> exists rest, s = p +:+ rest.
Proof.
  induction p as [|a p IH]; intros s Hs.
  - exists s. now rewrite append_nil_l.
  - destruct s as [|b s]; [discriminate|]. cbn [PyStr.startswith] in Hs.
    apply andb_prop in Hs as [Hab Hs]. apply Ascii.eqb_eq in Hab as ->.
    destruct (IH s Hs) as (rest & ->). exists rest. now rewrite append_cons.
Qed.

(** The constructor starts one browser or two. *)
Lemma setup_driver_browsers H fs headless l :
  let l' := snd (setup_driver H fs headless l) in
  attempts l' <> [] /\
  length (browsers l') <= length (browsers l) + 2 /\
  (fst (setup_driver H fs headless l) = Ok tt -> driver l' <> None).
Proof.
  intros l'. subst l'. unfold setup_driver, get_chrome_profile_path.
  destruct (first_existing fs (chrome_profiles H)) as [p|];
    [destruct (negb (String.eqb p ""))|];
    unfold start_chrome; cbn [attempts say];
    (destruct (chrome H (length (attempts l)) None _) as [[]|e1];
     [destruct (hide_webdriver H (length (attempts l))) as [[]|e2]|];
     unfold setup_driver_alternative, start_chrome;
     try destruct (first_existing fs possible_paths) as [path|];
     cbn [attempts say length];
     try destruct (chrome H (S (length (attempts l))) _ _) as [[]|e3];
     cbn [fst snd attempts browsers driver say length];
     (split; [discriminate|]); (split; [lia|]);
     solve [discriminate | intros _; discriminate]).
Qed.

(** X24.  [main] starts Chrome only when it is given exactly two
    arguments of which the first starts with https://jp.pinterest.com/.
    Otherwise it ends with status 1 after its usage or its URL message,
    and [scrape_board] is not called; a board of another Pinterest
    domain is refused in this way.  Past that check, Chrome is called at
    least once. *)
Theorem main_checks_arguments_before_chrome (H : host) (E : env) (depth : nat)
    (fs : gmap string string) (argv : list string) :
  let r := main H E depth fs argv in
  (constructed r = None <->
   ~ exists prog rest output_folder,
       argv = [prog; "https://jp.pinterest.com/" +:+ rest; output_folder]) /\
  (constructed r = None ->
   exit_status r = 1%Z /\ scraped r = None /\
   (main_out r = [MsgUsage] \/ main_out r = [MsgInvalidURL])) /\
  (forall l, constructed r = Some l -> attempts l <> []).
Proof.
  intros r. subst r.
  destruct argv as [|prog [|board_url [|output_folder [|extra argv]]]];
    try (cbn [main constructed exit_status scraped main_out];
         split; [split; [intros _ (? & ? & ? & [=]) | reflexivity]|];
         split; [auto | intros l [=]]).
  unfold main.
  destruct (PyStr.startswith "https://jp.pinterest.com/" board_url) eqn:Hurl;
    cbn [negb].
  - apply startswith_prefix in Hurl as (rest & ->).
    unfold init.
    pose proof (setup_driver_browsers H fs false no_launch) as (Hatt & _).
    destruct (setup_driver H fs false no_launch) as [[[]|e] l]; cbn [snd] in Hatt.
    + destruct (scrape_board E depth _ output_folder (new_scraper fs)) as [[[]|e] st];
        cbn [constructed exit_status scraped main_out];
        (split; [split; [discriminate | intros Hn; destruct Hn; eauto]|]);
        (split; [discriminate | now intros ? [= <-]]).
    + cbn [constructed exit_status scraped main_out].
      split; [split; [discriminate | intros Hn; destruct Hn; eauto]|].
      split; [discriminate | now intros ? [= <-]].
  - cbn [constructed exit_status scraped main_out].
    split; [split; [intros _ (? & rest & ? & [= _ -> _]) | reflexivity]|].
    + now rewrite startswith_app in Hurl.
    + split; [auto | intros l [=]].
Qed.

Example board_of_the_usage_message_is_refused :
  main Hosts.healthy serving_pictures 5 ∅
    ["pinterest_mac_profile.py"; "https://ru.pinterest.com/user/board-name/";
     "./pinterest_images"]
  = Run 1 [MsgInvalidURL] None None.
Proof. reflexivity. Qed.

(** X25.  Status 0 does not tell that anything was downloaded.  When
    the scraper is constructed and the output folder made, and the home
    page of Pinterest does not load, [main] ends with status 0 and
    prints nothing itself: the browser is asked for no other page, no
    request is sent, no file is written, and the browser is closed. *)
Theorem status_zero_without_any_download (H : host) (E : env) (depth : nat)
    (fs : gmap string string) (prog rest output_folder : string) (e : exn) :
  let r := main H E (S depth) fs
             [prog; "https://jp.pinterest.com/" +:+ rest; output_folder] in
  fst (setup_driver H fs false no_launch) = Ok tt ->
  makedirs E output_folder = Ok tt ->
  driver_get E 0 "https://www.pinterest.com" = Raise e ->
  exit_status r = 0%Z /\ main_out r = [] /\
  exists st,
    scraped r = Some st /\
    files st = fs /\ requests st = [] /\ downloaded_urls st = ∅ /\
    navigations st = ["https://www.pinterest.com"] /\ quits st = 1 /\
    stdout st = [MsgBrowserClosed; MsgLoginCheckFailed; MsgLoginError e].
Proof.
  intros r Hinit Hmk Hget. subst r. unfold main.
  rewrite startswith_app. cbn [negb]. unfold init.
  destruct (setup_driver H fs false no_launch) as [r0 l]. cbn [fst] in Hinit. subst r0.
  rewrite (scrape_board_try E _ _ _ _ Hmk). unfold try_except.
  rewrite (pipeline_login_failed E (S depth) _ output_folder (new_scraper fs)
             (set_stdout (cons (MsgLoginError e))
                (set_navigations (cons "https://www.pinterest.com") (new_scraper fs)))).
  - cbn. repeat split. eexists. repeat split.
  - cbn [check_login_status]. unfold try_except. unfold bind at 1. unfold navigate.
    cbn [new_scraper navigations length]. rewrite Hget. reflexivity.
Qed.

Lemma status_zero_without_any_download_witness :
  let r := main Hosts.healthy World.offline 1 Hosts.disk
             ["scraper"; "https://jp.pinterest.com/" +:+ "user/board/"; "out"] in
  exit_status r = 0%Z /\ main_out r = [] /\
  exists st,
    scraped r = Some st /\
    files st = Hosts.disk /\ requests st = [] /\ downloaded_urls st = ∅ /\
    navigations st = ["https://www.pinterest.com"] /\ quits st = 1 /\
    stdout st = [MsgBrowserClosed; MsgLoginCheckFailed; MsgLoginError WebDriverException].
Proof.
  intros r.
  apply (status_zero_without_any_download Hosts.healthy World.offline 0 Hosts.disk
           "scraper" "user/board/" "out" WebDriverException); reflexivity.
Defined.

(** X26.  [main] starts at most two browsers and closes at most one, in
    the [finally] block of [scrape_board]: with status 0 exactly one is
    closed, and none is closed when the constructor raises, which ends
    the run with status 1 and the exception in the last message.  A
    constructor that has started two browsers leaves one of them
    open. *)
Theorem main_closes_at_most_one_browser (H : host) (E : env) (depth : nat)
    (fs : gmap string string) (argv : list string) (l : launch) :
  let r := main H E depth fs argv in
  constructed r = Some l ->
  length (browsers l) <= 2 /\
  match scraped r with
  | Some st =>
      driver l <> None /\ quits st <= 1 /\
      (exit_status r = 0%Z -> quits st = 1) /\
      (quits st = 0 -> exists e, makedirs E (nth 2 argv "") = Raise e /\
                                 main_out r = [MsgFatal e])
  | None =>
      exit_status r = 1%Z /\
      exists e, fst (setup_driver H fs false no_launch) = Raise e /\
                main_out r = [MsgFatal e]
  end.
Proof.
  intros r. subst r.
  destruct argv as [|prog [|board_url [|output_folder [|extra argv]]]];
    try (cbn [main constructed]; discriminate).
  unfold main.
  destruct (PyStr.startswith "https://jp.pinterest.com/" board_url);
    cbn [negb]; [|cbn [constructed]; discriminate].
  unfold init.
  pose proof (setup_driver_browsers H fs false no_launch) as (_ & Hb & Hd).
  destruct (setup_driver H fs false no_launch) as [[[]|e] l0];
    cbn [fst snd no_launch browsers length] in Hb, Hd.
  - cbn [nth].
    destruct (makedirs E output_folder) as [[]|e] eqn:Hmk.
    + destruct (scrape_board E depth board_url output_folder (new_scraper fs))
        as [r st] eqn:Hrun.
      destruct (scrape_board_quits_once E _ _ _ _ _ _ Hmk Hrun) as [Hq _].
      cbn [new_scraper quits] in Hq.
      destruct r as [[]|e]; cbn [constructed scraped exit_status main_out];
        intros [= <-]; (split; [lia|]); (split; [auto|]);
        (split; [lia|]); (split; [auto | intros Hz; lia]).
    + rewrite (scrape_board_makedirs_raises E _ _ _ _ _ Hmk).
      cbn [constructed scraped exit_status main_out new_scraper quits].
      intros [= <-]. split; [lia|]. split; [auto|]. split; [lia|].
      split; [discriminate | eauto].
  - cbn [constructed scraped exit_status main_out].
    intros [= <-]. split; [lia|]. split; [reflexivity | eauto].
Qed.

Lemma main_closes_at_most_one_browser_witness :
  let r := main Hosts.script_blocked serving_pictures 5 Hosts.disk
             ["scraper"; "https://jp.pinterest.com/user/board/"; "out"] in
  exists l st,
    constructed r = Some l /\ scraped r = Some st /\
    length (browsers l) = 2 /\ quits st <= 1.
Proof.
  intros r.
  pose proof (main_closes_at_most_one_browser Hosts.script_blocked serving_pictures 5
                Hosts.disk
                ["scraper"; "https://jp.pinterest.com/user/board/"; "out"]
                (snd (init Hosts.script_blocked Hosts.disk false)) eq_refl) as T.
  exists (snd (init Hosts.script_blocked Hosts.disk false)).
  exists (snd (scrape_board serving_pictures 5 "https://jp.pinterest.com/user/board/"
                 "out" (new_scraper Hosts.disk))).
  split; [reflexivity|]. split; [reflexivity|]. split; [reflexivity|].
  exact (proj1 (proj2 (proj2 T))).
Defined.

(** [check_chrome.py] has no [try] statement: a browser in which the
    page does not load is left open. *)
Example check_chrome_leaves_the_browser_open :
  check_chrome Hosts.healthy (fun _ => Raise WebDriverException)
  = ChromeCheck 1 true false false.
Proof. reflexivity. Qed.
